(** * Trade-history export and CSV filter: a shallow embedding

    The two Python programs of the repository,
    [app/export_trade_histories.py] (timestamp codec, query builder, raw
    query guard) and [app/Filtertrade.py] (CSV row filter), are embedded as
    Rocq functions.  Python integers are [Z]; Python text is [string], each
    character standing for a code point below 256; a call that may raise
    returns a [result]. *)

From Stdlib Require Import ZArith List String Ascii Bool Lia.
From Stdlib Require Import DecimalString DecimalZ DecimalN DecimalPos DecimalFacts.
From Stdlib Require Import Permutation Sorted.
From Stdlib Require Import PrimFloat FloatOps SpecFloat Uint63.
Import ListNotations.

Local Open Scope string_scope.
Local Open Scope Z_scope.

(** ** Exceptions and results *)

(** One constructor per [raise] site of the two programs, and one for each
    library call of theirs that raises. *)
Inductive exn : Type :=
| ValueError_invalid_value        (* "Invalid BigIntHumanReadable value: ..." *)
| ValueError_unsupported_length   (* "Unsupported length for BigIntHumanReadable ..." *)
| ValueError_strptime             (* raised inside datetime.strptime *)
| ValueError_int                  (* raised inside int() *)
| OverflowError_date_range        (* raised inside datetime arithmetic *)
| ValueError_order_by
| ValueError_order_dir
| ValueError_limit
| ValueError_offset
| ValueError_not_select
| ValueError_missing_columns (listing : string)
| KeyError_magic
| Error_in_mapper
| FileNotFoundError_input         (* "File not found: ..." *)
| RuntimeError_read_csv.          (* "Error reading CSV. ..." *)

Inductive result (A : Type) : Type :=
| Return (a : A)
| Raise (e : exn).

Arguments Return {A} a.
Arguments Raise {A} e.

Definition bind {A B : Type} (m : result A) (k : A -> result B) : result B :=
  match m with
  | Return a => k a
  | Raise e => Raise e
  end.

Notation "x <- m ;; k" := (bind m (fun x => k))
  (at level 61, m at next level, right associativity).

(** ** Python text *)

Module PyStr.

Definition code (c : ascii) : Z := Z.of_nat (nat_of_ascii c).

(** [str.isspace] on one character: TAB..CR, FS..US, space, NEL and the
    no-break space are the white space below code point 256. *)
Definition isspace (c : ascii) : bool :=
  let n := code c in
  ((9 <=? n) && (n <=? 13)) || ((28 <=? n) && (n <=? 32))
  || (n =? 133) || (n =? 160).

(** The characters [0]..[9]: what [\d] of [re] and [int()] accept below 256. *)
Definition is_decimal (c : ascii) : bool :=
  let n := code c in (48 <=? n) && (n <=? 57).

(** [str.isdigit] on one character: the decimal digits and the superscripts
    two, three and one. *)
Definition isdigit_char (c : ascii) : bool :=
  let n := code c in
  is_decimal c || (n =? 178) || (n =? 179) || (n =? 185).

Fixpoint all_chars (p : ascii -> bool) (s : string) : bool :=
  match s with
  | EmptyString => true
  | String c r => p c && all_chars p r
  end.

(** [s.isdigit()]: false on the empty string. *)
Definition isdigit (s : string) : bool :=
  match s with
  | EmptyString => false
  | _ => all_chars isdigit_char s
  end.

Fixpoint lstrip (s : string) : string :=
  match s with
  | EmptyString => EmptyString
  | String c r => if isspace c then lstrip r else s
  end.

Fixpoint rstrip (s : string) : string :=
  match s with
  | EmptyString => EmptyString
  | String c r =>
      match rstrip r with
      | EmptyString => if isspace c then EmptyString else String c EmptyString
      | r' => String c r'
      end
  end.

Definition strip (s : string) : string := rstrip (lstrip s).

(** [str.lower] on one character below 256: the ASCII capitals and the
    Latin-1 capitals other than the multiplication sign. *)
Definition lower_char (c : ascii) : ascii :=
  let n := code c in
  if ((65 <=? n) && (n <=? 90))
     || ((192 <=? n) && (n <=? 222) && negb (n =? 215))
  then ascii_of_nat (nat_of_ascii c + 32) else c.

Fixpoint lower (s : string) : string :=
  match s with
  | EmptyString => EmptyString
  | String c r => String (lower_char c) (lower r)
  end.

Definition len (s : string) : Z := Z.of_nat (String.length s).

(** [s[:n]] and [s[n:]] for [n >= 0]. *)
Fixpoint take (n : nat) (s : string) : string :=
  match n, s with
  | S k, String c r => String c (take k r)
  | _, _ => EmptyString
  end.

Fixpoint drop (n : nat) (s : string) : string :=
  match n, s with
  | S k, String _ r => drop k r
  | _, _ => s
  end.

Definition startswith (p s : string) : bool := String.prefix p s.

(** [s.find(sub)]: the least index where [sub] occurs, [None] for -1. *)
Fixpoint find (sub s : string) : option nat :=
  if String.prefix sub s then Some O
  else match s with
       | EmptyString => None
       | String _ r => option_map S (find sub r)
       end.

(** [sep.join(parts)]. *)
Fixpoint join (sep : string) (parts : list string) : string :=
  match parts with
  | [] => EmptyString
  | [p] => p
  | p :: rest => p ++ sep ++ join sep rest
  end.

(** [str(z)] for an integer. *)
Definition str_of_int (z : Z) : string := NilZero.string_of_int (Z.to_int z).

(** [int(s)] on a text of decimal digits; [int] accepts more (signs, blanks,
    underscores), none of which reaches it from the two programs, where its
    argument has passed [isdigit] or was produced by formatting. *)
Definition int_of_str (s : string) : result Z :=
  match NilZero.uint_of_string s with
  | Some d => Return (Z.of_uint d)
  | None => Raise ValueError_int
  end.

Fixpoint zeros (n : nat) : string :=
  match n with
  | O => EmptyString
  | S k => String "0" (zeros k)
  end.

(** [format(z, "0<w>d")] and the fixed-width numeric fields of [strftime],
    for [z >= 0]: [str(z)] padded with zeros on the left up to width [w]. *)
Definition zero_pad (w : nat) (z : Z) : string :=
  let s := str_of_int z in
  zeros (w - String.length s) ++ s.


(** A check of every integer from [z] up to [z + n - 1]. *)
Fixpoint check_range (n : nat) (z : Z) (f : Z -> bool) : bool :=
  match n with
  | O => true
  | S k => if f z then check_range k (z + 1) f else false
  end.

Definition starts_nonzero (s : string) : bool :=
  match s with
  | String c _ => negb (Ascii.eqb c "0")
  | EmptyString => false
  end.

(** The number a text of decimal digits writes, digit by digit from the
    left, starting from [acc]. *)
Fixpoint value_from (acc : Z) (s : string) : Z :=
  match s with
  | EmptyString => acc
  | String c r => value_from (10 * acc + (code c - 48)) r
  end.

Definition decimal_value (s : string) : Z := value_from 0 s.

(** The number of places where the marker [%s] stands in a text. *)
Fixpoint placeholders (s : string) : nat :=
  match s with
  | EmptyString => O
  | String _ r =>
      ((if String.prefix "%s" s then 1 else 0) + placeholders r)%nat
  end.

(** A text that does not start with white space. *)
Definition clean_head (s : string) : Prop :=
  match s with
  | EmptyString => True
  | String c _ => isspace c = false
  end.

End PyStr.

(** ** Calendar dates and times ([datetime]) *)

Module Datetime.

(** [tzinfo]: the singleton [timezone.utc], or another zone reporting a
    fixed offset from UTC, in microseconds. *)
Inductive tzinfo : Type :=
| TzUTC
| TzFixed (offset_us : Z).

Record datetime : Type := mkdt {
  year : Z; month : Z; day : Z;
  hour : Z; minute : Z; second : Z;
  microsecond : Z;
  tz : option tzinfo  (* [None]: a naive datetime *)
}.

Definition MINYEAR : Z := 1.
Definition MAXYEAR : Z := 9999.
Definition MAXORDINAL : Z := 3652059.

Definition is_leap (y : Z) : bool :=
  (y mod 4 =? 0) && (negb (y mod 100 =? 0) || (y mod 400 =? 0)).

Definition DAYS_IN_MONTH : list Z :=
  [-1; 31; 28; 31; 30; 31; 30; 31; 31; 30; 31; 30; 31].

Definition DAYS_BEFORE_MONTH : list Z :=
  [-1; 0; 31; 59; 90; 120; 151; 181; 212; 243; 273; 304; 334].

Definition days_before_year (y : Z) : Z :=
  let p := y - 1 in p * 365 + p / 4 - p / 100 + p / 400.

Definition days_in_month (y m : Z) : Z :=
  if (m =? 2) && is_leap y then 29 else nth (Z.to_nat m) DAYS_IN_MONTH 0.

Definition days_before_month (y m : Z) : Z :=
  nth (Z.to_nat m) DAYS_BEFORE_MONTH 0
  + (if (2 <? m) && is_leap y then 1 else 0).

Definition ymd2ord (y m d : Z) : Z :=
  days_before_year y + days_before_month y m + d.

Definition DI400Y : Z := 146097.
Definition DI100Y : Z := 36524.
Definition DI4Y : Z := 1461.

(** The month and the day of the month of day [n] (from 0) of a year. *)
Definition month_day (n : Z) (leapyear : bool) : Z * Z :=
  let m := Z.shiftr (n + 50) 5 in
  let preceding :=
    nth (Z.to_nat m) DAYS_BEFORE_MONTH 0
    + (if (2 <? m) && leapyear then 1 else 0) in
  if n <? preceding then
    let m' := m - 1 in
    let preceding' :=
      preceding - (nth (Z.to_nat m') DAYS_IN_MONTH 0
                   + (if (m' =? 2) && leapyear then 1 else 0)) in
    (m', n - preceding' + 1)
  else (m, n - preceding + 1).

Definition ord2ymd (ordinal : Z) : Z * Z * Z :=
  let n := ordinal - 1 in
  let n400 := n / DI400Y in let n := n mod DI400Y in
  let y := n400 * 400 + 1 in
  let n100 := n / DI100Y in let n := n mod DI100Y in
  let n4 := n / DI4Y in let n := n mod DI4Y in
  let n1 := n / 365 in let n := n mod 365 in
  let y := y + n100 * 100 + n4 * 4 + n1 in
  if (n1 =? 4) || (n100 =? 4) then (y - 1, 12, 31)
  else
    let leapyear := (n1 =? 3) && (negb (n4 =? 24) || (n100 =? 3)) in
    let '(m, d) := month_day n leapyear in
    (y, m, d).

(** What the [datetime] constructor checks. *)
Definition valid (t : datetime) : bool :=
  (MINYEAR <=? year t) && (year t <=? MAXYEAR)
  && (1 <=? month t) && (month t <=? 12)
  && (1 <=? day t) && (day t <=? days_in_month (year t) (month t))
  && (0 <=? hour t) && (hour t <=? 23)
  && (0 <=? minute t) && (minute t <=? 59)
  && (0 <=? second t) && (second t <=? 59)
  && (0 <=? microsecond t) && (microsecond t <=? 999999).

Definition replace_tz (t : datetime) (z : option tzinfo) : datetime :=
  mkdt (year t) (month t) (day t) (hour t) (minute t) (second t)
       (microsecond t) z.

Definition replace_microsecond (t : datetime) (us : Z) : datetime :=
  mkdt (year t) (month t) (day t) (hour t) (minute t) (second t) us (tz t).

Definition US_PER_DAY : Z := 86400000000.

(** [t + timedelta(microseconds=delta)]: the sum is taken on the ordinal day
    and the time of day, and is refused outside years 1..9999. *)
Definition add_us (t : datetime) (delta : Z) : result datetime :=
  let secs :=
    ((ymd2ord (year t) (month t) (day t) * 24 + hour t) * 60 + minute t) * 60
    + second t in
  let total := secs * 1000000 + microsecond t + delta in
  let days := total / US_PER_DAY in
  let rest := total mod US_PER_DAY in
  let s := rest / 1000000 in
  if (0 <? days) && (days <=? MAXORDINAL) then
    let '(y, m, d) := ord2ymd days in
    Return (mkdt y m d (s / 3600) ((s mod 3600) / 60) ((s mod 3600) mod 60)
                 (rest mod 1000000) (tz t))
  else Raise OverflowError_date_range.

(** [t.astimezone(timezone.utc)] for an aware [t] of zone [z]: [t] itself
    when [z] is the [timezone.utc] object; otherwise the offset is
    subtracted, the zone replaced, and [timezone.utc.fromutc] adds its zero
    offset. *)
Definition astimezone_utc (t : datetime) (z : tzinfo) : result datetime :=
  match z with
  | TzUTC => Return t
  | TzFixed off =>
      u <- add_us t (- off) ;;
      add_us (replace_tz u (Some TzUTC)) 0
  end.

(** [datetime.strptime(s, "%Y%m%d%H%M%S")] on a text of 14 characters, the
    only length the program passes: every field must take its full width of
    decimal digits, month in 01..12, day in 01..31, hour in 00..23, minute in
    00..59, second in 00..61; the constructor then refuses year 0, a day
    past the month's end and seconds 60 and 61.  The result is naive. *)
Definition field (s : string) (start width : nat) : result Z :=
  PyStr.int_of_str (PyStr.take width (PyStr.drop start s)).

Definition strptime_ymdhms (s : string) : result datetime :=
  if negb ((String.length s =? 14)%nat && PyStr.all_chars PyStr.is_decimal s)
  then Raise ValueError_strptime
  else
    y <- field s 0 4 ;; m <- field s 4 2 ;; d <- field s 6 2 ;;
    hh <- field s 8 2 ;; mi <- field s 10 2 ;; ss <- field s 12 2 ;;
    let t := mkdt y m d hh mi ss 0 None in
    if valid t then Return t else Raise ValueError_strptime.

(** [t.strftime("%Y%m%d%H%M%S")]. *)
Definition strftime_ymdhms (t : datetime) : string :=
  PyStr.zero_pad 4 (year t) ++ PyStr.zero_pad 2 (month t)
  ++ PyStr.zero_pad 2 (day t) ++ PyStr.zero_pad 2 (hour t)
  ++ PyStr.zero_pad 2 (minute t) ++ PyStr.zero_pad 2 (second t).

(** [int(round(us / 1000.0))]: the quotient of an integer below 10^6 by
    1000.0 is the double nearest to the exact quotient, a half-way quotient
    is itself a double, and [round] takes the nearest integer, the even one
    of two equally near. *)
Definition round_ms (us : Z) : Z :=
  let q := us / 1000 in
  let r := us mod 1000 in
  if r <? 500 then q
  else if 500 <? r then q + 1
  else if Z.even q then q else q + 1.

(** The same quotient computed on doubles.  [us / 1000.0] is the IEEE
    division of the double of [us] by the double 1000.  A positive double
    [f] is [fr * 2^(e - 2101)] with [fr] in [1/2, 1) and [(fr, e)] its
    [frshiftexp], and [fr] is [m / 2^53] with [m] its integer mantissa; so
    [f] is [m / 2^k] for [k = 2154 - e], and [round] takes the integer
    nearest to that, the even one of two equally near. *)
Definition round_double (i : int) : int :=
  if Uint63.eqb i 0%uint63 then 0%uint63
  else
    let f := PrimFloat.div (PrimFloat.of_uint63 i) 1000%float in
    let (fr, e) := PrimFloat.frshiftexp f in
    let m := PrimFloat.normfr_mantissa fr in
    let k := Uint63.sub 2154%uint63 e in
    let q := Uint63.lsr m k in
    let rem := Uint63.sub m (Uint63.lsl q k) in
    let half := Uint63.lsl 1%uint63 (Uint63.sub k 1%uint63) in
    if Uint63.ltb rem half then q
    else if Uint63.ltb half rem then Uint63.add q 1%uint63
    else if Uint63.eqb (Uint63.land q 1%uint63) 0%uint63 then q
    else Uint63.add q 1%uint63.

Definition round_ms_double (us : Z) : Z :=
  Uint63.to_Z (round_double (Uint63.of_Z us)).

(** [round_ms] on [1000 * q + r], by cases on [r]. *)
Definition round_ms_cases (q r : Z) : Z :=
  if r <? 500 then q
  else if 500 <? r then q + 1
  else if Z.even q then q else q + 1.

(** The double arithmetic agrees with the cases on every [r] below 1000. *)
Definition double_agrees (q : Z) : bool :=
  PyStr.check_range 1000 0
    (fun r => Uint63.eqb (round_double (Uint63.of_Z (1000 * q + r)))
                         (Uint63.of_Z (round_ms_cases q r))).

(** What [month_day] must satisfy on day [n] of a year. *)
Definition month_day_ok (leap : bool) (n : Z) : bool :=
  let '(m, d) := month_day n leap in
  (1 <=? m) && (m <=? 12) && (1 <=? d)
  && (d <=? (if (m =? 2) && leap then 29 else nth (Z.to_nat m) DAYS_IN_MONTH 0))
  && (nth (Z.to_nat m) DAYS_BEFORE_MONTH 0
      + (if (2 <? m) && leap then 1 else 0) + d =? n + 1).

(** Microseconds from the start of ordinal day 0 to the wall-clock reading
    of [t], and to the instant [t] denotes. *)
Definition wall_us (t : datetime) : Z :=
  (((ymd2ord (year t) (month t) (day t) * 24 + hour t) * 60 + minute t) * 60
   + second t) * 1000000 + microsecond t.

Definition utcoffset (z : option tzinfo) : Z :=
  match z with
  | Some (TzFixed off) => off
  | _ => 0
  end.

Definition instant_us (t : datetime) : Z := wall_us t - utcoffset (tz t).

(** Python's order on tuples of integers. *)
Fixpoint tuple_cmp (a b : list Z) : comparison :=
  match a, b with
  | [], [] => Eq
  | [], _ :: _ => Lt
  | _ :: _, [] => Gt
  | x :: a', y :: b' =>
      match x ?= y with
      | Eq => tuple_cmp a' b'
      | c => c
      end
  end.

Definition fields (t : datetime) : list Z :=
  [year t; month t; day t; hour t; minute t; second t; microsecond t].

(** [t.utcoffset()] as microseconds, [None] for a naive datetime. *)
Definition offset_of (z : option tzinfo) : option Z :=
  match z with
  | None => None
  | Some TzUTC => Some 0
  | Some (TzFixed off) => Some off
  end.

Definition same_offset (a b : option Z) : bool :=
  match a, b with
  | None, None => true
  | Some x, Some y => x =? y
  | _, _ => false
  end.

(** [t._cmp(other)], behind the comparison operators: datetimes of one
    offset, or both naive, compare by their fields; a naive and an aware
    one do not compare ([None] stands for the TypeError); aware ones of
    different offsets compare by the sign of [t - other]. *)
Definition _cmp (t other : datetime) : option comparison :=
  let myoff := offset_of (tz t) in
  let otoff := offset_of (tz other) in
  if same_offset myoff otoff then Some (tuple_cmp (fields t) (fields other))
  else
    match myoff, otoff with
    | Some _, Some _ => Some (instant_us t ?= instant_us other)
    | _, _ => None
    end.

(** [t >= other]. *)
Definition ge (t other : datetime) : option bool :=
  match _cmp t other with
  | Some Lt => Some false
  | Some _ => Some true
  | None => None
  end.

End Datetime.

(** ** The timestamp codec ([export_trade_histories.py]) *)

Module Codec.
Import Datetime.

(** A value of type [int | str]. *)
Inductive pyval : Type :=
| VInt (z : Z)
| VStr (s : string).

Definition str (v : pyval) : string :=
  match v with
  | VInt z => PyStr.str_of_int z
  | VStr s => s
  end.

Definition SENTINEL : string := "19700101000000000".

Definition _is_epoch_sentinel (val : option pyval) : bool :=
  match val with
  | None => true
  | Some v =>
      let s := PyStr.strip (str v) in
      String.eqb s "0" || String.eqb s SENTINEL
  end.

Definition bigint_hr_to_datetime (value : option pyval)
  : result (option datetime) :=
  match value with
  | None => Return None
  | Some v =>
      let s := PyStr.strip (str v) in
      if String.eqb s "" || _is_epoch_sentinel (Some (VStr s)) then Return None
      else if negb (PyStr.isdigit s) then Raise ValueError_invalid_value
      else if (String.length s =? 14)%nat then
        dt <- strptime_ymdhms s ;;
        Return (Some (replace_tz dt (Some TzUTC)))
      else if (String.length s =? 17)%nat then
        let base := PyStr.take 14 s in
        let ms := PyStr.drop 14 s in
        dt <- strptime_ymdhms base ;;
        let dt := replace_tz dt (Some TzUTC) in
        n <- PyStr.int_of_str ms ;;
        Return (Some (replace_microsecond dt (n * 1000)))
      else Raise ValueError_unsupported_length
  end.

Definition datetime_to_bigint_hr (dt : option datetime) : result (option Z) :=
  match dt with
  | None => Return None
  | Some dt =>
      aware <- match tz dt with
               | None => Return (replace_tz dt (Some TzUTC))
               | Some z => astimezone_utc dt z
               end ;;
      let ms := round_ms (microsecond aware) in
      let '(aware, ms) :=
        if ms =? 1000 then (replace_microsecond aware 0, 0) else (aware, ms) in
      n <- PyStr.int_of_str (strftime_ymdhms aware ++ PyStr.zero_pad 3 ms) ;;
      Return (Some n)
  end.

(** The conversion to UTC at the head of [datetime_to_bigint_hr]: a naive
    datetime is taken as UTC, an aware one goes through [astimezone]. *)
Definition aware_utc (dt : datetime) : result datetime :=
  match tz dt with
  | None => Return (replace_tz dt (Some TzUTC))
  | Some z => astimezone_utc dt z
  end.

(** The millisecond field [datetime_to_bigint_hr] prints for a sub-second
    component of [us] microseconds. *)
Definition ms_field (us : Z) : Z :=
  let ms := round_ms us in
  if ms =? 1000 then 0 else ms.

(** Rounding half up, as the specification words it:
    [floor(us / 1000 + 1/2)]. *)
Definition spec_half_up_ms (us : Z) : Z := (us + 500) / 1000.

(** The 17-digit form of an encoded text of 14 or 17 digits. *)
Definition canonical17 (v : string) : string :=
  if (String.length v =? 14)%nat then v ++ "000" else v.

(** The integer whose decimal digits are the fields of a date and time and a
    millisecond count [ms]: YYYYMMDDhhmmssmmm. *)
Definition packed (t : datetime) (ms : Z) : Z :=
  ((((((year t * 100 + month t) * 100 + day t) * 100 + hour t) * 100
     + minute t) * 100 + second t) * 1000) + ms.

(** The number of a stored value: that of the 17-digit form of its text. *)
Definition stored_number (v : pyval) : Z :=
  PyStr.decimal_value (canonical17 (PyStr.strip (str v))).

(** [TradeRecord.is_closed], which reads the fields [open_time] and
    [close_time] of the record. *)
Definition is_closed (open_time close_time : option datetime) : option bool :=
  match open_time, close_time with
  | Some o, Some c => ge c o
  | _, _ => Some false
  end.

(** The Unix epoch, 1970-01-01T00:00:00 UTC. *)
Definition EPOCH : datetime := mkdt 1970 1 1 0 0 0 0 (Some TzUTC).

(** A datetime with 500 microseconds, half-way between two milliseconds. *)
Definition T_HALF : datetime := mkdt 2023 2 9 8 43 34 500 (Some TzUTC).

(** 10:43:34.9995 two hours ahead of UTC. *)
Definition T_EAST : datetime :=
  mkdt 2023 2 9 10 43 34 999500 (Some (TzFixed 7200000000)).

End Codec.

(** ** The query builder ([export_trade_histories.py]) *)

Module Query.
Import Datetime Codec.

Record TradeQuery : Type := mkQuery {
  trade_account_id : option Z;
  ticket : option Z;
  symbol : option string;
  opened_from : option datetime;
  opened_to : option datetime;
  closed_from : option datetime;
  closed_to : option datetime;
  comment_like : option string;
  limit : Z;
  offset : Z;
  order_by : string;
  order_dir : string
}.

Definition mem (x : string) (l : list string) : bool :=
  existsb (String.eqb x) l.

Definition allowed_cols : list string :=
  ["ID"; "OpenTime"; "CloseTime"; "TimeStamp"; "Ticket"].

Definition validate (q : TradeQuery) : result unit :=
  if negb (mem (order_by q) allowed_cols) then Raise ValueError_order_by
  else if negb (mem (order_dir q) ["ASC"; "DESC"]) then Raise ValueError_order_dir
  else if (limit q <=? 0) || (10000 <? limit q) then Raise ValueError_limit
  else if offset q <? 0 then Raise ValueError_offset
  else Return tt.

Definition COLUMNS : list string :=
  ["ID"; "TradeAccountID"; "Ticket"; "SymbolName"; "Digits"; "Type";
   "Quantity"; "State"; "OpenTime"; "OpenPrice"; "OpenRate"; "CloseTime";
   "ClosePrice"; "CloseRate"; "StopLoss"; "TakeProfit"; "Expiration";
   "Commission"; "CommissionAgent"; "Swap"; "Profit"; "Tax"; "Magic";
   "Comment"; "TimeStamp"].

(** A value bound to a [%s] placeholder. *)
Inductive param : Type :=
| PNone
| PInt (z : Z)
| PStr (s : string).

Definition param_of_opt_int (o : option Z) : param :=
  match o with
  | Some z => PInt z
  | None => PNone
  end.

(** The truth value of an [Optional[str]]. *)
Definition truthy (o : option string) : bool :=
  match o with
  | Some s => negb (String.eqb s "")
  | None => false
  end.

(** The two lists the function appends to. *)
Definition building : Type := (list string * list param)%type.

Definition append (b : building) (clause : string) (p : param) : building :=
  (fst b ++ [clause], snd b ++ [p])%list.

Definition append_time (b : building) (clause : string)
  (bound : option datetime) : result building :=
  match bound with
  | Some t =>
      n <- datetime_to_bigint_hr (Some t) ;;
      Return (append b clause (param_of_opt_int n))
  | None => Return b
  end.

Definition build_where_and_params (q : TradeQuery)
  : result (string * list param) :=
  _ <- validate q ;;
  let b : building := ([], []) in
  let b := match trade_account_id q with
           | Some a => append b "TradeAccountID = %s" (PInt a)
           | None => b
           end in
  let b := match ticket q with
           | Some k => append b "Ticket = %s" (PInt k)
           | None => b
           end in
  let b := if truthy (symbol q)
           then append b "SymbolName = %s"
                  (PStr (match symbol q with Some s => s | None => "" end))
           else b in
  b <- append_time b "OpenTime >= %s" (opened_from q) ;;
  b <- append_time b "OpenTime <= %s" (opened_to q) ;;
  b <- append_time b "CloseTime >= %s" (closed_from q) ;;
  b <- append_time b "CloseTime <= %s" (closed_to q) ;;
  let b := if truthy (comment_like q)
           then append b "Comment LIKE %s"
                  (PStr ("%" ++ (match comment_like q with
                                 | Some s => s | None => "" end) ++ "%"))
           else b in
  let where_ := match fst b with
                | [] => ""
                | _ => " WHERE " ++ PyStr.join " AND " (fst b)
                end in
  Return (where_, snd b).

(** *** The builder, as the specification words it *)

(** The parameter a temporal bound is bound as: the bound goes through the
    timestamp encoder. *)
Definition encode_bound (bound : option datetime) : result (option param) :=
  match bound with
  | Some t =>
      n <- datetime_to_bigint_hr (Some t) ;;
      Return (Some (param_of_opt_int n))
  | None => Return None
  end.

(** The predicate a filter field contributes: one when it is populated. *)
Definition predicate_of (clause : string) (p : option param)
  : list (string * param) :=
  match p with
  | Some x => [(clause, x)]
  | None => []
  end.

(** A text filter is populated when it is set and not empty. *)
Definition text_filter (o : option string) (wrap : string -> string)
  : option param :=
  match o with
  | Some s => if String.eqb s "" then None else Some (PStr (wrap s))
  | None => None
  end.

(** The predicates of a query, in the fixed order of the eight fields,
    given the encoded temporal bounds. *)
Definition spec_predicates (q : TradeQuery) (o_from o_to c_from c_to : option param)
  : list (string * param) :=
  (predicate_of "TradeAccountID = %s" (option_map PInt (trade_account_id q))
   ++ predicate_of "Ticket = %s" (option_map PInt (ticket q))
   ++ predicate_of "SymbolName = %s" (text_filter (symbol q) (fun s => s))
   ++ predicate_of "OpenTime >= %s" o_from
   ++ predicate_of "OpenTime <= %s" o_to
   ++ predicate_of "CloseTime >= %s" c_from
   ++ predicate_of "CloseTime <= %s" c_to
   ++ predicate_of "Comment LIKE %s"
        (text_filter (comment_like q) (fun s => ("%" ++ s ++ "%")%string)))%list.

Definition spec_where (preds : list (string * param)) : string :=
  match preds with
  | [] => ""
  | _ => " WHERE " ++ PyStr.join " AND " (map fst preds)
  end.

Definition with_symbol (q : TradeQuery) (s : option string) : TradeQuery :=
  mkQuery (trade_account_id q) (ticket q) s (opened_from q) (opened_to q)
          (closed_from q) (closed_to q) (comment_like q) (limit q) (offset q)
          (order_by q) (order_dir q).

Definition with_comment_like (q : TradeQuery) (s : option string)
  : TradeQuery :=
  mkQuery (trade_account_id q) (ticket q) (symbol q) (opened_from q)
          (opened_to q) (closed_from q) (closed_to q) s (limit q) (offset q)
          (order_by q) (order_dir q).

(** [TradeQuery()]: every field at its default. *)
Definition default_query : TradeQuery :=
  mkQuery None None None None None None None None 100 0 "OpenTime" "ASC".

(** What [validate] refuses. *)
Definition out_of_range (q : TradeQuery) : Prop :=
  ~ In (order_by q) ["ID"; "OpenTime"; "CloseTime"; "TimeStamp"; "Ticket"]
  \/ ~ In (order_dir q) ["ASC"; "DESC"]
  \/ limit q < 1 \/ 10000 < limit q
  \/ offset q < 0.

(** One step of the builder: the predicate of one field, if any, is added
    at the end. *)
Definition step (b : building) (clause : string) (o : option param)
  : building :=
  (fst b ++ map fst (predicate_of clause o),
   snd b ++ map snd (predicate_of clause o))%list.

(** Account 111, EURUSD, opened from 2023-02-09T00:00:00Z, comment "hedge". *)
Definition Q_SAMPLE : TradeQuery :=
  mkQuery (Some 111) None (Some "EURUSD")
          (Some (mkdt 2023 2 9 0 0 0 0 (Some TzUTC))) None None None
          (Some "hedge") 50 0 "OpenTime" "ASC".

(** A query for account 0, and one for ticket 0. *)
Definition Q_ACCOUNT_ZERO : TradeQuery :=
  mkQuery (Some 0) None None None None None None None 100 0 "OpenTime" "ASC".

Definition Q_TICKET_ZERO : TradeQuery :=
  mkQuery None (Some 0) None None None None None None 100 0 "OpenTime" "ASC".

End Query.

(** ** The store *)

(** What the two fetch functions do to the database, in order.  [RowMapped]
    marks a call of the record mapper. *)
Inductive event (row : Type) : Type :=
| Connected
| Executed (sql : string) (params : list Query.param)
| RowMapped (r : row)
| Closed.

Arguments Connected {row}.
Arguments Executed {row} sql params.
Arguments RowMapped {row} r.
Arguments Closed {row}.

Module Fetch.
Import Query.

Section WithStore.

(** A result row, the canonical record, and the record mapper
    [row_to_trade_record], which raises on a row it cannot convert. *)
Variables (row record : Type).
Variable row_to_trade_record : row -> result record.

(** The cursor: the rows a statement returns and the column names of its
    description. *)
Variable execute : string -> list param -> list row * list string.

Definition trace : Type := list (event row).

(** [[row_to_trade_record(r) for r in rows]]. *)
Fixpoint map_rows (rows : list row) (tr : trace)
  : result (list record) * trace :=
  match rows with
  | [] => (Return [], tr)
  | r :: rest =>
      match row_to_trade_record r with
      | Raise e => (Raise e, tr ++ [RowMapped r])%list
      | Return x =>
          let '(res, tr') := map_rows rest (tr ++ [RowMapped r])%list in
          (match res with
           | Return xs => Return (x :: xs)
           | Raise e => Raise e
           end, tr')
      end
  end.

Definition close (out : result (list record) * trace)
  : result (list record) * trace :=
  (fst out, snd out ++ [Closed])%list.

Definition fetch_trades (query : TradeQuery) : result (list record) * trace :=
  let columns_sql := PyStr.join ", " COLUMNS in
  match build_where_and_params query with
  | Raise e => (Raise e, [])
  | Return (where_sql, params) =>
      let sql :=
        "SELECT " ++ columns_sql ++ " FROM TradeHistories" ++ where_sql
        ++ " ORDER BY " ++ order_by query ++ " " ++ order_dir query
        ++ " LIMIT %s OFFSET %s" in
      let params := (params ++ [PInt (limit query); PInt (offset query)])%list in
      let '(rows, _) := execute sql params in
      close (map_rows rows [Connected; Executed sql params])
  end.

Definition NL : string := String (ascii_of_nat 10) "".

(** The first [while] of [_strip_leading_comments]; every turn shortens the
    text, [fuel] bounds the turns. *)
Fixpoint strip_blocks (fuel : nat) (s : string) : string :=
  match fuel with
  | O => s
  | S k =>
      if PyStr.startswith "/*" s then
        match PyStr.find "*/" s with
        | None => s
        | Some e => strip_blocks k (PyStr.lstrip (PyStr.drop (e + 2) s))
        end
      else s
  end.

(** The second [while]. *)
Fixpoint strip_lines (fuel : nat) (s : string) : string :=
  match fuel with
  | O => s
  | S k =>
      if PyStr.startswith "--" s then
        match PyStr.find NL s with
        | None => strip_lines k (PyStr.lstrip "")
        | Some n => strip_lines k (PyStr.lstrip (PyStr.drop (n + 1) s))
        end
      else s
  end.

Definition _strip_leading_comments (sql : string) : string :=
  let s := PyStr.lstrip sql in
  let s := strip_blocks (S (String.length s)) s in
  strip_lines (S (String.length s)) s.

Definition is_select_only (sql : string) : bool :=
  let s := _strip_leading_comments sql in
  String.eqb (PyStr.lower (PyStr.take 6 s)) "select".

(** [sorted] on texts: insertion by code-point order. *)
Fixpoint insert_sorted (x : string) (l : list string) : list string :=
  match l with
  | [] => [x]
  | y :: r => if String.leb x y then x :: l else y :: insert_sorted x r
  end.

Definition sorted (l : list string) : list string :=
  fold_right insert_sorted [] l.

(** [REQUIRED_SET - cols]. *)
Definition missing_columns (cols : list string) : list string :=
  filter (fun c => negb (mem c cols)) COLUMNS.

Definition fetch_trades_by_sql (sql : string) : result (list record) * trace :=
  if negb (is_select_only sql) then (Raise ValueError_not_select, [])
  else
    let '(rows, description) := execute sql [] in
    let tr : trace := [Connected; Executed sql []] in
    close
      (match rows with
       | [] => (Return [], tr)
       | _ =>
           let missing := missing_columns description in
           match missing with
           | [] => map_rows rows tr
           | _ => (Raise (ValueError_missing_columns
                            (PyStr.join ", " (sorted missing))), tr)
           end
       end).

End WithStore.

(** *** The guard, as the specification words it *)

(** The stripping of leading comments as the specification words it: white
    space, block comments and line comments are removed from the start of
    the text, time after time, in whatever order they come. *)
Fixpoint spec_strip (fuel : nat) (s : string) : string :=
  match fuel with
  | O => s
  | S k =>
      let s := PyStr.lstrip s in
      if PyStr.startswith "/*" s then
        match PyStr.find "*/" s with
        | Some e => spec_strip k (PyStr.drop (e + 2) s)
        | None => s
        end
      else if PyStr.startswith "--" s then
        match PyStr.find NL s with
        | Some n => spec_strip k (PyStr.drop (n + 1) s)
        | None => ""
        end
      else s
  end.

Definition spec_is_select (sql : string) : bool :=
  String.eqb (PyStr.lower (PyStr.take 6 (spec_strip (S (String.length sql)) sql)))
             "select".

(** A line comment, then a block comment, then the statement. *)
Definition SQL_LINE_THEN_BLOCK : string :=
  "-- note" ++ NL ++ "/* block */ SELECT 1".

(** The same two comments in the other order. *)
Definition SQL_BLOCK_THEN_LINE : string :=
  "/* block */ -- note" ++ NL ++ "SELECT 1".

(** The canonical columns but Ticket and Digits. *)
Definition COLUMNS_LESS_TWO : list string :=
  filter (fun c => negb (mem c ["Ticket"; "Digits"])) COLUMNS.

End Fetch.

(** *** A store that can fail *)

(** The two fetch functions once more, over a store whose calls can raise:
    [mysql.connector.connect], which stands before the [try], and the
    cursor calls inside it.  [Executed] marks that the statement was handed
    to [cur.execute], whether or not the call came back. *)
Module FallibleStore.
Import Query Fetch.

Section WithStore.

Variables (row record : Type).
Variable row_to_trade_record : row -> result record.

(** [mysql.connector.connect] on the connection parameters, and
    [cnx.cursor(dictionary=True)]. *)
Variable connect : result unit.
Variable cursor : result unit.

(** [cur.execute] and [cur.fetchall], with [cur.description]: the rows and
    the column names, or the error one of the calls raises. *)
Variable execute : string -> list param -> result (list row * list string).

Definition fetch_trades (query : TradeQuery)
  : result (list record) * trace row :=
  let columns_sql := PyStr.join ", " COLUMNS in
  match build_where_and_params query with
  | Raise e => (Raise e, [])
  | Return (where_sql, params) =>
      let sql :=
        "SELECT " ++ columns_sql ++ " FROM TradeHistories" ++ where_sql
        ++ " ORDER BY " ++ order_by query ++ " " ++ order_dir query
        ++ " LIMIT %s OFFSET %s" in
      let params := (params ++ [PInt (limit query); PInt (offset query)])%list in
      match connect with
      | Raise e => (Raise e, [])
      | Return _ =>
          close row record
            (match cursor with
             | Raise e => (Raise e, [Connected])
             | Return _ =>
                 let tr : trace row := [Connected; Executed sql params] in
                 match execute sql params with
                 | Raise e => (Raise e, tr)
                 | Return (rows, _) =>
                     map_rows row record row_to_trade_record rows tr
                 end
             end)
      end
  end.

Definition fetch_trades_by_sql (sql : string)
  : result (list record) * trace row :=
  if negb (is_select_only sql) then (Raise ValueError_not_select, [])
  else
    match connect with
    | Raise e => (Raise e, [])
    | Return _ =>
        close row record
          (match cursor with
           | Raise e => (Raise e, [Connected])
           | Return _ =>
               let tr : trace row := [Connected; Executed sql []] in
               match execute sql [] with
               | Raise e => (Raise e, tr)
               | Return (rows, description) =>
                   match rows with
                   | [] => (Return [], tr)
                   | _ =>
                       let missing := missing_columns description in
                       match missing with
                       | [] => map_rows row record row_to_trade_record rows tr
                       | _ => (Raise (ValueError_missing_columns
                                        (PyStr.join ", " (sorted missing))), tr)
                       end
                   end
               end
           end)
    end.

End WithStore.

End FallibleStore.

(** ** The CSV row filter ([Filtertrade.py]) *)

Module Filtertrade.

Definition CANCELLED_TOKENS : list string := ["cancelled"; "canceled"].

Section WithPandas.

(** Numbers as pandas holds them (64-bit integers and doubles), the test
    [== 0] on one, the number a text coerces to ([None] when it is not
    numeric) and the text a number is shown as. *)
Variable number : Type.
Variable is_zero : number -> bool.
Variable parse_number : string -> option number.
Variable show_number : number -> string.

(** One cell of a frame read by [read_csv]: missing, a number, or text. *)
Inductive cell : Type :=
| NA
| Num (n : number)
| Text (s : string).

Record DataFrame : Type := mkFrame {
  columns : list string;
  rows : list (list cell)
}.

Fixpoint index_of (name : string) (cols : list string) : option nat :=
  match cols with
  | [] => None
  | c :: r => if String.eqb c name then Some O
              else option_map S (index_of name r)
  end.

(** [df[name]]: the cells of one column, one per row. *)
Definition column (df : DataFrame) (i : nat) : list cell :=
  map (fun r => nth i r NA) (rows df).

(** [pd.to_numeric(series, errors="coerce")]; [None] is NaN. *)
Definition to_numeric (c : cell) : option number :=
  match c with
  | NA => None
  | Num n => Some n
  | Text s => parse_number s
  end.

(** [Series.eq(0)]: false on NaN. *)
Definition eq0 (o : option number) : bool :=
  match o with
  | Some n => is_zero n
  | None => false
  end.

Definition _magic_is_zero (series : list cell) : list bool :=
  map eq0 (map to_numeric series).

(** [astype("string")]; [None] is <NA>. *)
Definition astype_string (c : cell) : option string :=
  match c with
  | NA => None
  | Num n => Some (show_number n)
  | Text s => Some s
  end.

Definition fillna_str (d : string) (o : option string) : string :=
  match o with
  | Some s => s
  | None => d
  end.

Definition _normalize_comment (series : list cell) : list string :=
  map PyStr.lower
    (map PyStr.strip (map (fillna_str "") (map astype_string series))).

Definition isin (tokens : list string) (series : list string) : list bool :=
  map (fun s => Query.mem s tokens) series.

(** [.fillna(False)] on a Boolean mask, which has no missing entry. *)
Definition fillna_false (mask : list bool) : list bool := mask.

(** [a | b] on two masks. *)
Fixpoint mask_or (a b : list bool) : list bool :=
  match a, b with
  | x :: a', y :: b' => (x || y) :: mask_or a' b'
  | _, _ => []
  end.

(** [df.loc[~mask]]: the rows whose mask entry is false, in order. *)
Fixpoint loc_not (rs : list (list cell)) (mask : list bool)
  : list (list cell) :=
  match rs, mask with
  | r :: rs', m :: mask' =>
      if m then loc_not rs' mask' else r :: loc_not rs' mask'
  | _, _ => []
  end.

Definition filter_chunk (df : DataFrame) : result DataFrame :=
  match index_of "magic" (columns df) with
  | None => Raise KeyError_magic
  | Some im =>
      match index_of "comment" (columns df) with
      | None =>
          let magic_zero := fillna_false (_magic_is_zero (column df im)) in
          Return (mkFrame (columns df) (loc_not (rows df) magic_zero))
      | Some ic =>
          let magic_zero := fillna_false (_magic_is_zero (column df im)) in
          let comments := _normalize_comment (column df ic) in
          let cancelled := isin CANCELLED_TOKENS comments in
          let mask_drop := mask_or magic_zero cancelled in
          Return (mkFrame (columns df) (loc_not (rows df) mask_drop))
      end
  end.

(** *** The two conditions, row by row *)

(** Condition A on one row: the magic cell coerces to a number equal to 0. *)
Definition magic_zero_row (im : nat) (r : list cell) : bool :=
  eq0 (to_numeric (nth im r NA)).

(** The comment of one row: its text, trimmed and in lower case. *)
Definition comment_of_row (ic : nat) (r : list cell) : string :=
  PyStr.lower (PyStr.strip (fillna_str "" (astype_string (nth ic r NA)))).

(** Condition B on one row. *)
Definition cancelled_row (ic : nat) (r : list cell) : bool :=
  Query.mem (comment_of_row ic r) CANCELLED_TOKENS.

(** Whether a row of a frame with columns [cols] is kept: it meets neither
    condition, condition B counting only when there is a comment column. *)
Definition keep_row (cols : list string) (r : list cell) : bool :=
  match index_of "magic" cols with
  | None => true
  | Some im =>
      match index_of "comment" cols with
      | None => negb (magic_zero_row im r)
      | Some ic => negb (magic_zero_row im r || cancelled_row ic r)
      end
  end.

(** What a run has done so far: the frames appended to the output file and
    the two counters. *)
Record run : Type := mkRun {
  written : list DataFrame;
  total_in : Z;
  total_out : Z
}.

(** The loop of [filter_csv] over the chunks of the reader. *)
Fixpoint filter_loop (reader : list DataFrame) (st : run) : result unit * run :=
  match reader with
  | [] => (Return tt, st)
  | chunk :: rest =>
      let n_in := total_in st + Z.of_nat (List.length (rows chunk)) in
      match filter_chunk chunk with
      | Raise e => (Raise e, mkRun (written st) n_in (total_out st))
      | Return out =>
          filter_loop rest
            (mkRun (written st ++ [out])%list n_in
                   (total_out st + Z.of_nat (List.length (rows out))))
      end
  end.

Definition filter_csv (reader : list DataFrame) : result unit * run :=
  filter_loop reader (mkRun [] 0 0).

(** *** From the input file to the output file *)

(** The value [read_csv] gives one field, given the fields of its column in
    the chunk being read: the column decides the type, so a field may come
    out as a number, as text or as missing, and not the same field in every
    chunk.  And the text [to_csv] writes for a number. *)
Variable parse_field : list string -> string -> cell.
Variable write_number : number -> string.

(** The fields of column [j] in a chunk of records. *)
Definition field_column (recs : list (list string)) (j : nat) : list string :=
  map (fun r => nth j r "") recs.

(** The cells of one record of a chunk, from column [j] on. *)
Fixpoint read_fields (recs : list (list string)) (j : nat) (r : list string)
  : list cell :=
  match r with
  | [] => []
  | f :: r' => parse_field (field_column recs j) f :: read_fields recs (S j) r'
  end.

(** The frame the reader hands out for one chunk of records. *)
Definition read_chunk (names : list string) (recs : list (list string))
  : DataFrame :=
  mkFrame names (map (read_fields recs 0) recs).

(** The field [to_csv] writes for a cell: nothing for a missing one, a text
    as it is. *)
Definition write_cell (c : cell) : string :=
  match c with
  | NA => ""
  | Num n => write_number n
  | Text s => s
  end.

(** [out.to_csv(output_path, index=False, mode="a", header=header)]: the
    lines appended to the output file, each a list of fields. *)
Definition to_csv (out : DataFrame) (header : bool) : list (list string) :=
  ((if header then [columns out] else []) ++ map (map write_cell) (rows out))%list.

(** The lines a sequence of frames leaves in a file they are appended to,
    the first with the column names. *)
Definition frames_lines (frames : list DataFrame) : list (list string) :=
  match frames with
  | [] => []
  | f :: fs => (to_csv f true ++ flat_map (fun g => to_csv g false) fs)%list
  end.

(** The input as [filter_csv] finds it: no such file, a file [read_csv]
    refuses, or a reader with the column names and the records it hands
    out, chunk after chunk, one field per column in each record. *)
Inductive input_file : Type :=
| Absent
| Unreadable
| Reader (names : list string) (chunks : list (list (list string))).

(** The output file (its lines, none while nothing was appended) and the
    locals [wrote_header], [total_in] and [total_out]. *)
Record file_run : Type := mkFileRun {
  file_lines : list (list string);
  wrote_header : bool;
  rows_in : Z;
  rows_out : Z
}.

(** The loop of [filter_csv], reading, filtering and appending. *)
Fixpoint file_loop (names : list string) (chunks : list (list (list string)))
  (st : file_run) : result unit * file_run :=
  match chunks with
  | [] => (Return tt, st)
  | recs :: rest =>
      let chunk := read_chunk names recs in
      let n_in := rows_in st + Z.of_nat (List.length (rows chunk)) in
      match filter_chunk chunk with
      | Raise e =>
          (Raise e, mkFileRun (file_lines st) (wrote_header st) n_in (rows_out st))
      | Return out =>
          file_loop names rest
            (mkFileRun (file_lines st ++ to_csv out (negb (wrote_header st)))%list
                       true n_in
                       (rows_out st + Z.of_nat (List.length (rows out))))
      end
  end.

(** [filter_csv(input_path, output_path)], the output file being removed
    first when it exists. *)
Definition filter_csv_file (input : input_file) : result unit * file_run :=
  match input with
  | Absent => (Raise FileNotFoundError_input, mkFileRun [] false 0 0)
  | Unreadable => (Raise RuntimeError_read_csv, mkFileRun [] false 0 0)
  | Reader names chunks => file_loop names chunks (mkFileRun [] false 0 0)
  end.

End WithPandas.

Arguments NA {number}.
Arguments Num {number} n.
Arguments Text {number} s.
Arguments mkFrame {number} columns rows.
Arguments columns {number} d.
Arguments rows {number} d.
Arguments column {number} df i.
Arguments loc_not {number} rs mask.
Arguments mkRun {number} written total_in total_out.
Arguments written {number} r.
Arguments total_in {number} r.
Arguments total_out {number} r.
Arguments read_chunk {number} parse_field names recs.
Arguments read_fields {number} parse_field recs j r.
Arguments write_cell {number} write_number c.

(** *** The filter on a sample frame *)

(** Numbers as integers, and a text that coerces when it is made of decimal
    digits. *)
Definition parse_digits (s : string) : option Z :=
  match PyStr.int_of_str s with
  | Return z => Some z
  | Raise _ => None
  end.

Definition SAMPLE_FRAME : DataFrame Z :=
  mkFrame ["id"; "magic"; "comment"]
    [ [Num 1; Num 0; Text "x"];
      [Num 2; Num 5; Text "Cancelled"];
      [Num 3; Num 5; Text " cancelled  "];
      [Num 4; Num 5; Text "filled"];
      [Num 5; Text "abc"; Text "filled"];
      [Num 6; Text "0"; NA] ].

(** The same rows without the comment column. *)
Definition SAMPLE_NO_COMMENT : DataFrame Z :=
  mkFrame ["id"; "magic"]
    [ [Num 1; Num 0]; [Num 2; Num 5]; [Num 3; Text "abc"] ].

Definition SAMPLE_NO_MAGIC : DataFrame Z :=
  mkFrame ["id"; "comment"] [ [Num 1; Text "cancelled"] ].

(** *** The filter on a sample file *)

(** The reader on columns of whole numbers and of plain words: a column
    whose fields all are of one to eighteen decimal digits is read as
    integers, a field of any other column as the text it is.  (Fields that
    stand for a missing value, signed or fractional numbers and truth values
    are outside this instance.) *)
Definition small_number (f : string) : bool :=
  PyStr.all_chars PyStr.is_decimal f
  && (1 <=? String.length f)%nat && (String.length f <=? 18)%nat.

Definition parse_whole_numbers (col : list string) (f : string) : cell Z :=
  if forallb small_number col then
    match PyStr.int_of_str f with
    | Return z => Num z
    | Raise _ => Text f
    end
  else Text f.

(** One chunk of three records; the magic of the first is written 007. *)
Definition SAMPLE_NAMES : list string := ["id"; "magic"; "comment"].

Definition SAMPLE_RECORDS : list (list string) :=
  [ ["1"; "007"; "filled"]; ["2"; "0"; "x"]; ["3"; "5"; " Cancelled "] ].

End Filtertrade.

(** * Facts *)

(** ** Decimal texts *)

Section DecimalText.
Import PyStr.

Lemma is_decimal_uint_of_char c d :
  is_decimal c = true -> exists d', uint_of_char c (Some d) = Some d'.
Proof.
  destruct c as [[|] [|] [|] [|] [|] [|] [|] [|]]; vm_compute;
    intros H; try discriminate H; eexists; reflexivity.
Qed.

(** A text of decimal digits is the text of a decimal numeral. *)
Lemma digits_numeral s :
  all_chars is_decimal s = true ->
  exists d, s = NilEmpty.string_of_uint d.
Proof.
  induction s as [|c r IH]; intros H.
  - exists Decimal.Nil. reflexivity.
  - cbn [all_chars] in H. apply andb_true_iff in H as [Hc Hr].
    destruct (IH Hr) as [d ->].
    destruct (is_decimal_uint_of_char c d Hc) as [d' Hd'].
    exists d'. symmetry. apply NilEmpty.sus.
    cbn [NilEmpty.uint_of_string]. rewrite NilEmpty.usu. exact Hd'.
Qed.

Lemma numeral_digits d :
  all_chars is_decimal (NilEmpty.string_of_uint d) = true.
Proof. induction d; cbn; auto. Qed.

Lemma numeral_length d :
  String.length (NilEmpty.string_of_uint d) = Decimal.nb_digits d.
Proof. induction d; cbn; auto. Qed.

Lemma numeral_nonnil d :
  d <> Decimal.Nil -> NilEmpty.string_of_uint d <> "".
Proof. destruct d; cbn; intros H; [now elim H | discriminate ..]. Qed.

Lemma int_of_numeral d :
  d <> Decimal.Nil ->
  int_of_str (NilEmpty.string_of_uint d) = Return (Z.of_uint d).
Proof.
  intros Hd. unfold int_of_str.
  replace (NilEmpty.string_of_uint d) with (NilZero.string_of_uint d)
    by (destruct d; [now elim Hd | reflexivity ..]).
  rewrite NilZero.usu by assumption. reflexivity.
Qed.

Lemma str_of_numeral d :
  str_of_int (Z.of_uint d) = NilEmpty.string_of_uint (Decimal.unorm d).
Proof.
  unfold str_of_int.
  change (Z.of_uint d) with (Z.of_int (Decimal.Pos d)).
  rewrite DecimalZ.to_of. cbn [Decimal.norm NilZero.string_of_int].
  pose proof (unorm_nonnil d).
  destruct (Decimal.unorm d); [now elim H | reflexivity ..].
Qed.

Lemma zeros_numeral n d :
  zeros n ++ NilEmpty.string_of_uint d
  = NilEmpty.string_of_uint (Nat.iter n Decimal.D0 d).
Proof.
  induction n as [|n IH]; [reflexivity|].
  cbn [zeros append]. rewrite IH. reflexivity.
Qed.

(** Formatting the value of a digit text at the width of the text gives the
    text back. *)
Lemma zero_pad_numeral d :
  d <> Decimal.Nil ->
  zero_pad (Decimal.nb_digits d) (Z.of_uint d) = NilEmpty.string_of_uint d.
Proof.
  intros Hd. unfold zero_pad. rewrite str_of_numeral, numeral_length.
  rewrite zeros_numeral, iter_D0_unorm by assumption. reflexivity.
Qed.

Lemma str_of_int_nonneg z :
  0 <= z -> exists d, d <> Decimal.Nil /\ Decimal.unorm d = d
                      /\ Z.of_uint d = z
                      /\ str_of_int z = NilEmpty.string_of_uint d.
Proof.
  intros Hz. exists (Decimal.unorm (N.to_uint (Z.to_N z))).
  assert (E : Z.of_uint (Decimal.unorm (N.to_uint (Z.to_N z))) = z).
  { unfold Z.of_uint. rewrite DecimalPos.Unsigned.of_uint_norm.
    change (Pos.of_uint (N.to_uint (Z.to_N z)))
      with (N.of_uint (N.to_uint (Z.to_N z))).
    rewrite DecimalN.Unsigned.of_to. lia. }
  repeat split.
  - apply unorm_nonnil.
  - apply unorm_involutive.
  - exact E.
  - rewrite <- E at 1. rewrite str_of_numeral, unorm_involutive. reflexivity.
Qed.

(** Parsing a zero-padded number gives the number back. *)
Lemma int_of_zero_pad w z :
  0 <= z -> int_of_str (zero_pad w z) = Return z.
Proof.
  intros Hz. destruct (str_of_int_nonneg z Hz) as (d & Hd & _ & E & Hs).
  unfold zero_pad. rewrite Hs, zeros_numeral.
  rewrite int_of_numeral.
  - f_equal. rewrite <- E. unfold Z.of_uint. f_equal.
    rewrite <- (DecimalPos.Unsigned.of_uint_norm (Nat.iter _ _ _)).
    rewrite unorm_iter_D0. apply DecimalPos.Unsigned.of_uint_norm.
  - destruct (w - _)%nat; cbn; [assumption | discriminate].
Qed.

(** The text of the value of a digit text without a leading zero is the
    text itself. *)
Lemma str_of_int_of_str c r z :
  all_chars is_decimal (String c r) = true -> c <> "0"%char ->
  int_of_str (String c r) = Return z -> str_of_int z = String c r.
Proof.
  intros Hs Hc Hi. destruct (digits_numeral _ Hs) as [d E].
  assert (Hd : d <> Decimal.Nil) by (intros ->; discriminate E).
  rewrite E in Hi. rewrite int_of_numeral in Hi by assumption.
  injection Hi as <-. rewrite str_of_numeral, E.
  destruct d; [now elim Hd | injection E as E _; now elim Hc | reflexivity ..].
Qed.

End DecimalText.

(** ** The timestamp codec *)

Section CodecFacts.
Import PyStr Datetime Codec.

Lemma zero_pad_of_int s z :
  all_chars is_decimal s = true -> s <> "" ->
  int_of_str s = Return z -> zero_pad (String.length s) z = s.
Proof.
  intros Hs Hne Hi. destruct (digits_numeral s Hs) as [d ->].
  assert (Hd : d <> Decimal.Nil) by (intros ->; now elim Hne).
  rewrite int_of_numeral in Hi by assumption. injection Hi as <-.
  rewrite numeral_length. now apply zero_pad_numeral.
Qed.

Lemma decimal_not_space c : is_decimal c = true -> isspace c = false.
Proof.
  unfold is_decimal, isspace. intros H.
  apply andb_true_iff in H as [H1 H2].
  apply Z.leb_le in H1. apply Z.leb_le in H2.
  repeat (apply orb_false_iff; split);
    try (apply andb_false_iff);
    try (apply Z.eqb_neq; lia).
  - right. apply Z.leb_gt. lia.
  - right. apply Z.leb_gt. lia.
Qed.

Lemma lstrip_digits s : all_chars is_decimal s = true -> lstrip s = s.
Proof.
  destruct s as [|c r]; [reflexivity|]. cbn [all_chars lstrip].
  intros H. apply andb_true_iff in H as [Hc _].
  now rewrite (decimal_not_space c Hc).
Qed.

Lemma rstrip_digits s : all_chars is_decimal s = true -> rstrip s = s.
Proof.
  induction s as [|c r IH]; [reflexivity|]. cbn [all_chars rstrip].
  intros H. apply andb_true_iff in H as [Hc Hr].
  rewrite (IH Hr), (decimal_not_space c Hc). now destruct r.
Qed.

Lemma strip_digits s : all_chars is_decimal s = true -> strip s = s.
Proof.
  intros H. unfold strip. now rewrite (lstrip_digits s H), rstrip_digits.
Qed.

Lemma round_ms_whole n : round_ms (n * 1000) = n.
Proof.
  unfold round_ms. rewrite Z.div_mul, Z.mod_mul by lia. reflexivity.
Qed.


Lemma length_14 s :
  String.length s = 14%nat ->
  exists c1 c2 c3 c4 c5 c6 c7 c8 c9 c10 c11 c12 c13 c14,
    s = String c1 (String c2 (String c3 (String c4 (String c5 (String c6
        (String c7 (String c8 (String c9 (String c10 (String c11
        (String c12 (String c13 (String c14 ""))))))))))))).
Proof.
  intros H.
  do 14 (destruct s as [|? s]; [discriminate H|]).
  destruct s; [|discriminate H].
  repeat eexists.
Qed.

Lemma field_width s start width z :
  all_chars is_decimal (take width (drop start s)) = true ->
  String.length (take width (drop start s)) = width -> width <> O ->
  field s start width = Return z ->
  zero_pad width z = take width (drop start s).
Proof.
  intros Hd Hl Hw Hf. unfold field in Hf.
  rewrite <- Hl at 1. apply zero_pad_of_int; auto.
  intros E. rewrite E in Hl. cbn in Hl. congruence.
Qed.

Lemma strftime_strptime s t :
  strptime_ymdhms s = Return t -> strftime_ymdhms t = s.
Proof.
  unfold strptime_ymdhms.
  destruct (String.length s =? 14)%nat eqn:Hl; [|discriminate].
  destruct (all_chars is_decimal s) eqn:Hd; [|discriminate].
  cbn [andb negb]. apply Nat.eqb_eq in Hl.
  destruct (length_14 s Hl)
    as (c1 & c2 & c3 & c4 & c5 & c6 & c7 & c8 & c9 & c10 & c11 & c12 & c13
        & c14 & ->).
  cbn [all_chars] in Hd.
  repeat (apply andb_true_iff in Hd as [? Hd]).
  remember (String c1 _) as s0 eqn:Es.
  destruct (field _ 0 4) as [y|] eqn:Hy; [|discriminate].
  destruct (field _ 4 2) as [m|] eqn:Hm; [|discriminate].
  destruct (field _ 6 2) as [d|] eqn:Hdd; [|discriminate].
  destruct (field _ 8 2) as [hh|] eqn:Hh; [|discriminate].
  destruct (field _ 10 2) as [mi|] eqn:Hmi; [|discriminate].
  destruct (field _ 12 2) as [ss|] eqn:Hs; [|discriminate].
  cbn [bind]. destruct (valid _); [|discriminate].
  intros [= <-]. unfold strftime_ymdhms.
  cbn [year month day hour minute second].
  assert (W : forall st w z, w <> O ->
             all_chars is_decimal (take w (drop st s0)) = true ->
             String.length (take w (drop st s0)) = w ->
             field s0 st w = Return z ->
             zero_pad w z = take w (drop st s0)).
  { intros. now apply field_width. }
  subst s0.
  rewrite (W 0%nat 4%nat y), (W 4%nat 2%nat m), (W 6%nat 2%nat d),
    (W 8%nat 2%nat hh), (W 10%nat 2%nat mi), (W 12%nat 2%nat ss);
    try assumption; try discriminate; try reflexivity;
    cbn [take drop all_chars];
    repeat match goal with
           | E : is_decimal ?c = true |- context [is_decimal ?c] => rewrite E
           end; reflexivity.
Qed.


Lemma strptime_naive s t :
  strptime_ymdhms s = Return t -> microsecond t = 0 /\ tz t = None.
Proof.
  unfold strptime_ymdhms. destruct (negb _); [discriminate|].
  destruct (field s 0 4); [|discriminate].
  destruct (field s 4 2); [|discriminate].
  destruct (field s 6 2); [|discriminate].
  destruct (field s 8 2); [|discriminate].
  destruct (field s 10 2); [|discriminate].
  destruct (field s 12 2); [|discriminate].
  cbn [bind]. destruct (valid _); [|discriminate].
  intros [= <-]. split; reflexivity.
Qed.

Lemma take_drop n s : take n s ++ drop n s = s.
Proof.
  revert s. induction n as [|n IH]; intros [|c r]; cbn; try reflexivity.
  now rewrite IH.
Qed.

Lemma length_drop n s : String.length (drop n s) = (String.length s - n)%nat.
Proof.
  revert s. induction n as [|n IH]; intros [|c r]; cbn; auto.
Qed.

Lemma all_chars_drop p n s :
  all_chars p s = true -> all_chars p (drop n s) = true.
Proof.
  revert s. induction n as [|n IH]; intros [|c r]; cbn; auto.
  intros H. apply andb_true_iff in H as [_ H]. auto.
Qed.

Lemma all_chars_app p s1 s2 :
  all_chars p (s1 ++ s2) = all_chars p s1 && all_chars p s2.
Proof.
  induction s1 as [|c r IH]; cbn; [reflexivity|].
  now rewrite IH, andb_assoc.
Qed.

Lemma int_of_digits s :
  all_chars is_decimal s = true -> s <> "" -> exists n, int_of_str s = Return n.
Proof.
  intros Hs Hne. destruct (digits_numeral s Hs) as [d ->].
  exists (Z.of_uint d). apply int_of_numeral. intros ->. now elim Hne.
Qed.


Lemma encode_utc t :
  tz t = Some TzUTC -> round_ms (microsecond t) <> 1000 ->
  datetime_to_bigint_hr (Some t)
  = (n <- int_of_str (strftime_ymdhms t
                      ++ zero_pad 3 (round_ms (microsecond t))) ;;
     Return (Some n)).
Proof.
  intros Ht Hr. unfold datetime_to_bigint_hr.
  rewrite Ht. cbn [astimezone_utc bind].
  apply Z.eqb_neq in Hr. rewrite Hr. reflexivity.
Qed.

Lemma encode_decode_value v dt :
  all_chars is_decimal v = true ->
  bigint_hr_to_datetime (Some (VStr v)) = Return (Some dt) ->
  exists n, int_of_str (canonical17 v) = Return n
            /\ datetime_to_bigint_hr (Some dt) = Return (Some n).
Proof.
  intros Hv. unfold bigint_hr_to_datetime. cbn [str].
  rewrite (strip_digits v Hv).
  destruct (_ || _); [discriminate|].
  destruct (negb _); [discriminate|].
  unfold canonical17.
  destruct (String.length v =? 14)%nat eqn:L14.
  - destruct (strptime_ymdhms v) as [t|] eqn:Hp; [|discriminate].
    cbn [bind]. intros [= <-].
    destruct (strptime_naive v t Hp) as [Hus _].
    destruct (int_of_digits (v ++ "000")) as [n Hn].
    { rewrite all_chars_app, Hv. reflexivity. }
    { destruct v; discriminate. }
    exists n. split; [exact Hn|].
    rewrite encode_utc; cbn [tz microsecond replace_tz].
    + rewrite Hus. change (round_ms 0) with 0. change (zero_pad 3 0) with "000".
      replace (strftime_ymdhms _) with (strftime_ymdhms t) by reflexivity.
      rewrite (strftime_strptime v t Hp), Hn. reflexivity.
    + reflexivity.
    + rewrite Hus. discriminate.
  - destruct (String.length v =? 17)%nat eqn:L17; [|discriminate].
    apply Nat.eqb_eq in L17.
    destruct (strptime_ymdhms (take 14 v)) as [t|] eqn:Hp; [|discriminate].
    cbn [bind].
    destruct (int_of_str (drop 14 v)) as [k|] eqn:Hk; [|discriminate].
    cbn [bind]. intros [= <-].
    assert (Hms : all_chars is_decimal (drop 14 v) = true)
      by now apply all_chars_drop.
    assert (Lms : String.length (drop 14 v) = 3%nat)
      by (rewrite length_drop, L17; reflexivity).
    assert (Hpad : zero_pad 3 k = drop 14 v).
    { rewrite <- Lms at 1. apply zero_pad_of_int; auto.
      intros E. rewrite E in Lms. discriminate. }
    destruct (int_of_digits v Hv) as [n Hn].
    { intros ->. discriminate. }
    exists n. split; [exact Hn|].
    rewrite encode_utc; cbn [tz microsecond replace_tz replace_microsecond].
    + rewrite round_ms_whole, Hpad.
      replace (strftime_ymdhms _) with (strftime_ymdhms t) by reflexivity.
      rewrite (strftime_strptime _ t Hp), take_drop, Hn. reflexivity.
    + reflexivity.
    + rewrite round_ms_whole. intros ->.
      rewrite <- Hpad in Lms. discriminate Lms.
Qed.




(** ** Bounded checks *)

Lemma check_range_spec n : forall z f,
  check_range n z f = true -> forall x, z <= x < z + Z.of_nat n -> f x = true.
Proof.
  induction n as [|k IH]; intros z f H x Hx; [lia|].
  cbn [check_range] in H. destruct (f z) eqn:Hz; [|discriminate].
  destruct (Z.eq_dec x z) as [->|Hne]; [exact Hz|].
  apply (IH (z + 1) f H). lia.
Qed.

Lemma zero_pad_digits w z : 0 <= z -> all_chars is_decimal (zero_pad w z) = true.
Proof.
  intros Hz. destruct (str_of_int_nonneg z Hz) as (d & _ & _ & _ & Hs).
  unfold zero_pad. rewrite Hs, zeros_numeral. apply numeral_digits.
Qed.

Lemma zero_pad_length_2 z :
  0 <= z < 100 -> String.length (zero_pad 2 z) = 2%nat.
Proof.
  intros Hz. apply Nat.eqb_eq.
  apply (check_range_spec 100 0
           (fun z => (String.length (zero_pad 2 z) =? 2)%nat));
    [vm_compute; reflexivity | lia].
Qed.

Lemma zero_pad_length_3 z :
  0 <= z < 1000 -> String.length (zero_pad 3 z) = 3%nat.
Proof.
  intros Hz. apply Nat.eqb_eq.
  apply (check_range_spec 1000 0
           (fun z => (String.length (zero_pad 3 z) =? 3)%nat));
    [vm_compute; reflexivity | lia].
Qed.


Lemma zero_pad_length_4 z :
  0 <= z < 10000 ->
  String.length (zero_pad 4 z) = 4%nat
  /\ (1000 <= z -> starts_nonzero (zero_pad 4 z) = true).
Proof.
  intros Hz.
  pose proof (check_range_spec (Z.to_nat 10000) 0
           (fun z => (String.length (zero_pad 4 z) =? 4)%nat
                     && ((z <? 1000) || starts_nonzero (zero_pad 4 z)))) as C.
  specialize (C ltac:(vm_compute; reflexivity) z ltac:(lia)). cbv beta in C.
  apply andb_true_iff in C as [C1 C2]. apply Nat.eqb_eq in C1.
  split; [exact C1|]. intros Hy.
  apply orb_true_iff in C2 as [C2|C2]; [apply Z.ltb_lt in C2; lia | exact C2].
Qed.



Lemma is_decimal_isdigit s :
  all_chars is_decimal s = true -> all_chars isdigit_char s = true.
Proof.
  induction s as [|c r IH]; [reflexivity|]. cbn [all_chars].
  intros H. apply andb_true_iff in H as [Hc Hr].
  rewrite (IH Hr). unfold isdigit_char. rewrite Hc. reflexivity.
Qed.

Lemma days_in_month_le y m : 1 <= m <= 12 -> days_in_month y m <= 31.
Proof.
  intros Hm. unfold days_in_month. destruct (_ && _); [lia|].
  assert (E : m = 1 \/ m = 2 \/ m = 3 \/ m = 4 \/ m = 5 \/ m = 6 \/ m = 7
              \/ m = 8 \/ m = 9 \/ m = 10 \/ m = 11 \/ m = 12) by lia.
  decompose [or] E; subst m; apply Z.leb_le; reflexivity.
Qed.

Lemma valid_bounds t :
  valid t = true ->
  1 <= year t <= 9999 /\ 1 <= month t <= 12 /\ 1 <= day t <= 31
  /\ 0 <= hour t <= 23 /\ 0 <= minute t <= 59 /\ 0 <= second t <= 59
  /\ 0 <= microsecond t <= 999999.
Proof.
  unfold valid, MINYEAR, MAXYEAR. intros H.
  repeat (apply andb_true_iff in H as [H ?]).
  repeat match goal with
         | E : (_ <=? _) = true |- _ => apply Z.leb_le in E
         end.
  pose proof (days_in_month_le (year t) (month t)). lia.
Qed.

Lemma valid_naive t :
  valid t = true ->
  valid (mkdt (year t) (month t) (day t) (hour t) (minute t) (second t)
              0 None) = true.
Proof.
  unfold valid. cbn [year month day hour minute second microsecond].
  intros H. apply andb_true_iff in H as [H _].
  apply andb_true_iff in H as [H _]. rewrite H. reflexivity.
Qed.

Lemma decode_encode_instant t :
  valid t = true -> tz t = Some TzUTC -> microsecond t mod 1000 = 0 ->
  1000 <= year t -> t <> EPOCH ->
  exists n, datetime_to_bigint_hr (Some t) = Return (Some n)
            /\ bigint_hr_to_datetime (Some (VInt n)) = Return (Some t).
Proof.
  intros Hv Htz Hms Hy Hne.
  destruct (valid_bounds t Hv) as (By & Bm & Bd & Bh & Bmi & Bs & Bus).
  set (k := microsecond t / 1000).
  assert (Hk : microsecond t = k * 1000).
  { unfold k. pose proof (Z.div_mod (microsecond t) 1000). lia. }
  assert (Bk : 0 <= k < 1000) by lia.
  assert (Hr : round_ms (microsecond t) = k)
    by (rewrite Hk; apply round_ms_whole).
  rewrite encode_utc by (try assumption; rewrite Hr; lia).
  rewrite Hr. unfold strftime_ymdhms.
  (* the seven fields, as texts *)
  destruct (zero_pad_length_4 (year t)) as [Ly Hnz]; [lia|].
  specialize (Hnz Hy).
  pose proof (zero_pad_length_2 (month t) ltac:(lia)) as Lm.
  pose proof (zero_pad_length_2 (day t) ltac:(lia)) as Ld.
  pose proof (zero_pad_length_2 (hour t) ltac:(lia)) as Lh.
  pose proof (zero_pad_length_2 (minute t) ltac:(lia)) as Lmi.
  pose proof (zero_pad_length_2 (second t) ltac:(lia)) as Ls.
  pose proof (zero_pad_length_3 k Bk) as Lk.
  pose proof (zero_pad_digits 4 (year t) ltac:(lia)) as Dy.
  pose proof (zero_pad_digits 2 (month t) ltac:(lia)) as Dm.
  pose proof (zero_pad_digits 2 (day t) ltac:(lia)) as Dd.
  pose proof (zero_pad_digits 2 (hour t) ltac:(lia)) as Dh.
  pose proof (zero_pad_digits 2 (minute t) ltac:(lia)) as Dmi.
  pose proof (zero_pad_digits 2 (second t) ltac:(lia)) as Ds.
  pose proof (zero_pad_digits 3 k ltac:(lia)) as Dk.
  pose proof (int_of_zero_pad 4 (year t) ltac:(lia)) as Iy.
  pose proof (int_of_zero_pad 2 (month t) ltac:(lia)) as Im.
  pose proof (int_of_zero_pad 2 (day t) ltac:(lia)) as Id.
  pose proof (int_of_zero_pad 2 (hour t) ltac:(lia)) as Ih.
  pose proof (int_of_zero_pad 2 (minute t) ltac:(lia)) as Imi.
  pose proof (int_of_zero_pad 2 (second t) ltac:(lia)) as Is.
  pose proof (int_of_zero_pad 3 k ltac:(lia)) as Ik.
  destruct (zero_pad 4 (year t)) as [|y1 [|y2 [|y3 [|y4 [|? ?]]]]];
    try discriminate Ly.
  destruct (zero_pad 2 (month t)) as [|m1 [|m2 [|? ?]]]; try discriminate Lm.
  destruct (zero_pad 2 (day t)) as [|d1 [|d2 [|? ?]]]; try discriminate Ld.
  destruct (zero_pad 2 (hour t)) as [|h1 [|h2 [|? ?]]]; try discriminate Lh.
  destruct (zero_pad 2 (minute t)) as [|i1 [|i2 [|? ?]]]; try discriminate Lmi.
  destruct (zero_pad 2 (second t)) as [|s1 [|s2 [|? ?]]]; try discriminate Ls.
  destruct (zero_pad 3 k) as [|k1 [|k2 [|k3 [|? ?]]]]; try discriminate Lk.
  cbn [append].
  set (S17 := String y1 _).
  assert (D17 : all_chars is_decimal S17 = true).
  { unfold S17. cbn [all_chars] in *.
    repeat match goal with
           | E : (_ && _) = true |- _ => apply andb_true_iff in E as [? E]
           end.
    repeat match goal with
           | E : is_decimal ?c = true |- context [is_decimal ?c] => rewrite E
           end. reflexivity. }
  destruct (int_of_digits S17 D17) as [n Hn]; [discriminate|].
  exists n. rewrite Hn. split; [reflexivity|].
  unfold bigint_hr_to_datetime. cbn [str].
  assert (Hstr : str_of_int n = S17).
  { apply str_of_int_of_str; auto.
    cbn [starts_nonzero] in Hnz. intros ->. discriminate Hnz. }
  rewrite Hstr, (strip_digits S17 D17).
  assert (Hsent : (String.eqb S17 "" || _is_epoch_sentinel (Some (VStr S17)))
                  = false).
  { cbn [String.eqb orb]. unfold _is_epoch_sentinel. cbn [str].
    rewrite (strip_digits S17 D17).
    replace (String.eqb S17 "0") with false
      by (symmetry; apply String.eqb_neq; discriminate).
    cbn [orb].
    apply String.eqb_neq. intros E. unfold S17, SENTINEL in E.
    injection E as -> -> -> -> -> -> -> -> -> -> -> -> -> -> -> -> ->.
    apply Hne. destruct t as [y m d h mi s us z].
    cbn [year month day hour minute second microsecond tz] in *.
    change (int_of_str "1970") with (Return (A:=Z) 1970) in Iy.
    change (int_of_str "01") with (Return (A:=Z) 1) in Im, Id.
    change (int_of_str "00") with (Return (A:=Z) 0) in Ih, Imi, Is.
    change (int_of_str "000") with (Return (A:=Z) 0) in Ik.
    injection Iy as <-. injection Im as <-. injection Id as <-.
    injection Ih as <-. injection Imi as <-. injection Is as <-.
    injection Ik as Ek. subst z. unfold EPOCH. f_equal. lia. }
  rewrite Hsent.
  replace (isdigit S17) with true
    by (symmetry; apply (is_decimal_isdigit S17 D17)).
  cbn [negb]. replace (String.length S17 =? 14)%nat with false by reflexivity.
  replace (String.length S17 =? 17)%nat with true by reflexivity.
  unfold S17. cbn [take drop].
  unfold strptime_ymdhms.
  set (S14 := String y1 _).
  replace (String.length S14 =? 14)%nat with true by reflexivity.
  assert (D14 : all_chars is_decimal S14 = true).
  { unfold S17, S14 in *. cbn [all_chars] in D17 |- *.
    repeat match goal with
           | E : (_ && _) = true |- _ => apply andb_true_iff in E as [? E]
           end.
    repeat match goal with
           | E : is_decimal ?c = true |- context [is_decimal ?c] => rewrite E
           end. reflexivity. }
  rewrite D14. cbn [andb negb]. unfold field, S14. cbn [take drop].
  rewrite Iy, Im, Id, Ih, Imi, Is. cbn [bind].
  rewrite (valid_naive t Hv).
  rewrite Ik. cbn [bind]. do 2 f_equal.
  destruct t as [y m d h mi s us z].
  cbn [year month day hour minute second microsecond tz] in *.
  unfold replace_microsecond, replace_tz. cbn. f_equal; [lia | congruence].
Qed.

End CodecFacts.

Section CalendarFacts.
Import PyStr Datetime.




Lemma month_day_spec leap n :
  0 <= n < 365 -> month_day_ok leap n = true.
Proof.
  intros Hn. destruct leap.
  - apply (check_range_spec 365 0 (month_day_ok true));
      [vm_compute; reflexivity | lia].
  - apply (check_range_spec 365 0 (month_day_ok false));
      [vm_compute; reflexivity | lia].
Qed.

Lemma is_leap_parts a b c e :
  0 <= b <= 3 -> 0 <= c <= 24 -> 0 <= e <= 3 ->
  is_leap (a * 400 + 1 + b * 100 + c * 4 + e)
  = (e =? 3) && (negb (c =? 24) || (b =? 3)).
Proof.
  intros Hb Hc He. unfold is_leap.
  set (y := a * 400 + 1 + b * 100 + c * 4 + e).
  assert (M4 : y mod 4 = (e + 1) mod 4).
  { unfold y. replace (a * 400 + 1 + b * 100 + c * 4 + e)
      with ((e + 1) + (a * 100 + b * 25 + c) * 4) by lia.
    apply Z.mod_add. lia. }
  assert (M100 : y mod 100 = (c * 4 + e + 1) mod 100).
  { unfold y. replace (a * 400 + 1 + b * 100 + c * 4 + e)
      with ((c * 4 + e + 1) + (a * 4 + b) * 100) by lia.
    apply Z.mod_add. lia. }
  assert (M400 : y mod 400 = (b * 100 + c * 4 + e + 1) mod 400).
  { unfold y. replace (a * 400 + 1 + b * 100 + c * 4 + e)
      with ((b * 100 + c * 4 + e + 1) + a * 400) by lia.
    apply Z.mod_add. lia. }
  rewrite M4, M100, M400.
  destruct (e =? 3) eqn:E3.
  - apply Z.eqb_eq in E3. subst e.
    replace ((3 + 1) mod 4) with 0 by reflexivity. cbn [Z.eqb andb].
    destruct (c =? 24) eqn:E24.
    + apply Z.eqb_eq in E24. subst c.
      replace ((24 * 4 + 3 + 1) mod 100) with 0 by reflexivity.
      cbn [Z.eqb negb orb].
      destruct (b =? 3) eqn:B3.
      * apply Z.eqb_eq in B3. subst b. reflexivity.
      * apply Z.eqb_neq in B3. apply Z.eqb_neq.
        rewrite Z.mod_small by lia. lia.
    + apply Z.eqb_neq in E24. cbn [negb orb].
      replace ((c * 4 + 3 + 1) mod 100 =? 0) with false; [reflexivity|].
      symmetry. apply Z.eqb_neq. rewrite Z.mod_small by lia. lia.
  - apply Z.eqb_neq in E3. cbn [andb].
    replace ((e + 1) mod 4 =? 0) with false; [reflexivity|].
    symmetry. apply Z.eqb_neq. rewrite Z.mod_small by lia. lia.
Qed.


Lemma days_before_year_parts a b c e :
  0 <= b <= 3 -> 0 <= c <= 24 -> 0 <= e <= 3 ->
  days_before_year (a * 400 + 1 + b * 100 + c * 4 + e)
  = a * 146097 + b * 36524 + c * 1461 + e * 365.
Proof.
  intros Hb Hc He. unfold days_before_year.
  replace (a * 400 + 1 + b * 100 + c * 4 + e - 1)
    with (a * 400 + b * 100 + c * 4 + e) by lia.
  cbv zeta. Z.div_mod_to_equations. lia.
Qed.

(** The date of an ordinal day is a calendar date, whose ordinal it is. *)
Lemma ord2ymd_spec n :
  1 <= n ->
  let '(y, m, d) := ord2ymd n in
  1 <= m <= 12 /\ 1 <= d <= days_in_month y m /\ ymd2ord y m d = n
  /\ 1 <= y /\ (n <= MAXORDINAL -> y <= 9999).
Proof.
  intros Hn. unfold ord2ymd, DI400Y, DI100Y, DI4Y, MAXORDINAL. cbv zeta.
  pose proof (Z.div_mod (n - 1) 146097 ltac:(lia)) as E400.
  pose proof (Z.mod_pos_bound (n - 1) 146097 ltac:(lia)) as B400.
  set (a := (n - 1) / 146097) in *. set (r400 := (n - 1) mod 146097) in *.
  pose proof (Z.div_mod r400 36524 ltac:(lia)) as E100.
  pose proof (Z.mod_pos_bound r400 36524 ltac:(lia)) as B100.
  set (b := r400 / 36524) in *. set (r100 := r400 mod 36524) in *.
  pose proof (Z.div_mod r100 1461 ltac:(lia)) as E4.
  pose proof (Z.mod_pos_bound r100 1461 ltac:(lia)) as B4.
  set (c := r100 / 1461) in *. set (r4 := r100 mod 1461) in *.
  pose proof (Z.div_mod r4 365 ltac:(lia)) as E1.
  pose proof (Z.mod_pos_bound r4 365 ltac:(lia)) as B1.
  set (e := r4 / 365) in *. set (r := r4 mod 365) in *.
  clearbody a r400 b r100 c r4 e r.
  assert (Ha : 0 <= a) by lia.
  assert (Hb : 0 <= b <= 4) by lia.
  assert (Hc : 0 <= c <= 24) by lia.
  assert (He : 0 <= e <= 4) by lia.
  destruct ((e =? 4) || (b =? 4)) eqn:Sp.
  - (* the last day of a year that ends a 4-year or 400-year cycle *)
    assert (Hcase : (e = 4 /\ b <= 3 /\ c <= 23 /\ r = 0)
                    \/ (b = 4 /\ c = 0 /\ e = 0 /\ r = 0)).
    { apply orb_true_iff in Sp as [Sp|Sp]; apply Z.eqb_eq in Sp; lia. }
    destruct Hcase as [(-> & Hb3 & Hc23 & ->) | (-> & -> & -> & ->)].
    + replace (a * 400 + 1 + b * 100 + c * 4 + 4 - 1)
        with (a * 400 + 1 + b * 100 + c * 4 + 3) by lia.
      unfold ymd2ord, days_in_month, days_before_month.
      rewrite days_before_year_parts, is_leap_parts by lia.
      replace (c =? 24) with false by (symmetry; apply Z.eqb_neq; lia).
      change (nth (Z.to_nat 12) DAYS_IN_MONTH 0) with 31.
      change (nth (Z.to_nat 12) DAYS_BEFORE_MONTH 0) with 334.
      cbn. lia.
    + replace (a * 400 + 1 + 4 * 100 + 0 * 4 + 0 - 1)
        with ((a + 1) * 400 + 1 + 3 * 100 + 24 * 4 + 3 - 400) by lia.
      replace ((a + 1) * 400 + 1 + 3 * 100 + 24 * 4 + 3 - 400)
        with (a * 400 + 1 + 3 * 100 + 24 * 4 + 3) by lia.
      unfold ymd2ord, days_in_month, days_before_month.
      rewrite days_before_year_parts, is_leap_parts by lia.
      change (nth (Z.to_nat 12) DAYS_IN_MONTH 0) with 31.
      change (nth (Z.to_nat 12) DAYS_BEFORE_MONTH 0) with 334.
      cbn. lia.
  - apply orb_false_iff in Sp as [Se Sb].
    apply Z.eqb_neq in Se. apply Z.eqb_neq in Sb.
    set (leap := (e =? 3) && (negb (c =? 24) || (b =? 3))).
    pose proof (month_day_spec leap r B1) as Hmd.
    unfold month_day_ok in Hmd.
    destruct (month_day r leap) as [m d].
    repeat (apply andb_true_iff in Hmd as [Hmd ?]).
    repeat match goal with
           | E : (_ <=? _) = true |- _ => apply Z.leb_le in E
           | E : (_ =? _) = true |- _ => apply Z.eqb_eq in E
           end.
    apply Z.leb_le in Hmd.
    unfold ymd2ord, days_in_month, days_before_month.
    rewrite days_before_year_parts, is_leap_parts by lia.
    fold leap. lia.
Qed.



Lemma valid_intro t :
  1 <= year t <= 9999 -> 1 <= month t <= 12 ->
  1 <= day t <= days_in_month (year t) (month t) ->
  0 <= hour t <= 23 -> 0 <= minute t <= 59 -> 0 <= second t <= 59 ->
  0 <= microsecond t <= 999999 -> valid t = true.
Proof.
  intros. unfold valid, MINYEAR, MAXYEAR.
  repeat (apply andb_true_iff; split); apply Z.leb_le; lia.
Qed.

Lemma add_us_spec t delta a :
  add_us t delta = Return a ->
  valid a = true /\ tz a = tz t /\ wall_us a = wall_us t + delta.
Proof.
  unfold add_us. fold (wall_us t). cbv zeta.
  set (total := wall_us t + delta).
  destruct (_ && _) eqn:Hr; [|discriminate].
  apply andb_true_iff in Hr as [H0 H1].
  apply Z.ltb_lt in H0. apply Z.leb_le in H1.
  pose proof (ord2ymd_spec (total / US_PER_DAY) ltac:(lia)) as Ho.
  destruct (ord2ymd (total / US_PER_DAY)) as [[y m] d].
  destruct Ho as (Hm & Hd & Hord & Hy1 & Hy2). specialize (Hy2 H1).
  intros [= <-]. unfold wall_us at 1.
  cbn [year month day hour minute second microsecond tz].
  rewrite Hord. clear Hord.
  unfold US_PER_DAY in *.
  pose proof (Z.div_mod total 86400000000 ltac:(lia)) as Et.
  pose proof (Z.mod_pos_bound total 86400000000 ltac:(lia)) as Bt.
  set (days := total / 86400000000) in *.
  set (rest := total mod 86400000000) in *.
  clearbody total days rest.
  split; [|split; [reflexivity|]].
  - apply valid_intro;
      cbn [year month day hour minute second microsecond]; try lia;
      Z.div_mod_to_equations; lia.
  - Z.div_mod_to_equations. lia.
Qed.

Lemma astimezone_utc_spec t z a :
  valid t = true -> tz t = Some z -> astimezone_utc t z = Return a ->
  valid a = true /\ tz a = Some TzUTC /\ instant_us a = instant_us t.
Proof.
  intros Hv Hz. unfold astimezone_utc, instant_us. rewrite Hz.
  destruct z as [|off]; cbn [utcoffset].
  - intros [= <-]. rewrite Hz. auto.
  - destruct (add_us t (- off)) as [u|] eqn:Hu; [|discriminate]. cbn [bind].
    intros Ha. apply add_us_spec in Hu as (_ & _ & Wu).
    apply add_us_spec in Ha as (Va & Ta & Wa).
    cbn [tz replace_tz] in Ta.
    change (wall_us (replace_tz u (Some TzUTC))) with (wall_us u) in Wa.
    split; [exact Va|]. split; [exact Ta|].
    rewrite Ta. cbn [utcoffset]. lia.
Qed.

End CalendarFacts.

(** ** Rounding to milliseconds *)

Section Rounding.
Import PyStr Datetime Codec.

Lemma round_ms_split q r :
  0 <= r < 1000 -> round_ms (1000 * q + r) = round_ms_cases q r.
Proof.
  intros Hr. unfold round_ms, round_ms_cases.
  replace ((1000 * q + r) / 1000) with q
    by (apply Z.div_unique with r; lia).
  replace ((1000 * q + r) mod 1000) with r
    by (apply Z.mod_unique with q; lia).
  reflexivity.
Qed.


Lemma double_agrees_all : check_range 1000 0 double_agrees = true.
Proof. vm_cast_no_check (eq_refl true). Qed.

(** The integer arithmetic of [round_ms] is what the double arithmetic of
    the program computes on every microsecond count of a [datetime]. *)
Lemma round_ms_is_double us :
  0 <= us <= 999999 -> round_ms_double us = round_ms us.
Proof.
  intros Hus.
  pose proof (Z.div_mod us 1000 ltac:(lia)) as E.
  pose proof (Z.mod_pos_bound us 1000 ltac:(lia)) as B.
  set (q := us / 1000) in *. set (r := us mod 1000) in *.
  rewrite E at 2. rewrite round_ms_split by exact B.
  pose proof (check_range_spec _ _ _ double_agrees_all q ltac:(lia)) as Hq.
  pose proof (check_range_spec _ _ _ Hq r ltac:(lia)) as Hqr.
  cbv beta in Hqr. apply Uint63.eqb_correct in Hqr.
  unfold round_ms_double. rewrite <- E in Hqr. rewrite Hqr.
  rewrite Uint63.of_Z_spec. apply Z.mod_small.
  assert (0 <= round_ms_cases q r <= 1000).
  { unfold round_ms_cases.
    destruct (r <? 500); [lia|]. destruct (500 <? r); [lia|].
    destruct (Z.even q); lia. }
  change wB with 9223372036854775808. lia.
Qed.

(** [round_ms] is the nearest integer to [us / 1000], the even one of two
    equally near. *)
Lemma round_ms_nearest us :
  2 * Z.abs (1000 * round_ms us - us) <= 1000
  /\ (us mod 1000 = 500 -> Z.even (round_ms us) = true).
Proof.
  pose proof (Z.div_mod us 1000 ltac:(lia)) as E.
  pose proof (Z.mod_pos_bound us 1000 ltac:(lia)) as B.
  unfold round_ms. cbv zeta.
  set (q := us / 1000) in *. set (r := us mod 1000) in *.
  destruct (r <? 500) eqn:H1; [apply Z.ltb_lt in H1; split; lia|].
  apply Z.ltb_ge in H1.
  destruct (500 <? r) eqn:H2; [apply Z.ltb_lt in H2; split; lia|].
  apply Z.ltb_ge in H2.
  destruct (Z.even q) eqn:Ev; [split; [lia | auto]|].
  split; [lia|]. intros _. rewrite Z.even_add, Ev. reflexivity.
Qed.

Lemma ms_field_range us : 0 <= us <= 999999 -> 0 <= ms_field us <= 999.
Proof.
  intros Hus. unfold ms_field.
  destruct (round_ms_nearest us) as [Hn _].
  destruct (round_ms us =? 1000) eqn:E; [lia|].
  apply Z.eqb_neq in E. lia.
Qed.

End Rounding.

(** ** White space *)

Section Strip.
Import PyStr.


Lemma lstrip_clean_head s : clean_head (lstrip s).
Proof.
  induction s as [|c r IH]; cbn; [exact I|].
  destruct (isspace c) eqn:E; [exact IH | exact E].
Qed.

Lemma lstrip_of_clean s : clean_head s -> lstrip s = s.
Proof. destruct s as [|c r]; cbn; [reflexivity|]. now intros ->. Qed.

Lemma rstrip_clean_head s : clean_head s -> clean_head (rstrip s).
Proof.
  destruct s as [|c r]; cbn; [auto|]. intros Hc.
  destruct (rstrip r); [rewrite Hc|]; exact Hc.
Qed.

Lemma rstrip_cons c r :
  rstrip (String c r)
  = match rstrip r with
    | EmptyString => if isspace c then EmptyString else String c EmptyString
    | r' => String c r'
    end.
Proof. reflexivity. Qed.

Lemma rstrip_idempotent s : rstrip (rstrip s) = rstrip s.
Proof.
  induction s as [|c r IH]; [reflexivity|]. rewrite rstrip_cons.
  destruct (rstrip r) as [|d u] eqn:E.
  - destruct (isspace c) eqn:Hc; [reflexivity|]. cbn. now rewrite Hc.
  - rewrite rstrip_cons, IH. reflexivity.
Qed.

Lemma strip_idempotent s : strip (strip s) = strip s.
Proof.
  unfold strip.
  rewrite (lstrip_of_clean (rstrip (lstrip s))).
  - apply rstrip_idempotent.
  - apply rstrip_clean_head, lstrip_clean_head.
Qed.

End Strip.

(** ** The codec claims *)

Section CodecClaims.
Import PyStr Datetime Codec.

Lemma sentinel_test s :
  let u := strip s in
  (String.eqb u "" || _is_epoch_sentinel (Some (VStr u))) = true
  <-> In u [""; "0"; SENTINEL].
Proof.
  cbv zeta. unfold _is_epoch_sentinel. cbn [str].
  rewrite strip_idempotent. cbn [In].
  rewrite !orb_true_iff, !String.eqb_eq. intuition congruence.
Qed.

(** C3, as amended: [bigint_hr_to_datetime] returns [None] exactly on a
    null value and on a value whose text, with the surrounding white space
    removed, is empty, ["0"] or the 17-digit sentinel; and the text
    ["19700101000000001"] decodes to one millisecond after the epoch. *)
Theorem C3_null_exactly_on_sentinels :
  (forall v : option pyval,
     bigint_hr_to_datetime v = Return None
     <-> match v with
         | None => True
         | Some x => In (strip (str x)) [""; "0"; SENTINEL]
         end)
  /\ bigint_hr_to_datetime (Some (VStr "19700101000000001"))
     = Return (Some (mkdt 1970 1 1 0 0 0 1000 (Some TzUTC))).
Proof.
  split; [|vm_compute; reflexivity].
  intros [x|]; [|split; auto; reflexivity].
  unfold bigint_hr_to_datetime.
  pose proof (sentinel_test (str x)) as T. cbv zeta in T.
  destruct (_ || _).
  - split; [intros _; apply T | ]; reflexivity.
  - split; [|intros H; apply T in H; discriminate H].
    intros H. exfalso.
    destruct (negb _); [discriminate|].
    destruct (_ =? 14)%nat.
    + destruct (strptime_ymdhms _); discriminate.
    + destruct (_ =? 17)%nat; [|discriminate].
      destruct (strptime_ymdhms _); [|discriminate]. cbn [bind] in H.
      destruct (int_of_str _); discriminate.
Qed.

(** C3 as stated fails: the text [" 0"] is neither null, nor empty or white
    space only, nor ["0"], nor the sentinel, and is decoded to [None]; so
    is the integer 0. *)
Lemma C3_counterexample :
  bigint_hr_to_datetime (Some (VStr " 0")) = Return None
  /\ " 0" <> "" /\ strip " 0" <> "" /\ " 0" <> "0" /\ " 0" <> SENTINEL.
Proof. repeat split; try discriminate; reflexivity. Qed.


Lemma length_app s1 s2 :
  String.length (s1 ++ s2) = (String.length s1 + String.length s2)%nat.
Proof. induction s1 as [|c r IH]; cbn; [reflexivity | now rewrite IH]. Qed.

Lemma strftime_length a :
  valid a = true ->
  String.length (strftime_ymdhms a) = 14%nat
  /\ all_chars is_decimal (strftime_ymdhms a) = true
  /\ (1000 <= year a -> starts_nonzero (strftime_ymdhms a) = true).
Proof.
  intros Hv.
  destruct (valid_bounds a Hv) as (By & Bm & Bd & Bh & Bmi & Bs & _).
  unfold strftime_ymdhms.
  destruct (zero_pad_length_4 (year a)) as [Ly Hnz]; [lia|].
  pose proof (zero_pad_length_2 (month a) ltac:(lia)) as Lm.
  pose proof (zero_pad_length_2 (day a) ltac:(lia)) as Ld.
  pose proof (zero_pad_length_2 (hour a) ltac:(lia)) as Lh.
  pose proof (zero_pad_length_2 (minute a) ltac:(lia)) as Lmi.
  pose proof (zero_pad_length_2 (second a) ltac:(lia)) as Ls.
  repeat split.
  - rewrite !length_app, Ly, Lm, Ld, Lh, Lmi, Ls. reflexivity.
  - rewrite !all_chars_app, !zero_pad_digits by lia. reflexivity.
  - intros Hy. specialize (Hnz Hy).
    destruct (zero_pad 4 (year a)); [discriminate Hnz | exact Hnz].
Qed.

Lemma encode_unfold t :
  datetime_to_bigint_hr (Some t)
  = (a <- aware_utc t ;;
     n <- int_of_str (strftime_ymdhms a ++ zero_pad 3 (ms_field (microsecond a))) ;;
     Return (Some n)).
Proof.
  unfold datetime_to_bigint_hr, aware_utc, ms_field.
  destruct (match tz t with
            | Some z => astimezone_utc t z
            | None => Return (replace_tz t (Some TzUTC))
            end) as [a|e]; [|reflexivity].
  cbn [bind]. destruct (round_ms (microsecond a) =? 1000); reflexivity.
Qed.

Lemma aware_utc_spec t a :
  valid t = true -> aware_utc t = Return a ->
  valid a = true /\ tz a = Some TzUTC /\ instant_us a = instant_us t.
Proof.
  intros Hv. unfold aware_utc. destruct (tz t) as [z|] eqn:Hz.
  - now apply astimezone_utc_spec.
  - intros [= <-]. repeat split.
    + rewrite <- Hv. destruct t; reflexivity.
    + unfold instant_us. cbn [tz replace_tz]. rewrite Hz. reflexivity.
Qed.

(** C2, as amended: for a datetime [t], when the conversion to UTC leaves
    the years 1..9999 the call raises; otherwise, with [a] the same instant
    in UTC, the millisecond field is the integer nearest to the sub-second
    component in milliseconds, the even one of two equally near, except
    that 1000 is printed as 0 with the second left as it is; the field is
    in 0..999; and the result is the integer written by the 14 date and
    time digits of [a] followed by the 3 digits of the field, whose own
    decimal text is those 17 digits from year 1000 on. *)
Theorem C2_encode_output (t : datetime) :
  valid t = true ->
  match aware_utc t with
  | Raise e => datetime_to_bigint_hr (Some t) = Raise e
  | Return a =>
      tz a = Some TzUTC /\ instant_us a = instant_us t
      /\ 2 * Z.abs (1000 * round_ms (microsecond a) - microsecond a) <= 1000
      /\ (microsecond a mod 1000 = 500 -> Z.even (round_ms (microsecond a)) = true)
      /\ round_ms_double (microsecond a) = round_ms (microsecond a)
      /\ ms_field (microsecond a)
         = (if round_ms (microsecond a) =? 1000 then 0
            else round_ms (microsecond a))
      /\ 0 <= ms_field (microsecond a) <= 999
      /\ exists digits n,
           digits = strftime_ymdhms a ++ zero_pad 3 (ms_field (microsecond a))
           /\ String.length digits = 17%nat
           /\ all_chars is_decimal digits = true
           /\ int_of_str digits = Return n
           /\ datetime_to_bigint_hr (Some t) = Return (Some n)
           /\ (1000 <= year a -> str_of_int n = digits)
  end.
Proof.
  intros Hv. rewrite encode_unfold.
  destruct (aware_utc t) as [a|e] eqn:Ha; [|reflexivity].
  destruct (aware_utc_spec t a Hv Ha) as (Va & Ta & Ia).
  destruct (valid_bounds a Va) as (_ & _ & _ & _ & _ & _ & Bus).
  destruct (round_ms_nearest (microsecond a)) as [N1 N2].
  pose proof (ms_field_range (microsecond a) Bus) as Bms.
  destruct (strftime_length a Va) as (L14 & D14 & NZ).
  repeat (split; [first [assumption | reflexivity
                        | now apply round_ms_is_double] |]).
  set (digits := strftime_ymdhms a ++ _).
  assert (L : String.length digits = 17%nat).
  { unfold digits. rewrite length_app, L14, zero_pad_length_3 by lia.
    reflexivity. }
  assert (D : all_chars is_decimal digits = true).
  { unfold digits. rewrite all_chars_app, D14, zero_pad_digits by lia.
    reflexivity. }
  destruct (int_of_digits digits D) as [n Hn].
  { intros E. rewrite E in L. discriminate L. }
  exists digits, n. cbn [bind].
  change (strftime_ymdhms a ++ zero_pad 3 (ms_field (microsecond a)))
    with digits.
  rewrite Hn. cbn [bind].
  do 5 (split; [first [reflexivity | assumption] |]).
  intros Hy. specialize (NZ Hy). unfold digits in *.
  destruct (strftime_ymdhms a) as [|c r]; [discriminate NZ|].
  cbn [append] in *. apply str_of_int_of_str; auto.
  cbn [starts_nonzero] in NZ. intros ->. discriminate NZ.
Qed.



(** C2 as stated fails: on 500 microseconds rounding half up gives 1
    millisecond, the program prints 000; in year 999 the result has 16
    decimal digits, not 17; and the first instant of year 1 in a zone one
    hour ahead of UTC raises. *)
Lemma C2_counterexample :
  valid T_HALF = true
  /\ spec_half_up_ms (microsecond T_HALF) = 1
  /\ datetime_to_bigint_hr (Some T_HALF) = Return (Some 20230209084334000)
  /\ datetime_to_bigint_hr (Some (mkdt 999 1 1 0 0 0 0 (Some TzUTC)))
     = Return (Some 9990101000000000)
  /\ String.length (str_of_int 9990101000000000) = 16%nat
  /\ datetime_to_bigint_hr
       (Some (mkdt 1 1 1 0 0 0 0 (Some (TzFixed 3600000000))))
     = Raise OverflowError_date_range.
Proof. vm_compute. repeat split; reflexivity. Qed.


Lemma C2_encode_output_witness :
  valid T_EAST = true
  /\ datetime_to_bigint_hr (Some T_EAST) = Return (Some 20230209084334000).
Proof.
  split; [reflexivity|].
  pose proof (C2_encode_output T_EAST eq_refl) as H.
  change (aware_utc T_EAST)
    with (Return (mkdt 2023 2 9 8 43 34 999500 (Some TzUTC))) in H.
  cbv iota beta in H.
  destruct H as (_ & _ & _ & _ & _ & _ & _ & digits & n & Hd & _ & _ & Hi & He & _).
  rewrite He. do 2 f_equal. subst digits.
  change (Return (A:=Z) 20230209084334000 = Return n) in Hi.
  injection Hi as <-. reflexivity.
Defined.

(** C1, as amended.  For a text [v] of decimal digits that
    [bigint_hr_to_datetime] accepts, [v] has 14 or 17 digits and encoding
    the decoded instant gives the integer written by the 17-digit form of
    [v], whose own decimal text is that form when [v] does not start with
    0.  For a UTC instant of whole milliseconds, from year 1000 on and
    other than the Unix epoch, decoding the encoded integer, or its decimal
    text, gives the instant back. *)
Theorem C1_round_trip :
  (forall (v : string) (dt : datetime),
     all_chars is_decimal v = true ->
     bigint_hr_to_datetime (Some (VStr v)) = Return (Some dt) ->
     (String.length v = 14%nat \/ String.length v = 17%nat)
     /\ exists n,
          int_of_str (canonical17 v) = Return n
          /\ datetime_to_bigint_hr (Some dt) = Return (Some n)
          /\ (starts_nonzero v = true -> str_of_int n = canonical17 v))
  /\ (forall t : datetime,
        valid t = true -> tz t = Some TzUTC -> microsecond t mod 1000 = 0 ->
        1000 <= year t -> t <> EPOCH ->
        exists n,
          datetime_to_bigint_hr (Some t) = Return (Some n)
          /\ bigint_hr_to_datetime (Some (VInt n)) = Return (Some t)
          /\ bigint_hr_to_datetime (Some (VStr (str_of_int n)))
             = Return (Some t)).
Proof.
  split.
  - intros v dt Hv Hd. split.
    + revert Hd. unfold bigint_hr_to_datetime. cbn [str].
      rewrite (strip_digits v Hv).
      destruct (_ || _); [discriminate|].
      destruct (negb _); [discriminate|].
      destruct (String.length v =? 14)%nat eqn:L14;
        [apply Nat.eqb_eq in L14; auto|].
      destruct (String.length v =? 17)%nat eqn:L17;
        [apply Nat.eqb_eq in L17; auto | discriminate].
    + destruct (encode_decode_value v dt Hv Hd) as (n & Hn & He).
      exists n. split; [exact Hn|]. split; [exact He|].
      intros Hnz.
      assert (Dc : all_chars is_decimal (canonical17 v) = true).
      { unfold canonical17. destruct (_ =? _)%nat; [|exact Hv].
        rewrite all_chars_app, Hv. reflexivity. }
      assert (Hc : exists c r, canonical17 v = String c r /\ c <> "0"%char).
      { unfold canonical17. destruct v as [|c r]; [discriminate Hnz|].
        cbn [starts_nonzero] in Hnz.
        assert (c <> "0"%char) by (intros ->; discriminate Hnz).
        destruct (_ =? _)%nat; cbn [append]; eauto. }
      destruct Hc as (c & r & Ec & Hc). rewrite Ec in *.
      now apply str_of_int_of_str.
  - intros t Hv Htz Hms Hy Hne.
    destruct (decode_encode_instant t Hv Htz Hms Hy Hne) as (n & He & Hd).
    exists n. split; [exact He|]. split; exact Hd.
Qed.

Lemma C1_round_trip_witness :
  (all_chars is_decimal "20230209084334" = true
   /\ bigint_hr_to_datetime (Some (VStr "20230209084334"))
      = Return (Some (mkdt 2023 2 9 8 43 34 0 (Some TzUTC)))
   /\ datetime_to_bigint_hr (Some (mkdt 2023 2 9 8 43 34 0 (Some TzUTC)))
      = Return (Some 20230209084334000))
  /\ (valid (mkdt 2023 2 9 8 43 34 123000 (Some TzUTC)) = true
      /\ exists n,
           datetime_to_bigint_hr
             (Some (mkdt 2023 2 9 8 43 34 123000 (Some TzUTC)))
           = Return (Some n)
           /\ bigint_hr_to_datetime (Some (VInt n))
              = Return (Some (mkdt 2023 2 9 8 43 34 123000 (Some TzUTC)))).
Proof.
  split.
  - split; [reflexivity|]. split; [reflexivity|].
    destruct (proj1 C1_round_trip "20230209084334"
                (mkdt 2023 2 9 8 43 34 0 (Some TzUTC)) eq_refl eq_refl)
      as (_ & n & Hn & He & _).
    rewrite He. change (Return 20230209084334000 = Return n) in Hn.
    injection Hn as <-. reflexivity.
  - split; [reflexivity|].
    destruct (proj2 C1_round_trip (mkdt 2023 2 9 8 43 34 123000 (Some TzUTC)))
      as (n & He & Hd & _);
      [reflexivity | reflexivity | reflexivity | cbn; lia | discriminate |].
    exists n. split; assumption.
Defined.

(** C1 as stated fails: the Unix epoch, a UTC instant of whole
    milliseconds, encodes to the sentinel and decodes to [None]; an instant
    of year 999 encodes to 16 digits, which are refused; and the accepted
    text ["09990101000000"] comes back as an integer whose decimal text
    is not that text followed by ["000"]. *)
Lemma C1_counterexample :
  (valid EPOCH = true /\ tz EPOCH = Some TzUTC
   /\ microsecond EPOCH mod 1000 = 0
   /\ datetime_to_bigint_hr (Some EPOCH) = Return (Some 19700101000000000)
   /\ bigint_hr_to_datetime (Some (VInt 19700101000000000)) = Return None)
  /\ (datetime_to_bigint_hr (Some (mkdt 999 1 1 0 0 0 0 (Some TzUTC)))
      = Return (Some 9990101000000000)
      /\ bigint_hr_to_datetime (Some (VInt 9990101000000000))
         = Raise ValueError_unsupported_length)
  /\ (bigint_hr_to_datetime (Some (VStr "09990101000000"))
      = Return (Some (mkdt 999 1 1 0 0 0 0 (Some TzUTC)))
      /\ str_of_int 9990101000000000 <> "09990101000000" ++ "000").
Proof.
  repeat split; try (vm_compute; reflexivity).
  vm_compute. discriminate.
Qed.

End CodecClaims.

(** ** The query builder *)

Section QueryClaims.
Import PyStr Datetime Codec Query.

Lemma mem_In x l : mem x l = true <-> In x l.
Proof.
  unfold mem. rewrite existsb_exists. split.
  - intros (y & Hy & E). apply String.eqb_eq in E. now subst.
  - intros H. exists x. split; [exact H | apply String.eqb_refl].
Qed.



Lemma validate_raises q :
  (exists e, validate q = Raise e) <-> out_of_range q.
Proof.
  unfold validate, out_of_range.
  destruct (mem (order_by q) allowed_cols) eqn:Hc; cbn [negb].
  2:{ split; [intros _; left | intros _; eauto].
      intros H. apply mem_In in H. unfold allowed_cols in Hc. congruence. }
  apply mem_In in Hc. unfold allowed_cols in Hc.
  destruct (mem (order_dir q) ["ASC"; "DESC"]) eqn:Hd; cbn [negb].
  2:{ split; [intros _; right; left | intros _; eauto].
      intros H. apply mem_In in H. congruence. }
  apply mem_In in Hd.
  destruct ((limit q <=? 0) || (10000 <? limit q)) eqn:Hl.
  { split; [intros _ | intros _; eauto].
    apply orb_true_iff in Hl as [Hl|Hl];
      [apply Z.leb_le in Hl | apply Z.ltb_lt in Hl]; lia. }
  apply orb_false_iff in Hl as [Hl1 Hl2].
  apply Z.leb_gt in Hl1. apply Z.ltb_ge in Hl2.
  destruct (offset q <? 0) eqn:Ho.
  { split; [intros _ | intros _; eauto]. apply Z.ltb_lt in Ho. lia. }
  apply Z.ltb_ge in Ho.
  split; [intros [e He]; discriminate He|].
  intros [H|[H|H]]; [now elim H | now elim H | lia].
Qed.

(** C6: [validate] raises exactly when the ordering column is outside
    ID, OpenTime, CloseTime, TimeStamp, Ticket, or the direction is outside
    ASC, DESC, or the limit is outside 1..10000, or the offset is negative;
    and then the builder and [fetch_trades] raise the same error, with
    nothing done to the store. *)
Theorem C6_validation_first
  (row record : Type) (row_to_trade_record : row -> result record)
  (execute : string -> list param -> list row * list string)
  (q : TradeQuery) :
  ((exists e, validate q = Raise e) <-> out_of_range q)
  /\ (out_of_range q ->
      exists e,
        validate q = Raise e
        /\ In e [ValueError_order_by; ValueError_order_dir;
                 ValueError_limit; ValueError_offset]
        /\ build_where_and_params q = Raise e
        /\ Fetch.fetch_trades row record row_to_trade_record execute q
           = (Raise e, [])).
Proof.
  split; [apply validate_raises|].
  intros H. apply validate_raises in H as [e He]. exists e.
  split; [exact He|]. split.
  - revert He. unfold validate.
    repeat match goal with
           | |- context [if ?c then _ else _] => destruct c
           end; intros [= <-]; cbn; auto.
  - unfold Fetch.fetch_trades, build_where_and_params. rewrite He.
    cbn [bind]. split; reflexivity.
Qed.

Lemma C6_validation_first_witness :
  let q := mkQuery None None None None None None None None 100 0
                   "DROP TABLE" "ASC" in
  out_of_range q
  /\ exists e,
       validate q = Raise e
       /\ In e [ValueError_order_by; ValueError_order_dir;
                ValueError_limit; ValueError_offset]
       /\ build_where_and_params q = Raise e
       /\ Fetch.fetch_trades unit unit (fun r => Return r)
            (fun _ _ => ([tt], [])) q
          = (Raise e, []).
Proof.
  cbv zeta.
  assert (H : out_of_range (mkQuery None None None None None None None None
                              100 0 "DROP TABLE" "ASC")).
  { left. cbn. intros [E|[E|[E|[E|[E|[]]]]]]; discriminate E. }
  split; [exact H|].
  exact (proj2 (C6_validation_first unit unit (fun r => Return r)
                  (fun _ _ => ([tt], [])) _) H).
Defined.

Example validate_examples :
  validate (mkQuery None None None None None None None None 0 0
              "OpenTime" "ASC") = Raise ValueError_limit
  /\ validate (mkQuery None None None None None None None None 10001 0
                 "OpenTime" "ASC") = Raise ValueError_limit
  /\ validate (mkQuery None None None None None None None None 100 (-1)
                 "OpenTime" "ASC") = Raise ValueError_offset
  /\ validate (mkQuery None None None None None None None None 10000 0
                 "Ticket" "DESC") = Return tt
  /\ build_where_and_params default_query = Return ("", []).
Proof. repeat split; reflexivity. Qed.



Lemma step_none b clause : step b clause None = b.
Proof. unfold step. cbn. rewrite !List.app_nil_r. now destruct b. Qed.

Lemma append_time_spec b clause bound :
  append_time b clause bound
  = (p <- encode_bound bound ;; Return (step b clause p)).
Proof.
  unfold append_time, encode_bound. destruct bound as [t|].
  - destruct (datetime_to_bigint_hr (Some t)); reflexivity.
  - cbn [bind]. now rewrite step_none.
Qed.

Lemma step_int b clause (o : option Z) :
  match o with
  | Some a => append b clause (PInt a)
  | None => b
  end = step b clause (option_map PInt o).
Proof. destruct o; [reflexivity | now rewrite step_none]. Qed.

Lemma step_text b clause (o : option string) (wrap : string -> string) :
  (if truthy o
   then append b clause (PStr (wrap (match o with Some s => s | None => "" end)))
   else b) = step b clause (text_filter o wrap).
Proof.
  unfold truthy, text_filter. destruct o as [s|]; [|now rewrite step_none].
  destruct (String.eqb s ""); [now rewrite step_none | reflexivity].
Qed.

Lemma spec_where_fst preds :
  match map fst preds with
  | [] => ""
  | _ => " WHERE " ++ join " AND " (map fst preds)
  end = spec_where preds.
Proof. destruct preds; reflexivity. Qed.

(** C7: for a query that passes validation, the builder returns, unless the
    encoder raises on a temporal bound, the predicates of the populated
    filter fields, one each, joined by AND in the fixed order account id,
    ticket, symbol, open-time lower and upper bound, close-time lower and
    upper bound, comment; each temporal bound is bound as its encoding, the
    comment between two wildcards, and a field that is not populated
    contributes nothing. *)
Theorem C7_where_clause (q : TradeQuery) :
  validate q = Return tt ->
  build_where_and_params q
  = (o_from <- encode_bound (opened_from q) ;;
     o_to <- encode_bound (opened_to q) ;;
     c_from <- encode_bound (closed_from q) ;;
     c_to <- encode_bound (closed_to q) ;;
     let preds := spec_predicates q o_from o_to c_from c_to in
     Return (spec_where preds, map snd preds)).
Proof.
  intros Hv. unfold build_where_and_params. rewrite Hv. cbn [bind].
  rewrite !step_int, (step_text _ _ (symbol q) (fun s => s)).
  rewrite append_time_spec.
  destruct (encode_bound (opened_from q)) as [p1|]; [|reflexivity].
  cbn [bind]. rewrite append_time_spec.
  destruct (encode_bound (opened_to q)) as [p2|]; [|reflexivity].
  cbn [bind]. rewrite append_time_spec.
  destruct (encode_bound (closed_from q)) as [p3|]; [|reflexivity].
  cbn [bind]. rewrite append_time_spec.
  destruct (encode_bound (closed_to q)) as [p4|]; [|reflexivity].
  cbn [bind].
  rewrite (step_text _ _ (comment_like q) (fun s => "%" ++ s ++ "%")).
  cbv zeta. rewrite <- spec_where_fst. unfold spec_predicates, step.
  cbn [fst snd]. rewrite !map_app, !List.app_assoc. reflexivity.
Qed.


Lemma C7_where_clause_witness :
  validate Q_SAMPLE = Return tt
  /\ build_where_and_params Q_SAMPLE
     = Return (" WHERE TradeAccountID = %s AND SymbolName = %s"
               ++ " AND OpenTime >= %s AND Comment LIKE %s",
               [PInt 111; PStr "EURUSD"; PInt 20230209000000000;
                PStr "%hedge%"]).
Proof.
  split; [reflexivity|].
  rewrite (C7_where_clause Q_SAMPLE eq_refl). reflexivity.
Defined.

(** C10: an empty symbol or comment filter gives the query of an absent
    one, and an account id or a ticket of 0 still gives its predicate,
    first in the clause, bound to 0. *)
Theorem C10_empty_text_is_unset (q : TradeQuery) :
  build_where_and_params (with_symbol q (Some ""))
  = build_where_and_params (with_symbol q None)
  /\ build_where_and_params (with_comment_like q (Some ""))
     = build_where_and_params (with_comment_like q None)
  /\ (forall w ps,
        build_where_and_params q = Return (w, ps) ->
        trade_account_id q = Some 0 ->
        PyStr.startswith " WHERE TradeAccountID = %s" w = true
        /\ hd PNone ps = PInt 0)
  /\ (forall w ps,
        build_where_and_params q = Return (w, ps) ->
        trade_account_id q = None -> ticket q = Some 0 ->
        PyStr.startswith " WHERE Ticket = %s" w = true
        /\ hd PNone ps = PInt 0)
  /\ build_where_and_params
       (mkQuery (Some 0) (Some 0) (Some "") None None None None (Some "")
                100 0 "OpenTime" "ASC")
     = Return (" WHERE TradeAccountID = %s AND Ticket = %s",
               [PInt 0; PInt 0]).
Proof.
  split; [reflexivity|]. split; [reflexivity|].
  assert (V : forall w ps, build_where_and_params q = Return (w, ps) ->
                           validate q = Return tt).
  { intros w ps. unfold build_where_and_params.
    destruct (validate q) as [[]|]; [reflexivity | discriminate]. }
  split; [|split; [|reflexivity]].
  - intros w ps Hb Ha. rewrite (C7_where_clause q (V _ _ Hb)) in Hb.
    destruct (encode_bound (opened_from q)) as [p1|]; [|discriminate].
    destruct (encode_bound (opened_to q)) as [p2|]; [|discriminate].
    destruct (encode_bound (closed_from q)) as [p3|]; [|discriminate].
    destruct (encode_bound (closed_to q)) as [p4|]; [|discriminate].
    cbn [bind] in Hb. cbv zeta in Hb. unfold spec_predicates in Hb.
    rewrite Ha in Hb. cbn [option_map predicate_of app] in Hb.
    injection Hb as <- <-. split; [|reflexivity].
    cbn [spec_where map fst]. 
    destruct (map fst _); reflexivity.
  - intros w ps Hb Ha Ht. rewrite (C7_where_clause q (V _ _ Hb)) in Hb.
    destruct (encode_bound (opened_from q)) as [p1|]; [|discriminate].
    destruct (encode_bound (opened_to q)) as [p2|]; [|discriminate].
    destruct (encode_bound (closed_from q)) as [p3|]; [|discriminate].
    destruct (encode_bound (closed_to q)) as [p4|]; [|discriminate].
    cbn [bind] in Hb. cbv zeta in Hb. unfold spec_predicates in Hb.
    rewrite Ha, Ht in Hb. cbn [option_map predicate_of app] in Hb.
    injection Hb as <- <-. split; [|reflexivity].
    cbn [spec_where map fst].
    destruct (map fst _); reflexivity.
Qed.

Lemma C10_empty_text_is_unset_witness :
  build_where_and_params (with_symbol Q_SAMPLE (Some ""))
  = build_where_and_params (with_symbol Q_SAMPLE None)
  /\ (build_where_and_params Q_ACCOUNT_ZERO
      = Return (" WHERE TradeAccountID = %s", [PInt 0])
      /\ trade_account_id Q_ACCOUNT_ZERO = Some 0
      /\ PyStr.startswith " WHERE TradeAccountID = %s"
           " WHERE TradeAccountID = %s" = true
      /\ hd PNone [PInt 0] = PInt 0)
  /\ (build_where_and_params Q_TICKET_ZERO
      = Return (" WHERE Ticket = %s", [PInt 0])
      /\ trade_account_id Q_TICKET_ZERO = None
      /\ ticket Q_TICKET_ZERO = Some 0
      /\ PyStr.startswith " WHERE Ticket = %s" " WHERE Ticket = %s" = true
      /\ hd PNone [PInt 0] = PInt 0).
Proof.
  split; [exact (proj1 (C10_empty_text_is_unset Q_SAMPLE))|]. split.
  - split; [reflexivity|]. split; [reflexivity|].
    exact (proj1 (proj2 (proj2 (C10_empty_text_is_unset Q_ACCOUNT_ZERO)))
             _ _ eq_refl eq_refl).
  - split; [reflexivity|]. split; [reflexivity|]. split; [reflexivity|].
    exact (proj1 (proj2 (proj2 (proj2
                   (C10_empty_text_is_unset Q_TICKET_ZERO))))
             _ _ eq_refl eq_refl eq_refl).
Defined.

End QueryClaims.

(** ** The raw query guard *)

Section GuardClaims.
Import PyStr Query Fetch.

Lemma lstrip_length s : (String.length (lstrip s) <= String.length s)%nat.
Proof.
  induction s as [|c r IH]; cbn; [lia|]. destruct (isspace c); cbn; lia.
Qed.

Lemma drop_length n s :
  (String.length (drop n s) = String.length s - n)%nat.
Proof. revert s. induction n; intros [|c r]; cbn; auto. Qed.

Lemma startswith_length p s :
  startswith p s = true -> (String.length p <= String.length s)%nat.
Proof.
  unfold startswith. revert s.
  induction p as [|a p IH]; intros s H; cbn; [lia|].
  destruct s as [|b s]; cbn in H; [discriminate|].
  destruct (Ascii.ascii_dec a b); [|discriminate].
  apply IH in H. cbn. lia.
Qed.

(** The first loop stops before its fuel runs out: on its result either the
    text does not start a block comment or the comment is not closed. *)
Lemma strip_blocks_done fuel : forall s,
  (String.length s < fuel)%nat ->
  startswith "/*" (strip_blocks fuel s) = false
  \/ find "*/" (strip_blocks fuel s) = None.
Proof.
  induction fuel as [|k IH]; intros s Hl; [lia|]. cbn [strip_blocks].
  destruct (startswith "/*" s) eqn:Hs; [|now left].
  destruct (find "*/" s) as [e|] eqn:Hf; [|now right].
  apply IH. apply startswith_length in Hs. cbn in Hs.
  pose proof (lstrip_length (drop (e + 2) s)).
  rewrite drop_length in *. lia.
Qed.

(** So does the second: its result does not start a line comment. *)
Lemma strip_lines_done fuel : forall s,
  (String.length s < fuel)%nat ->
  startswith "--" (strip_lines fuel s) = false.
Proof.
  induction fuel as [|k IH]; intros s Hl; [lia|]. cbn [strip_lines].
  destruct (startswith "--" s) eqn:Hs; [|exact Hs].
  apply startswith_length in Hs. cbn in Hs.
  destruct (find NL s) as [n|]; apply IH.
  - pose proof (lstrip_length (drop (n + 1) s)).
    rewrite drop_length in *. lia.
  - cbn. lia.
Qed.

Lemma strip_leading_comments_done sql :
  startswith "--" (_strip_leading_comments sql) = false.
Proof. unfold _strip_leading_comments. apply strip_lines_done. lia. Qed.



Section Store.
Variables (row record : Type).
Variable row_to_trade_record : row -> result record.
Variable execute : string -> list param -> list row * list string.

(** A text the guard refuses is never sent to the store. *)
Lemma refused_not_executed sql :
  is_select_only sql = false ->
  fetch_trades_by_sql row record row_to_trade_record execute sql
  = (Raise ValueError_not_select, []).
Proof. intros H. unfold fetch_trades_by_sql. now rewrite H. Qed.

(** A text it accepts is sent once, as it is. *)
Lemma accepted_executed sql :
  is_select_only sql = true ->
  exists tr,
    snd (fetch_trades_by_sql row record row_to_trade_record execute sql)
    = ([Connected; Executed sql []] ++ tr ++ [Closed])%list.
Proof.
  intros H. unfold fetch_trades_by_sql. rewrite H. cbn [negb].
  destruct (execute sql []) as [rows description].
  assert (M : forall rs tr0,
             exists tr, snd (map_rows row record row_to_trade_record rs tr0)
                        = (tr0 ++ tr)%list).
  { induction rs as [|r rs IH]; intros tr0; cbn [map_rows].
    - exists []. cbn. now rewrite List.app_nil_r.
    - destruct (row_to_trade_record r).
      + destruct (IH (tr0 ++ [RowMapped r])%list) as [tr E].
        destruct (map_rows _ _ _ rs _) as [res tr']. cbn [snd] in *.
        exists (RowMapped r :: tr). rewrite E, <- List.app_assoc. reflexivity.
      + exists [RowMapped r]. reflexivity. }
  destruct rows as [|r rs]; [exists []; reflexivity|].
  destruct (missing_columns description); [|exists []; reflexivity].
  destruct (M (r :: rs) [Connected; Executed sql []]) as [tr E].
  exists tr. unfold close. cbn [snd]. rewrite E, List.app_assoc. reflexivity.
Qed.

End Store.

(** C4 at the failing input: the text is a line comment, a block comment and
    a SELECT; stripping leading comments as the specification words it leaves the
    SELECT, the guard's two loops leave the block comment, so the guard
    refuses the text and nothing is executed; with the two comments in the
    other order the guard accepts. *)
Theorem C4_line_then_block_refused :
  spec_is_select SQL_LINE_THEN_BLOCK = true
  /\ _strip_leading_comments SQL_LINE_THEN_BLOCK = "/* block */ SELECT 1"
  /\ is_select_only SQL_LINE_THEN_BLOCK = false
  /\ fetch_trades_by_sql unit unit (fun r => Return r)
       (fun _ _ => ([tt], COLUMNS)) SQL_LINE_THEN_BLOCK
     = (Raise ValueError_not_select, [])
  /\ is_select_only SQL_BLOCK_THEN_LINE = true.
Proof. vm_compute. repeat split; reflexivity. Qed.

Example guard_examples :
  is_select_only "/* c */ SELECT id FROM t" = true
  /\ is_select_only "  select 1" = true
  /\ is_select_only "DELETE FROM t" = false
  /\ is_select_only "UPDATE t SET x=1" = false
  /\ is_select_only "/* open SELECT 1" = false
  /\ spec_is_select "/* c */ SELECT id FROM t" = true
  /\ spec_is_select "DELETE FROM t" = false.
Proof. vm_compute. repeat split; reflexivity. Qed.


(** *** The column check *)

Lemma insert_sorted_perm x l : Permutation (insert_sorted x l) (x :: l).
Proof.
  induction l as [|y r IH]; cbn; [reflexivity|].
  destruct (String.leb x y); [reflexivity|].
  rewrite IH. apply perm_swap.
Qed.

Lemma sorted_perm l : Permutation (sorted l) l.
Proof.
  induction l as [|x r IH]; cbn; [reflexivity|].
  rewrite insert_sorted_perm. now constructor.
Qed.

Lemma missing_columns_spec cols c :
  In c (missing_columns cols) <-> In c COLUMNS /\ ~ In c cols.
Proof.
  unfold missing_columns. rewrite filter_In, negb_true_iff.
  rewrite <- (mem_In c cols). destruct (mem c cols); intuition congruence.
Qed.

Lemma COLUMNS_NoDup : NoDup COLUMNS.
Proof.
  unfold COLUMNS.
  repeat (constructor;
          [cbn; intros H; repeat (destruct H as [H|H]; [discriminate H|]);
           exact H|]).
  constructor.
Qed.

Lemma missing_none cols : missing_columns cols = [] <-> incl COLUMNS cols.
Proof.
  split.
  - intros E c Hc. destruct (mem c cols) eqn:M; [now apply mem_In|].
    assert (In c (missing_columns cols)).
    { apply missing_columns_spec. split; [exact Hc|].
      intros H. apply mem_In in H. congruence. }
    rewrite E in H. destruct H.
  - intros H. destruct (missing_columns cols) as [|c r] eqn:E; [reflexivity|].
    assert (Hc : In c (missing_columns cols)) by (rewrite E; now left).
    apply missing_columns_spec in Hc as [Hc Hn]. now elim Hn; apply H.
Qed.


(** C5: for a text the guard accepts, a result of no rows gives the empty
    list whatever its columns; a result of at least one row whose columns
    do not include the 25 canonical ones raises, no row being mapped, with
    a message that lists the missing canonical columns, each once and only
    them. *)
Theorem C5_schema_check
  (row record : Type) (row_to_trade_record : row -> result record)
  (execute : string -> list param -> list row * list string)
  (sql : string) :
  is_select_only sql = true ->
  List.length COLUMNS = 25%nat
  /\ (fst (execute sql []) = [] ->
      fetch_trades_by_sql row record row_to_trade_record execute sql
      = (Return [], [Connected; Executed sql []; Closed]))
  /\ (fst (execute sql []) <> [] ->
      ~ incl COLUMNS (snd (execute sql [])) ->
      let listed := sorted (missing_columns (snd (execute sql []))) in
      fetch_trades_by_sql row record row_to_trade_record execute sql
      = (Raise (ValueError_missing_columns (join ", " listed)),
         [Connected; Executed sql []; Closed])
      /\ NoDup listed
      /\ forall c, In c listed
                   <-> In c COLUMNS /\ ~ In c (snd (execute sql []))).
Proof.
  intros Hs. split; [reflexivity|].
  unfold fetch_trades_by_sql. rewrite Hs. cbn [negb].
  destruct (execute sql []) as [rows description]. cbn [fst snd].
  split.
  - intros ->. reflexivity.
  - intros Hr Hm. cbv zeta.
    destruct rows as [|r rs]; [now elim Hr|].
    destruct (missing_columns description) as [|m ms] eqn:E.
    { elim Hm. now apply missing_none. }
    split; [reflexivity|]. rewrite <- E. split.
    + apply (Permutation_NoDup (l := missing_columns description));
        [symmetry; apply sorted_perm|].
      unfold missing_columns. apply NoDup_filter, COLUMNS_NoDup.
    + intros c. rewrite <- missing_columns_spec.
      split; apply Permutation_in;
        [apply sorted_perm | symmetry; apply sorted_perm].
Qed.

Lemma C5_schema_check_witness :
  is_select_only "SELECT * FROM v" = true
  /\ fetch_trades_by_sql unit unit (fun _ => Raise Error_in_mapper)
       (fun _ _ => ([tt], COLUMNS_LESS_TWO)) "SELECT * FROM v"
     = (Raise (ValueError_missing_columns "Digits, Ticket"),
        [Connected; Executed "SELECT * FROM v" []; Closed])
  /\ fetch_trades_by_sql unit unit (fun _ => Raise Error_in_mapper)
       (fun _ _ => ([], [])) "SELECT * FROM v"
     = (Return [], [Connected; Executed "SELECT * FROM v" []; Closed]).
Proof.
  split; [reflexivity|]. split.
  - destruct (C5_schema_check unit unit (fun _ => Raise Error_in_mapper)
                (fun _ _ => ([tt], COLUMNS_LESS_TWO)) "SELECT * FROM v"
                eq_refl) as (_ & _ & H).
    destruct H as (H & _).
    + discriminate.
    + intros I. apply missing_none in I. discriminate I.
    + exact H.
  - exact (proj1 (proj2 (C5_schema_check unit unit
                           (fun _ => Raise Error_in_mapper)
                           (fun _ _ => ([], [])) "SELECT * FROM v" eq_refl))
             eq_refl).
Defined.

End GuardClaims.

(** ** The CSV row filter *)

Section FilterClaims.
Import PyStr Filtertrade.

Variable number : Type.
Variable is_zero : number -> bool.
Variable parse_number : string -> option number.
Variable show_number : number -> string.

Local Abbreviation cell := (Filtertrade.cell number).
Local Abbreviation DataFrame := (Filtertrade.DataFrame number).
Local Abbreviation to_numeric := (Filtertrade.to_numeric number parse_number).
Local Abbreviation astype_string := (Filtertrade.astype_string number show_number).
Local Abbreviation filter_chunk :=
  (Filtertrade.filter_chunk number is_zero parse_number show_number).
Local Abbreviation filter_csv :=
  (Filtertrade.filter_csv number is_zero parse_number show_number).
Local Abbreviation filter_loop :=
  (Filtertrade.filter_loop number is_zero parse_number show_number).
Local Abbreviation magic_zero_row :=
  (Filtertrade.magic_zero_row number is_zero parse_number).
Local Abbreviation comment_of_row :=
  (Filtertrade.comment_of_row number show_number).
Local Abbreviation cancelled_row :=
  (Filtertrade.cancelled_row number show_number).


Lemma loc_not_map (p : list cell -> bool) rs :
  loc_not rs (map p rs) = filter (fun r => negb (p r)) rs.
Proof.
  induction rs as [|r rs IH]; [reflexivity|]. cbn [map loc_not filter].
  rewrite IH. now destruct (p r).
Qed.

Lemma mask_or_map {A} (f g : A -> bool) l :
  mask_or (map f l) (map g l) = map (fun x => f x || g x) l.
Proof. induction l as [|x l IH]; cbn; [reflexivity | now rewrite IH]. Qed.

Lemma magic_mask df im :
  fillna_false (_magic_is_zero number is_zero parse_number (column df im))
  = map (magic_zero_row im) (rows df).
Proof.
  unfold fillna_false, _magic_is_zero, column, magic_zero_row.
  now rewrite !map_map.
Qed.

Lemma cancelled_mask df ic :
  isin CANCELLED_TOKENS
    (_normalize_comment number show_number (column df ic))
  = map (cancelled_row ic) (rows df).
Proof.
  unfold isin, _normalize_comment, column, cancelled_row, comment_of_row.
  now rewrite !map_map.
Qed.

Lemma index_of_none name cols :
  index_of name cols = None <-> ~ In name cols.
Proof.
  induction cols as [|c r IH]; cbn; [tauto|].
  destruct (String.eqb_spec c name) as [->|Hne].
  - split; [discriminate | intros H; elim H; now left].
  - destruct (index_of name r); cbn.
    + split; [discriminate|]. intros H. exfalso. apply H. right.
      destruct IH as [_ IH]. 
      destruct (in_dec string_dec name r) as [Hin|Hin]; [exact Hin|].
      specialize (IH Hin). discriminate IH.
    + split; [|reflexivity]. intros _ [E|Hin]; [now elim Hne|].
      now apply IH.
Qed.


Lemma magic_zero_row_spec im r :
  magic_zero_row im r = true
  <-> exists n, to_numeric (nth im r NA) = Some n /\ is_zero n = true.
Proof.
  unfold magic_zero_row, eq0. destruct (to_numeric _) as [n|].
  - split; [eauto | now intros (m & [= <-] & H)].
  - split; [discriminate | now intros (m & [=] & _)].
Qed.

Lemma cancelled_row_spec ic r :
  cancelled_row ic r = true
  <-> comment_of_row ic r = "cancelled" \/ comment_of_row ic r = "canceled".
Proof.
  unfold cancelled_row. rewrite mem_In. unfold CANCELLED_TOKENS. cbn [In].
  intuition congruence.
Qed.

(** C9: when the first chunk has no magic column the run raises at once
    and writes nothing; in a frame that has the magic column and no comment
    column, [filter_chunk] keeps, in order and as they are, the rows whose
    magic cell does not coerce to a number equal to 0, whatever their other
    cells. *)
Theorem C9_missing_columns (df : DataFrame) (rest : list DataFrame) :
  (~ In "magic" (columns df) ->
   filter_chunk df = Raise KeyError_magic
   /\ fst (filter_csv (df :: rest)) = Raise KeyError_magic
   /\ written (snd (filter_csv (df :: rest))) = [])
  /\ (In "magic" (columns df) -> ~ In "comment" (columns df) ->
      exists im,
        index_of "magic" (columns df) = Some im
        /\ let out := mkFrame (columns df)
                        (filter (fun r => negb (magic_zero_row im r))
                                (rows df)) in
           filter_chunk df = Return out
           /\ (forall r, In r (rows out)
                         <-> In r (rows df) /\ magic_zero_row im r = false)
           /\ (forall r,
                 magic_zero_row im r = true
                 <-> exists n, to_numeric (nth im r NA) = Some n
                               /\ is_zero n = true)).
Proof.
  split.
  - intros Hm. apply index_of_none in Hm.
    assert (E : filter_chunk df = Raise KeyError_magic).
    { unfold Filtertrade.filter_chunk. now rewrite Hm. }
    split; [exact E|].
    unfold Filtertrade.filter_csv. cbn [Filtertrade.filter_loop].
    rewrite E. split; reflexivity.
  - intros Hm Hc. apply index_of_none in Hc.
    destruct (index_of "magic" (columns df)) as [im|] eqn:Em.
    2:{ apply index_of_none in Em. now elim Em. }
    exists im. split; [reflexivity|]. cbv zeta. split.
    + unfold Filtertrade.filter_chunk. rewrite Em, Hc.
      rewrite magic_mask, loc_not_map. reflexivity.
    + split.
      * intros r. cbn [rows]. rewrite filter_In, negb_true_iff. reflexivity.
      * intros r. apply magic_zero_row_spec.
Qed.

End FilterClaims.

Import Filtertrade.


Lemma C9_missing_columns_witness :
  (~ In "magic" (columns SAMPLE_NO_MAGIC)
   /\ filter_csv Z (Z.eqb 0) parse_digits PyStr.str_of_int
        [SAMPLE_NO_MAGIC; SAMPLE_FRAME]
      = (Raise KeyError_magic, mkRun [] 1 0))
  /\ (In "magic" (columns SAMPLE_NO_COMMENT)
      /\ ~ In "comment" (columns SAMPLE_NO_COMMENT)
      /\ filter_chunk Z (Z.eqb 0) parse_digits PyStr.str_of_int
           SAMPLE_NO_COMMENT
         = Return (mkFrame ["id"; "magic"]
                     [ [Num 2; Num 5]; [Num 3; Text "abc"] ])).
Proof.
  assert (H0 : ~ In "magic" (columns SAMPLE_NO_MAGIC)).
  { cbn. intros [E|[E|[]]]; discriminate E. }
  assert (H1 : In "magic" (columns SAMPLE_NO_COMMENT)) by (cbn; auto).
  assert (H2 : ~ In "comment" (columns SAMPLE_NO_COMMENT)).
  { cbn. intros [E|[E|[]]]; discriminate E. }
  split.
  - split; [exact H0|].
    destruct (proj1 (C9_missing_columns Z (Z.eqb 0) parse_digits
                       PyStr.str_of_int SAMPLE_NO_MAGIC [SAMPLE_FRAME]) H0)
      as (_ & E1 & E2).
    reflexivity.
  - split; [exact H1|]. split; [exact H2|].
    destruct (proj2 (C9_missing_columns Z (Z.eqb 0) parse_digits
                       PyStr.str_of_int SAMPLE_NO_COMMENT []) H1 H2)
      as (im & Em & E & _).
    injection Em as <-. rewrite E. reflexivity.
Defined.

(** ** The CSV row filter, from file to file *)

Section FileClaims.
Import PyStr.

Variable number : Type.
Variable is_zero : number -> bool.
Variable parse_number : string -> option number.
Variable show_number : number -> string.
Variable parse_field : list string -> string -> Filtertrade.cell number.
Variable write_number : number -> string.

Local Abbreviation cell := (Filtertrade.cell number).
Local Abbreviation DataFrame := (Filtertrade.DataFrame number).
Local Abbreviation to_numeric := (Filtertrade.to_numeric number parse_number).
Local Abbreviation filter_chunk :=
  (Filtertrade.filter_chunk number is_zero parse_number show_number).
Local Abbreviation magic_zero_row :=
  (Filtertrade.magic_zero_row number is_zero parse_number).
Local Abbreviation comment_of_row :=
  (Filtertrade.comment_of_row number show_number).
Local Abbreviation cancelled_row :=
  (Filtertrade.cancelled_row number show_number).
Local Abbreviation read_fields := (Filtertrade.read_fields parse_field).
Local Abbreviation read_chunk := (Filtertrade.read_chunk parse_field).
Local Abbreviation write_cell := (Filtertrade.write_cell write_number).
Local Abbreviation file_loop :=
  (Filtertrade.file_loop number is_zero parse_number show_number parse_field
     write_number).
Local Abbreviation filter_csv_file :=
  (Filtertrade.filter_csv_file number is_zero parse_number show_number
     parse_field write_number).

(** The rows a frame with both columns keeps. *)
Lemma filter_chunk_both (df : DataFrame) im ic :
  index_of "magic" (columns df) = Some im ->
  index_of "comment" (columns df) = Some ic ->
  filter_chunk df
  = Return (mkFrame (columns df)
              (filter (fun r => negb (magic_zero_row im r || cancelled_row ic r))
                      (rows df))).
Proof.
  intros Em Ec. unfold Filtertrade.filter_chunk. rewrite Em, Ec.
  rewrite magic_mask, cancelled_mask, mask_or_map, loc_not_map.
  reflexivity.
Qed.

(** A field is written as [to_csv] renders what [read_csv] made of it. *)
Lemma read_fields_nth recs : forall rec k j f,
  nth_error rec j = Some f ->
  nth_error (map write_cell (read_fields recs k rec)) j
  = Some (write_cell (parse_field (field_column recs (k + j)) f)).
Proof.
  induction rec as [|g rec IH]; intros k j f H.
  - destruct j; discriminate H.
  - destruct j as [|j]; cbn [Filtertrade.read_fields map nth_error] in *.
    + injection H as ->. now rewrite Nat.add_0_r.
    + rewrite (IH (S k) j f H). now rewrite Nat.add_succ_r.
Qed.

Lemma file_loop_spec names im ic :
  index_of "magic" names = Some im -> index_of "comment" names = Some ic ->
  forall chunks st,
    file_loop names chunks st
    = (Return tt,
       mkFileRun
         (file_lines st
          ++ (match chunks with
              | [] => []
              | _ => if wrote_header st then [] else [names]
              end)
          ++ flat_map
               (fun recs =>
                  map (map write_cell)
                    (filter (fun r => negb (magic_zero_row im r
                                            || cancelled_row ic r))
                            (map (read_fields recs 0) recs)))
               chunks)%list
         (match chunks with [] => wrote_header st | _ => true end)
         (rows_in st + Z.of_nat (List.length (List.concat chunks)))
         (rows_out st
          + Z.of_nat
              (List.length
                 (flat_map
                    (fun recs =>
                       filter (fun r => negb (magic_zero_row im r
                                              || cancelled_row ic r))
                              (map (read_fields recs 0) recs))
                    chunks)))).
Proof.
  intros Em Ec. induction chunks as [|recs rest IH]; intros st.
  - cbn. rewrite !List.app_nil_r, !Z.add_0_r. now destruct st.
  - cbn [Filtertrade.file_loop].
    rewrite (filter_chunk_both (read_chunk names recs) im ic Em Ec).
    rewrite IH. cbn [file_lines wrote_header rows_in rows_out rows columns
                     Filtertrade.read_chunk].
    unfold to_csv. cbn [rows columns negb flat_map List.concat].
    rewrite !List.length_app, !Nat2Z.inj_add, List.length_map.
    f_equal. f_equal; [|destruct rest; reflexivity | lia | lia].
    rewrite <- !List.app_assoc. f_equal.
    destruct (wrote_header st); cbn [negb app];
      destruct rest; cbn [app]; reflexivity.
Qed.

(** The run from file to file is the run of [filter_csv] over the frames
    the reader hands out: the same outcome, the same counters, and in the
    output file the lines of the frames written. *)
Lemma file_loop_frames names : forall chunks st (fr : run number),
  file_lines st = Filtertrade.frames_lines number write_number (written fr) ->
  wrote_header st = negb (Nat.eqb (List.length (written fr)) 0) ->
  rows_in st = total_in fr -> rows_out st = total_out fr ->
  let a := file_loop names chunks st in
  let b := Filtertrade.filter_loop number is_zero parse_number show_number
             (map (read_chunk names) chunks) fr in
  fst a = fst b
  /\ file_lines (snd a)
     = Filtertrade.frames_lines number write_number (written (snd b))
  /\ rows_in (snd a) = total_in (snd b)
  /\ rows_out (snd a) = total_out (snd b).
Proof.
  induction chunks as [|recs rest IH]; intros st fr Hl Hw Hi Ho; cbv zeta.
  - cbn. auto.
  - cbn [map Filtertrade.filter_loop Filtertrade.file_loop].
    destruct (filter_chunk (read_chunk names recs)) as [out|e].
    + apply IH; cbn [file_lines wrote_header rows_in rows_out written
                     total_in total_out]; try lia.
      * rewrite Hl, Hw. destruct (written fr) as [|f fs]; cbn.
        -- now rewrite List.app_nil_r.
        -- rewrite flat_map_app. cbn. now rewrite List.app_nil_r, <- !List.app_assoc.
      * rewrite List.length_app. cbn. now rewrite Nat.add_1_r.
    + cbn. repeat split; auto. lia.
Qed.

(** C8, as amended: over an input whose column names hold both magic and
    comment, every chunk is filtered by the same rule, a row being dropped
    exactly when its magic cell coerces to a number equal to 0 (a cell that
    coerces to no number does not count) or its comment, trimmed and in
    lower case, is "cancelled" or "canceled"; the run succeeds, and the
    output file holds the column names once, when there is a chunk at all,
    and then, chunk after chunk and in order, the kept rows, each field
    written as [to_csv] renders the cell [read_csv] made of it in its
    chunk: a field read as text is written as it is, a field read as a
    number or as missing is written afresh. *)
Theorem C8_drop_rule (names : list string) (chunks : list (list (list string))) :
  In "magic" names -> In "comment" names ->
  exists im ic,
    index_of "magic" names = Some im
    /\ index_of "comment" names = Some ic
    /\ let dropped r := magic_zero_row im r || cancelled_row ic r in
       let kept recs :=
         filter (fun r => negb (dropped r)) (map (read_fields recs 0) recs) in
       (forall df : DataFrame,
          columns df = names ->
          filter_chunk df
          = Return (mkFrame names
                      (filter (fun r => negb (dropped r)) (rows df))))
       /\ (forall r,
             dropped r = true
             <-> (exists n, to_numeric (nth im r NA) = Some n
                            /\ is_zero n = true)
                 \/ comment_of_row ic r = "cancelled"
                 \/ comment_of_row ic r = "canceled")
       /\ filter_csv_file (Reader names chunks)
          = (Return tt,
             mkFileRun
               ((match chunks with [] => [] | _ => [names] end)
                ++ flat_map (fun recs => map (map write_cell) (kept recs))
                     chunks)%list
               (match chunks with [] => false | _ => true end)
               (Z.of_nat (List.length (List.concat chunks)))
               (Z.of_nat (List.length (flat_map kept chunks))))
       /\ (forall recs rec j f,
             nth_error rec j = Some f ->
             nth_error (map write_cell (read_fields recs 0 rec)) j
             = Some (write_cell (parse_field (field_column recs j) f)))
       /\ (forall s, write_cell (Text s) = s)
       /\ (forall n, write_cell (Num n) = write_number n)
       /\ write_cell NA = "".
Proof.
  intros Hm Hc.
  destruct (index_of "magic" names) as [im|] eqn:Em.
  2:{ apply (index_of_none number parse_number) in Em. now elim Em. }
  destruct (index_of "comment" names) as [ic|] eqn:Ec.
  2:{ apply (index_of_none number parse_number) in Ec. now elim Ec. }
  exists im, ic. split; [reflexivity|]. split; [reflexivity|]. cbv zeta.
  split; [|split; [|split; [|split; [|auto]]]].
  - intros df <-. now apply filter_chunk_both.
  - intros r. rewrite orb_true_iff.
    rewrite (magic_zero_row_spec number is_zero parse_number).
    rewrite (cancelled_row_spec number show_number). reflexivity.
  - unfold Filtertrade.filter_csv_file.
    rewrite (file_loop_spec names im ic Em Ec).
    cbn [file_lines wrote_header rows_in rows_out app]. reflexivity.
  - intros recs rec j f H. apply (read_fields_nth recs rec 0%nat j f H).
Qed.

End FileClaims.

(** C8 as stated fails: the first record of the sample file is kept, and
    its magic field, 007 in the input, is 7 in the output. *)
Lemma C8_counterexample :
  filter_csv_file Z (Z.eqb 0) parse_digits PyStr.str_of_int
    parse_whole_numbers PyStr.str_of_int
    (Reader SAMPLE_NAMES [SAMPLE_RECORDS])
  = (Return tt, mkFileRun [SAMPLE_NAMES; ["1"; "7"; "filled"]] true 3 1)
  /\ In ["1"; "007"; "filled"] SAMPLE_RECORDS
  /\ ~ In ["1"; "007"; "filled"] [SAMPLE_NAMES; ["1"; "7"; "filled"]].
Proof.
  split; [vm_compute; reflexivity|]. split; [left; reflexivity|].
  intros [H|[H|[]]]; discriminate H.
Qed.

Lemma C8_drop_rule_witness :
  In "magic" SAMPLE_NAMES /\ In "comment" SAMPLE_NAMES
  /\ filter_csv_file Z (Z.eqb 0) parse_digits PyStr.str_of_int
       parse_whole_numbers PyStr.str_of_int
       (Reader SAMPLE_NAMES [SAMPLE_RECORDS])
     = (Return tt, mkFileRun [SAMPLE_NAMES; ["1"; "7"; "filled"]] true 3 1).
Proof.
  assert (Hm : In "magic" SAMPLE_NAMES) by (cbn; auto).
  assert (Hc : In "comment" SAMPLE_NAMES) by (cbn; auto).
  split; [exact Hm|]. split; [exact Hc|].
  destruct (C8_drop_rule Z (Z.eqb 0) parse_digits PyStr.str_of_int
              parse_whole_numbers PyStr.str_of_int
              SAMPLE_NAMES [SAMPLE_RECORDS] Hm Hc)
    as (im & ic & Em & Ec & _ & _ & E & _).
  injection Em as <-. injection Ec as <-. rewrite E. reflexivity.
Defined.

(** ** Sample values *)

Section Samples.
Import PyStr Datetime Codec.

Example strip_samples :
  strip "  0 " = "0" /\ strip "   " = "" /\ strip "a b" = "a b".
Proof. repeat split; reflexivity. Qed.

Example format_samples :
  zero_pad 3 7 = "007" /\ zero_pad 2 123 = "123" /\ str_of_int 0 = "0"
  /\ str_of_int (-5) = "-5" /\ int_of_str "007" = Return 7
  /\ join ", " ["a"; "b"; "c"] = "a, b, c" /\ find "*/" "/*/ x" = Some 1%nat.
Proof. repeat split; reflexivity. Qed.

Example calendar_samples :
  ymd2ord 1 1 1 = 1 /\ ymd2ord 9999 12 31 = MAXORDINAL
  /\ ord2ymd 730120 = (2000, 1, 1) /\ ord2ymd 1461 = (4, 12, 31)
  /\ ord2ymd 146097 = (400, 12, 31)
  /\ ord2ymd (ymd2ord 2024 2 29) = (2024, 2, 29).
Proof. repeat split; reflexivity. Qed.

Example rounding_samples :
  round_ms 500 = 0 /\ round_ms 1500 = 2 /\ round_ms 999500 = 1000
  /\ round_ms_double 500 = 0 /\ round_ms_double 1500 = 2
  /\ round_ms_double 999500 = 1000 /\ ms_field 999500 = 0
  /\ spec_half_up_ms 500 = 1.
Proof. repeat split; reflexivity. Qed.

(** The temporal fields of the sample row of the program. *)
Example decode_samples :
  bigint_hr_to_datetime (Some (VStr "20230209084334000"))
  = Return (Some (mkdt 2023 2 9 8 43 34 0 (Some TzUTC)))
  /\ bigint_hr_to_datetime (Some (VStr "19700101000000000")) = Return None
  /\ bigint_hr_to_datetime (Some (VInt 0)) = Return None
  /\ bigint_hr_to_datetime (Some (VStr "2023-02-09"))
     = Raise ValueError_invalid_value
  /\ bigint_hr_to_datetime (Some (VStr "20230230000000"))
     = Raise ValueError_strptime
  /\ bigint_hr_to_datetime (Some (VStr "2023"))
     = Raise ValueError_unsupported_length.
Proof. repeat split; vm_compute; reflexivity. Qed.

End Samples.

(** * Further properties of the code *)

(** ** More on the timestamp codec *)

Section CodecValues.
Import PyStr Datetime Codec.

Lemma value_from_app acc a b :
  value_from acc (a ++ b) = value_from (value_from acc a) b.
Proof. revert acc. induction a as [|c r IH]; intros acc; cbn; auto. Qed.

Lemma value_from_shift acc s :
  value_from acc s = acc * 10 ^ Z.of_nat (String.length s) + value_from 0 s.
Proof.
  revert acc. induction s as [|c r IH]; intros acc.
  - cbn. lia.
  - cbn [value_from String.length]. rewrite IH, (IH (10 * 0 + _)).
    rewrite Nat2Z.inj_succ, Z.pow_succ_r by lia. lia.
Qed.

Lemma decimal_value_app a b :
  decimal_value (a ++ b)
  = decimal_value a * 10 ^ Z.of_nat (String.length b) + decimal_value b.
Proof.
  unfold decimal_value. rewrite value_from_app. apply value_from_shift.
Qed.

Lemma of_uint_cons (k : Z) (f : Decimal.uint -> Decimal.uint) d :
  (forall d', Decimal.revapp (f d) d' = Decimal.revapp d (f d')) ->
  Unsigned.of_lu (f Decimal.Nil) = Z.to_N k -> 0 <= k ->
  Z.of_uint (f d)
  = k * 10 ^ Z.of_nat (Decimal.nb_digits d) + Z.of_uint d.
Proof.
  intros Hf Hk Hk0. unfold Z.of_uint.
  rewrite !DecimalPos.Unsigned.of_uint_alt. unfold Decimal.rev.
  rewrite Hf, DecimalPos.Unsigned.of_lu_revapp, Hk.
  fold (Decimal.rev d).
  assert (U : Unsigned.usize d = N.of_nat (Decimal.nb_digits d)).
  { clear. induction d; cbn [Unsigned.usize Decimal.nb_digits];
      rewrite ?IHd; lia. }
  rewrite U, N2Z.inj_add, N2Z.inj_mul, N2Z.inj_pow, Z2N.id by lia.
  rewrite nat_N_Z. change (Z.of_N 10) with 10. lia.
Qed.

(** The integer of a digit text is the number it writes. *)
Lemma of_uint_value d :
  Z.of_uint d = decimal_value (NilEmpty.string_of_uint d).
Proof.
  induction d; cbn [NilEmpty.string_of_uint];
    [reflexivity | ..];
    change (String ?c ?r) with (String c "" ++ r);
    rewrite decimal_value_app, numeral_length, <- IHd.
  - apply (of_uint_cons 0 Decimal.D0); try reflexivity; lia.
  - apply (of_uint_cons 1 Decimal.D1); try reflexivity; lia.
  - apply (of_uint_cons 2 Decimal.D2); try reflexivity; lia.
  - apply (of_uint_cons 3 Decimal.D3); try reflexivity; lia.
  - apply (of_uint_cons 4 Decimal.D4); try reflexivity; lia.
  - apply (of_uint_cons 5 Decimal.D5); try reflexivity; lia.
  - apply (of_uint_cons 6 Decimal.D6); try reflexivity; lia.
  - apply (of_uint_cons 7 Decimal.D7); try reflexivity; lia.
  - apply (of_uint_cons 8 Decimal.D8); try reflexivity; lia.
  - apply (of_uint_cons 9 Decimal.D9); try reflexivity; lia.
Qed.

Lemma int_of_str_value s n :
  int_of_str s = Return n -> n = decimal_value s.
Proof.
  unfold int_of_str. destruct (NilZero.uint_of_string s) as [d|] eqn:E;
    [|discriminate].
  intros [= <-]. apply NilZero.sus in E. rewrite <- E.
  rewrite of_uint_value. destruct d; reflexivity.
Qed.

Lemma zero_pad_value w z : 0 <= z -> decimal_value (zero_pad w z) = z.
Proof.
  intros Hz. symmetry. apply int_of_str_value. now apply int_of_zero_pad.
Qed.

End CodecValues.

(** ** The order of dates *)

Section CalendarOrder.
Import PyStr Datetime Codec.

Lemma div_step_4 y : y / 4 = (y - 1) / 4 + (if y mod 4 =? 0 then 1 else 0).
Proof.
  destruct (y mod 4 =? 0) eqn:E;
    [apply Z.eqb_eq in E | apply Z.eqb_neq in E];
    Z.div_mod_to_equations; lia.
Qed.

Lemma div_step_100 y :
  y / 100 = (y - 1) / 100 + (if y mod 100 =? 0 then 1 else 0).
Proof.
  destruct (y mod 100 =? 0) eqn:E;
    [apply Z.eqb_eq in E | apply Z.eqb_neq in E];
    Z.div_mod_to_equations; lia.
Qed.

Lemma div_step_400 y :
  y / 400 = (y - 1) / 400 + (if y mod 400 =? 0 then 1 else 0).
Proof.
  destruct (y mod 400 =? 0) eqn:E;
    [apply Z.eqb_eq in E | apply Z.eqb_neq in E];
    Z.div_mod_to_equations; lia.
Qed.

Lemma days_before_year_succ y :
  days_before_year (y + 1)
  = days_before_year y + 365 + (if is_leap y then 1 else 0).
Proof.
  unfold days_before_year, is_leap. cbv zeta.
  replace (y + 1 - 1) with y by lia.
  rewrite (div_step_4 y), (div_step_100 y), (div_step_400 y).
  assert (H1 : y mod 100 = 0 -> y mod 4 = 0).
  { intros H. Z.div_mod_to_equations. lia. }
  assert (H2 : y mod 400 = 0 -> y mod 100 = 0).
  { intros H. Z.div_mod_to_equations. lia. }
  destruct (y mod 4 =? 0) eqn:E4;
    destruct (y mod 100 =? 0) eqn:E100;
    destruct (y mod 400 =? 0) eqn:E400;
    cbn [negb orb andb]; try lia;
    rewrite ?Z.eqb_eq, ?Z.eqb_neq in *; lia.
Qed.

Lemma days_before_year_step y k :
  0 <= k -> days_before_year y + 365 * k <= days_before_year (y + k).
Proof.
  intros Hk. pattern k. apply natlike_ind; [| |exact Hk]; cbv beta.
  - change (365 * 0) with 0. rewrite !Z.add_0_r. apply Z.le_refl.
  - intros x Hx IH. replace (y + Z.succ x) with (y + x + 1) by lia.
    rewrite days_before_year_succ. destruct (is_leap (y + x)); lia.
Qed.

Ltac table_values :=
  repeat match goal with
         | |- context [nth ?n ?l ?d] =>
             let v := eval vm_compute in (nth n l d) in
             change (nth n l d) with v
         | H : context [nth ?n ?l ?d] |- _ =>
             let v := eval vm_compute in (nth n l d) in
             change (nth n l d) with v in H
         end.

Lemma month_cases m :
  1 <= m <= 12 ->
  m = 1 \/ m = 2 \/ m = 3 \/ m = 4 \/ m = 5 \/ m = 6 \/ m = 7
  \/ m = 8 \/ m = 9 \/ m = 10 \/ m = 11 \/ m = 12.
Proof. lia. Qed.

(** The day of the year of a calendar date. *)
Lemma day_of_year_bound y m d :
  1 <= m <= 12 -> 1 <= d <= days_in_month y m ->
  1 <= days_before_month y m + d <= 365 + (if is_leap y then 1 else 0).
Proof.
  intros Hm. unfold days_before_month, days_in_month.
  apply month_cases in Hm.
  destruct (is_leap y); decompose [or] Hm; subst m; intros Hd;
    cbn [Z.eqb Z.ltb Z.compare Pos.compare Pos.compare_cont Pos.eqb andb]
      in Hd |- *; table_values; lia.
Qed.

Lemma days_before_month_lt y m d m' :
  1 <= m -> m < m' <= 12 -> d <= days_in_month y m ->
  days_before_month y m + d <= days_before_month y m'.
Proof.
  intros Hm Hm' Hd.
  assert (Hs : days_before_month y m + days_in_month y m
               = days_before_month y (m + 1)).
  { unfold days_before_month, days_in_month.
    destruct (month_cases m ltac:(lia)) as
      [E|[E|[E|[E|[E|[E|[E|[E|[E|[E|[E|E]]]]]]]]]]]; subst m;
      try lia; destruct (is_leap y); reflexivity. }
  assert (Hmono : forall a b, 1 <= a -> a <= b <= 12 ->
                    days_before_month y a <= days_before_month y b).
  { intros a b Ha Hb. unfold days_before_month.
    destruct (month_cases a ltac:(lia)) as
      [E|[E|[E|[E|[E|[E|[E|[E|[E|[E|[E|E]]]]]]]]]]]; subst a;
      destruct (month_cases b ltac:(lia)) as
      [E|[E|[E|[E|[E|[E|[E|[E|[E|[E|[E|E]]]]]]]]]]]; subst b;
      try lia; destruct (is_leap y); vm_compute; congruence. }
  specialize (Hmono (m + 1) m' ltac:(lia) ltac:(lia)). lia.
Qed.

Lemma ymd2ord_lt y m d y' m' d' :
  1 <= m <= 12 -> 1 <= d <= days_in_month y m ->
  1 <= m' <= 12 -> 1 <= d' <= days_in_month y' m' ->
  (y * 100 + m) * 100 + d < (y' * 100 + m') * 100 + d' ->
  ymd2ord y m d < ymd2ord y' m' d'.
Proof.
  intros Hm Hd Hm' Hd' Hk. unfold ymd2ord.
  pose proof (days_in_month_le y m Hm).
  pose proof (days_in_month_le y' m' Hm').
  pose proof (day_of_year_bound y m d Hm Hd) as B.
  pose proof (day_of_year_bound y' m' d' Hm' Hd') as B'.
  assert (C : y < y' \/ y = y' /\ (m < m' \/ m = m' /\ d < d')) by lia.
  destruct C as [C|[-> [C|[-> C]]]].
  - pose proof (days_before_year_step (y + 1) (y' - (y + 1)) ltac:(lia)) as S.
    replace (y + 1 + (y' - (y + 1))) with y' in S by lia.
    rewrite days_before_year_succ in S. nia.
  - pose proof (days_before_month_lt y' m d m' ltac:(lia) ltac:(lia)
                  ltac:(lia)). lia.
  - lia.
Qed.

Lemma ymd2ord_range y m d :
  1 <= y <= 9999 -> 1 <= m <= 12 -> 1 <= d <= days_in_month y m ->
  1 <= ymd2ord y m d <= MAXORDINAL.
Proof.
  intros Hy Hm Hd. unfold ymd2ord, MAXORDINAL.
  pose proof (day_of_year_bound y m d Hm Hd) as B.
  pose proof (days_before_year_step 1 (y - 1) ltac:(lia)) as L.
  replace (1 + (y - 1)) with y in L by lia.
  change (days_before_year 1) with 0 in L.
  pose proof (days_before_year_step (y + 1) (10000 - (y + 1)) ltac:(lia)) as U.
  replace (y + 1 + (10000 - (y + 1))) with 10000 in U by lia.
  change (days_before_year 10000) with 3652059 in U.
  rewrite days_before_year_succ in U. lia.
Qed.

Lemma valid_date t :
  valid t = true ->
  1 <= month t <= 12 /\ 1 <= day t <= days_in_month (year t) (month t).
Proof.
  unfold valid. intros H.
  repeat (apply andb_true_iff in H as [H ?]).
  repeat match goal with
         | E : (_ <=? _) = true |- _ => apply Z.leb_le in E
         end.
  lia.
Qed.

(** Of two valid datetimes, the one whose fields spell the smaller number
    YYYYMMDDhhmmss reads at least a second earlier. *)
Lemma seconds_order a b :
  valid a = true -> valid b = true -> packed a 0 < packed b 0 ->
  wall_us a - microsecond a + 1000000 <= wall_us b - microsecond b.
Proof.
  intros Va Vb. unfold packed, wall_us.
  destruct (valid_bounds a Va) as (Ya & Ma & Da & Ha & Mia & Sa & _).
  destruct (valid_bounds b Vb) as (Yb & Mb & Db & Hb & Mib & Sb & _).
  destruct (valid_date a Va) as (Ma' & Da').
  destruct (valid_date b Vb) as (Mb' & Db').
  intros Hk.
  assert (C : (year a * 100 + month a) * 100 + day a
              < (year b * 100 + month b) * 100 + day b
              \/ (year a = year b /\ month a = month b /\ day a = day b))
    by lia.
  destruct C as [C|(Ey & Em & Ed)].
  - pose proof (ymd2ord_lt _ _ _ _ _ _ Ma' Da' Mb' Db' C). lia.
  - rewrite Ey, Em, Ed in *. lia.
Qed.

Lemma digit_split k x d x' d' :
  0 <= d < k -> 0 <= d' < k -> x * k + d = x' * k + d' -> x = x' /\ d = d'.
Proof. intros Hd Hd' E. assert (x = x') by nia. subst x'. lia. Qed.

Lemma packed_inj a b :
  valid a = true -> valid b = true -> packed a 0 = packed b 0 ->
  year a = year b /\ month a = month b /\ day a = day b
  /\ hour a = hour b /\ minute a = minute b /\ second a = second b.
Proof.
  intros Va Vb K.
  destruct (valid_bounds a Va) as (Ya & Ma & Da & Ha & Mia & Sa & Ua).
  destruct (valid_bounds b Vb) as (Yb & Mb & Db & Hb & Mib & Sb & Ub).
  unfold packed in K.
  apply (digit_split 1000) in K as [K _]; [|lia ..].
  apply (digit_split 100) in K as [K Es]; [|lia ..].
  apply (digit_split 100) in K as [K Emi]; [|lia ..].
  apply (digit_split 100) in K as [K Eh]; [|lia ..].
  apply (digit_split 100) in K as [K Ed]; [|lia ..].
  apply (digit_split 100) in K as [Ey Em]; [|lia ..].
  auto 7.
Qed.

(** Valid datetimes of one zone with the same reading are the same. *)
Lemma wall_us_inj a b :
  valid a = true -> valid b = true -> tz a = tz b ->
  wall_us a = wall_us b -> a = b.
Proof.
  intros Va Vb Ez Ew.
  destruct (valid_bounds a Va) as (_ & _ & _ & _ & _ & _ & Ua).
  destruct (valid_bounds b Vb) as (_ & _ & _ & _ & _ & _ & Ub).
  pose proof (seconds_order a b Va Vb) as L1.
  pose proof (seconds_order b a Vb Va) as L2.
  assert (K : packed a 0 = packed b 0) by lia.
  destruct (packed_inj a b Va Vb K) as (Ey & Em & Ed & Eh & Emi & Es).
  assert (Eu : microsecond a = microsecond b).
  { unfold wall_us in Ew. rewrite Ey, Em, Ed, Eh, Emi, Es in Ew. lia. }
  destruct a, b. cbn [year month day hour minute second microsecond tz] in *.
  congruence.
Qed.

End CalendarOrder.

(** ** The encoded number, zones and order *)

Section CodecOrder.
Import PyStr Datetime Codec.

Lemma strftime_value a :
  valid a = true -> decimal_value (strftime_ymdhms a) * 1000 = packed a 0.
Proof.
  intros Va.
  destruct (valid_bounds a Va) as (Ya & Ma & Da & Ha & Mia & Sa & _).
  unfold strftime_ymdhms, packed.
  rewrite !decimal_value_app, !length_app.
  rewrite !zero_pad_length_2, !zero_pad_value by lia.
  change (Z.of_nat (2 + (2 + (2 + (2 + 2))))) with 10.
  change (Z.of_nat (2 + (2 + (2 + 2)))) with 8.
  change (Z.of_nat (2 + (2 + 2))) with 6.
  change (Z.of_nat (2 + 2)) with 4.
  change (Z.of_nat 2) with 2.
  change (10 ^ 10) with 10000000000. change (10 ^ 8) with 100000000.
  change (10 ^ 6) with 1000000. change (10 ^ 4) with 10000.
  change (10 ^ 2) with 100. lia.
Qed.

Lemma encode_text_value a ms :
  valid a = true -> 0 <= ms <= 999 ->
  int_of_str (strftime_ymdhms a ++ zero_pad 3 ms) = Return (packed a ms).
Proof.
  intros Va Hms.
  destruct (strftime_length a Va) as (L & D & _).
  destruct (int_of_digits (strftime_ymdhms a ++ zero_pad 3 ms)) as [n Hn].
  - rewrite all_chars_app, D, zero_pad_digits by lia. reflexivity.
  - destruct (strftime_ymdhms a); [discriminate L | discriminate].
  - rewrite Hn. f_equal. apply int_of_str_value in Hn. subst n.
    rewrite decimal_value_app, zero_pad_length_3, zero_pad_value by lia.
    change (10 ^ Z.of_nat 3) with 1000. rewrite strftime_value by exact Va.
    unfold packed. lia.
Qed.

Lemma encode_packed t a :
  valid t = true -> aware_utc t = Return a ->
  datetime_to_bigint_hr (Some t)
  = Return (Some (packed a (ms_field (microsecond a)))).
Proof.
  intros Vt Ha. rewrite encode_unfold, Ha. cbn [bind].
  destruct (aware_utc_spec t a Vt Ha) as (Va & _ & _).
  destruct (valid_bounds a Va) as (_ & _ & _ & _ & _ & _ & Ua).
  rewrite encode_text_value; [reflexivity | exact Va |].
  apply ms_field_range. exact Ua.
Qed.

(** X1: the encoded value is the number YYYYMMDDhhmmssmmm of the datetime taken
    to UTC: each field contributes its decimal places. *)
Theorem encode_value (t a : datetime) :
  valid t = true -> aware_utc t = Return a ->
  datetime_to_bigint_hr (Some t)
  = Return (Some (packed a (ms_field (microsecond a)))).
Proof. exact (encode_packed t a). Qed.

Lemma valid_ordinal t :
  valid t = true -> 0 < wall_us t / US_PER_DAY <= MAXORDINAL.
Proof.
  intros Vt.
  destruct (valid_bounds t Vt) as (Y & _ & _ & H & Mi & S & U).
  destruct (valid_date t Vt) as (M & D).
  pose proof (ymd2ord_range _ _ _ Y M D) as R.
  unfold wall_us, US_PER_DAY, MAXORDINAL in *.
  set (o := ymd2ord (year t) (month t) (day t)) in *. clearbody o.
  Z.div_mod_to_equations. lia.
Qed.

Lemma bind_Return {A B : Type} (a : A) (k : A -> result B) :
  bind (Return a) k = k a.
Proof. reflexivity. Qed.

Lemma wall_us_replace_tz u z : wall_us (replace_tz u z) = wall_us u.
Proof. reflexivity. Qed.

Lemma add_us_cases t delta :
  match add_us t delta with
  | Return a => 0 < (wall_us t + delta) / US_PER_DAY <= MAXORDINAL
  | Raise e => e = OverflowError_date_range
               /\ ~ 0 < (wall_us t + delta) / US_PER_DAY <= MAXORDINAL
  end.
Proof.
  unfold add_us. fold (wall_us t). cbv zeta.
  destruct (_ && _) eqn:Hr.
  - apply andb_true_iff in Hr as [H0 H1].
    apply Z.ltb_lt in H0. apply Z.leb_le in H1.
    destruct (ord2ymd _) as [[y m] d]. lia.
  - split; [reflexivity|]. intros [H0 H1].
    apply Z.ltb_lt in H0. apply Z.leb_le in H1.
    rewrite H0, H1 in Hr. discriminate.
Qed.

Lemma astimezone_fixed t off :
  astimezone_utc t (TzFixed off)
  = (u <- add_us t (- off) ;; add_us (replace_tz u (Some TzUTC)) 0).
Proof. reflexivity. Qed.

Lemma astimezone_fixed_raises t off e :
  valid t = true ->
  (u <- add_us t (- off) ;; add_us (replace_tz u (Some TzUTC)) 0) = Raise e ->
  e = OverflowError_date_range
  /\ ~ 0 < (wall_us t + - off) / US_PER_DAY <= MAXORDINAL.
Proof.
  intros Vt Ha.
  pose proof (add_us_cases t (- off)) as C1.
  destruct (add_us t (- off)) as [u|e1] eqn:Hu;
    [rewrite bind_Return in Ha | cbn [bind] in Ha].
  - apply add_us_spec in Hu as (Vu & _ & _).
    pose proof (add_us_cases (replace_tz u (Some TzUTC)) 0) as C2.
    rewrite Ha in C2. destruct C2 as [_ C2]. exfalso. apply C2.
    rewrite wall_us_replace_tz, Z.add_0_r.
    now apply valid_ordinal.
  - injection Ha as <-. exact C1.
Qed.

Lemma aware_utc_raises t e :
  valid t = true -> aware_utc t = Raise e ->
  e = OverflowError_date_range
  /\ ~ 0 < instant_us t / US_PER_DAY <= MAXORDINAL.
Proof.
  intros Vt Ha. unfold aware_utc in Ha. unfold instant_us.
  destruct (tz t) as [[|off]|]; [discriminate Ha | | discriminate Ha].
  cbn [utcoffset]. unfold Z.sub. rewrite astimezone_fixed in Ha.
  now apply astimezone_fixed_raises.
Qed.

(** The conversion to UTC depends on the instant alone: it raises when the
    instant falls outside years 1..9999 and otherwise gives the valid UTC
    datetime that reads the instant. *)
Lemma aware_utc_cases t :
  valid t = true ->
  match aware_utc t with
  | Return a => valid a = true /\ tz a = Some TzUTC
                /\ wall_us a = instant_us t
  | Raise e => e = OverflowError_date_range
               /\ ~ 0 < instant_us t / US_PER_DAY <= MAXORDINAL
  end.
Proof.
  intros Vt. destruct (aware_utc t) as [a|e] eqn:Ha.
  - destruct (aware_utc_spec t a Vt Ha) as (Va & Ta & Ia).
    split; [exact Va|]. split; [exact Ta|].
    rewrite <- Ia. unfold instant_us. rewrite Ta. cbn [utcoffset].
    symmetry. apply Z.sub_0_r.
  - now apply aware_utc_raises.
Qed.

(** X2: datetimes that denote the same instant, in whatever zones (a naive one
    counting as UTC), encode alike: to the same number, or to the same
    error. *)
Theorem encode_zone_invariant (t1 t2 : datetime) :
  valid t1 = true -> valid t2 = true -> instant_us t1 = instant_us t2 ->
  datetime_to_bigint_hr (Some t1) = datetime_to_bigint_hr (Some t2).
Proof.
  intros V1 V2 E.
  pose proof (aware_utc_cases t1 V1) as C1.
  pose proof (aware_utc_cases t2 V2) as C2.
  rewrite !encode_unfold.
  destruct (aware_utc t1) as [a1|e1], (aware_utc t2) as [a2|e2].
  - destruct C1 as (Va1 & T1 & W1), C2 as (Va2 & T2 & W2).
    rewrite (wall_us_inj a1 a2); [reflexivity | auto | auto | | ]; congruence.
  - destruct C1 as (Va1 & _ & W1), C2 as (_ & C2). exfalso. apply C2.
    rewrite <- E, <- W1. now apply valid_ordinal.
  - destruct C2 as (Va2 & _ & W2), C1 as (_ & C1). exfalso. apply C1.
    rewrite E, <- W2. now apply valid_ordinal.
  - destruct C1 as [-> _], C2 as [-> _]. reflexivity.
Qed.

Lemma round_ms_mono u1 u2 : u1 <= u2 -> round_ms u1 <= round_ms u2.
Proof.
  intros H.
  destruct (round_ms_nearest u1) as [N1 _].
  destruct (round_ms_nearest u2) as [N2 _].
  destruct (Z.eq_dec u1 u2) as [->|Hne]; [lia|]. lia.
Qed.

(** X3: encoding keeps the order of instants, as long as the later instant is
    not within the last half millisecond of its second (where the
    millisecond field falls back to 000). *)
Theorem encode_monotone (t1 t2 : datetime) (n1 n2 : Z) :
  valid t1 = true -> valid t2 = true ->
  datetime_to_bigint_hr (Some t1) = Return (Some n1) ->
  datetime_to_bigint_hr (Some t2) = Return (Some n2) ->
  instant_us t1 <= instant_us t2 ->
  instant_us t2 mod 1000000 < 999500 ->
  n1 <= n2.
Proof.
  intros V1 V2 E1 E2 Hle Hc.
  pose proof (aware_utc_cases t1 V1) as C1.
  pose proof (aware_utc_cases t2 V2) as C2.
  destruct (aware_utc t1) as [a1|e1] eqn:A1;
    [|rewrite encode_unfold, A1 in E1; discriminate E1].
  destruct (aware_utc t2) as [a2|e2] eqn:A2;
    [|rewrite encode_unfold, A2 in E2; discriminate E2].
  rewrite (encode_packed t1 a1 V1 A1) in E1.
  rewrite (encode_packed t2 a2 V2 A2) in E2.
  injection E1 as <-. injection E2 as <-.
  destruct C1 as (Va1 & _ & W1), C2 as (Va2 & _ & W2).
  destruct (valid_bounds a1 Va1) as (_ & _ & _ & _ & _ & _ & U1).
  destruct (valid_bounds a2 Va2) as (_ & _ & _ & _ & _ & _ & U2).
  pose proof (ms_field_range _ U1) as R1.
  pose proof (ms_field_range _ U2) as R2.
  pose proof (seconds_order a1 a2 Va1 Va2) as L12.
  pose proof (seconds_order a2 a1 Va2 Va1) as L21.
  assert (P : forall a ms, packed a ms = packed a 0 + ms)
    by (intros; unfold packed; lia).
  rewrite (P a1), (P a2).
  assert (M : forall a, packed a 0 mod 1000 = 0).
  { intros a. unfold packed. rewrite Z.add_0_r. apply Z.mod_mul. lia. }
  pose proof (M a1) as M1. pose proof (M a2) as M2.
  assert (C : packed a1 0 < packed a2 0 \/ packed a1 0 = packed a2 0) by lia.
  destruct C as [C|C].
  - Z.div_mod_to_equations. lia.
  - destruct (packed_inj a1 a2 Va1 Va2 C) as (Ey & Em & Ed & Eh & Emi & Es).
    assert (U : microsecond a1 <= microsecond a2).
    { unfold wall_us in W1, W2. rewrite Ey, Em, Ed, Eh, Emi, Es in W1. lia. }
    assert (U2' : microsecond a2 < 999500).
    { rewrite <- W2 in Hc. unfold wall_us in Hc.
      rewrite Z.add_comm, Z.mod_add in Hc by lia.
      rewrite Z.mod_small in Hc by lia. exact Hc. }
    assert (K : forall u, 0 <= u < 999500 -> ms_field u = round_ms u).
    { intros u Hu. unfold ms_field. cbv zeta.
      destruct (round_ms u =? 1000) eqn:Q; [|reflexivity].
      apply Z.eqb_eq in Q. destruct (round_ms_nearest u) as [N _]. lia. }
    rewrite !K by lia. pose proof (round_ms_mono _ _ U). lia.
Qed.

End CodecOrder.

(** ** What decoding returns *)

Section DecodeOutput.
Import PyStr Datetime Codec.

Lemma int_of_str_digits s n :
  int_of_str s = Return n -> all_chars is_decimal s = true.
Proof.
  unfold int_of_str. destruct (NilZero.uint_of_string s) as [d|] eqn:E;
    [|discriminate].
  intros _. apply NilZero.sus in E. rewrite <- E.
  destruct d; try apply numeral_digits. reflexivity.
Qed.

Lemma decimal_value_bound s :
  all_chars is_decimal s = true ->
  0 <= decimal_value s < 10 ^ Z.of_nat (String.length s).
Proof.
  induction s as [|c r IH]; [cbn; lia|].
  cbn [all_chars]. intros H. apply andb_true_iff in H as [Hc Hr].
  specialize (IH Hr). unfold decimal_value in *.
  cbn [value_from String.length]. rewrite value_from_shift.
  rewrite Nat2Z.inj_succ, Z.pow_succ_r by lia.
  unfold is_decimal in Hc. cbv zeta in Hc.
  apply andb_true_iff in Hc as [C1 C2].
  apply Z.leb_le in C1. apply Z.leb_le in C2.
  set (p := 10 ^ Z.of_nat (String.length r)) in *. nia.
Qed.

Lemma strptime_valid s t :
  strptime_ymdhms s = Return t ->
  valid t = true /\ all_chars is_decimal s = true.
Proof.
  unfold strptime_ymdhms.
  destruct (String.length s =? 14)%nat; [|discriminate].
  destruct (all_chars is_decimal s); [|discriminate]. cbn [andb negb].
  destruct (field s 0 4); [|discriminate].
  destruct (field s 4 2); [|discriminate].
  destruct (field s 6 2); [|discriminate].
  destruct (field s 8 2); [|discriminate].
  destruct (field s 10 2); [|discriminate].
  destruct (field s 12 2); [|discriminate].
  cbn [bind]. destruct (valid _) eqn:V; [|discriminate].
  intros [= <-]. split; [exact V | reflexivity].
Qed.

Lemma valid_replace t z us :
  valid t = true -> 0 <= us <= 999999 ->
  valid (replace_microsecond (replace_tz t z) us) = true.
Proof.
  intros V Hus. destruct (valid_bounds t V) as (Y & M & D & H & Mi & S & _).
  destruct (valid_date t V) as (_ & D').
  apply valid_intro;
    cbn [replace_microsecond replace_tz year month day hour minute second
         microsecond]; lia.
Qed.

Lemma decode_fields v dt :
  bigint_hr_to_datetime (Some v) = Return (Some dt) ->
  all_chars is_decimal (strip (str v)) = true
  /\ valid dt = true /\ tz dt = Some TzUTC
  /\ microsecond dt mod 1000 = 0
  /\ packed dt (microsecond dt / 1000)
     = decimal_value (canonical17 (strip (str v))).
Proof.
  unfold bigint_hr_to_datetime. set (s := strip (str v)).
  destruct (_ || _); [discriminate|].
  destruct (negb _); [discriminate|].
  unfold canonical17.
  destruct (String.length s =? 14)%nat eqn:L14.
  - destruct (strptime_ymdhms s) as [t|] eqn:Hp; [|discriminate].
    cbn [bind]. intros [= <-].
    destruct (strptime_valid s t Hp) as [Vt Ds].
    destruct (strptime_naive s t Hp) as [Hus _].
    pose proof (valid_replace t (Some TzUTC) 0 Vt ltac:(lia)) as V.
    assert (E : replace_tz t (Some TzUTC)
                = replace_microsecond (replace_tz t (Some TzUTC)) 0).
    { unfold replace_microsecond, replace_tz at 1.
      cbn [replace_tz year month day hour minute second microsecond tz].
      now rewrite Hus. }
    rewrite <- E in V.
    split; [exact Ds|]. split; [exact V|]. split; [reflexivity|].
    cbn [replace_tz microsecond]. rewrite Hus. split; [reflexivity|].
    change (0 / 1000) with 0.
    rewrite decimal_value_app. change (decimal_value "000") with 0.
    change (10 ^ Z.of_nat (String.length "000")) with 1000.
    rewrite <- (strftime_strptime s t Hp), (strftime_value t Vt).
    unfold packed. cbn [replace_tz year month day hour minute second]. lia.
  - destruct (String.length s =? 17)%nat eqn:L17; [|discriminate].
    apply Nat.eqb_eq in L17.
    destruct (strptime_ymdhms (take 14 s)) as [t|] eqn:Hp; [|discriminate].
    cbn [bind].
    destruct (int_of_str (drop 14 s)) as [k|] eqn:Hk; [|discriminate].
    cbn [bind]. intros [= <-].
    destruct (strptime_valid _ t Hp) as [Vt Db].
    pose proof (int_of_str_digits _ _ Hk) as Dm.
    pose proof (decimal_value_bound _ Dm) as Bk.
    rewrite length_drop, L17 in Bk. change (10 ^ Z.of_nat (17 - 14)) with 1000 in Bk.
    apply int_of_str_value in Hk. rewrite <- Hk in Bk.
    assert (Ds : all_chars is_decimal s = true).
    { rewrite <- (take_drop 14 s), all_chars_app, Db, Dm. reflexivity. }
    split; [exact Ds|].
    split; [apply valid_replace; [exact Vt | lia]|].
    split; [reflexivity|].
    cbn [replace_microsecond microsecond].
    rewrite Z.mod_mul, Z.div_mul by lia. split; [reflexivity|].
    rewrite <- (take_drop 14 s) at 1. rewrite decimal_value_app, <- Hk.
    rewrite length_drop, L17. change (10 ^ Z.of_nat (17 - 14)) with 1000.
    rewrite <- (strftime_strptime _ t Hp), (strftime_value t Vt).
    unfold packed.
    cbn [replace_microsecond replace_tz year month day hour minute second].
    lia.
Qed.

(** X4: for a stored value whose text, white space apart, is made of the
    digits 0 to 9, whatever decoding returns is a valid UTC datetime of whole
    milliseconds, whose fields spell the number of the 17-digit form of the
    text. *)
Theorem decode_output (v : pyval) (dt : datetime) :
  all_chars is_decimal (strip (str v)) = true ->
  bigint_hr_to_datetime (Some v) = Return (Some dt) ->
  valid dt = true /\ tz dt = Some TzUTC
  /\ microsecond dt mod 1000 = 0
  /\ packed dt (microsecond dt / 1000)
     = decimal_value (canonical17 (strip (str v))).
Proof. intros _ H. exact (proj2 (decode_fields v dt H)). Qed.

End DecodeOutput.

(** ** Open and closed trades *)

Section Closed.
Import PyStr Datetime Codec.

Lemma ge_utc a b :
  valid a = true -> valid b = true ->
  tz a = Some TzUTC -> tz b = Some TzUTC ->
  ge a b = Some (packed b 0 * 1000 + microsecond b
                 <=? packed a 0 * 1000 + microsecond a).
Proof.
  intros Va Vb Ta Tb. unfold ge, _cmp. rewrite Ta, Tb.
  cbn [offset_of same_offset Z.eqb]. cbv zeta.
  destruct (valid_bounds a Va) as (Ya & Ma & Da & Ha & Mia & Sa & Ua).
  destruct (valid_bounds b Vb) as (Yb & Mb & Db & Hb & Mib & Sb & Ub).
  unfold fields, packed. cbn [tuple_cmp].
  destruct (Z.compare_spec (year a) (year b));
    [|f_equal; symmetry; first [apply Z.leb_le | apply Z.leb_gt]; lia ..].
  destruct (Z.compare_spec (month a) (month b));
    [|f_equal; symmetry; first [apply Z.leb_le | apply Z.leb_gt]; lia ..].
  destruct (Z.compare_spec (day a) (day b));
    [|f_equal; symmetry; first [apply Z.leb_le | apply Z.leb_gt]; lia ..].
  destruct (Z.compare_spec (hour a) (hour b));
    [|f_equal; symmetry; first [apply Z.leb_le | apply Z.leb_gt]; lia ..].
  destruct (Z.compare_spec (minute a) (minute b));
    [|f_equal; symmetry; first [apply Z.leb_le | apply Z.leb_gt]; lia ..].
  destruct (Z.compare_spec (second a) (second b));
    [|f_equal; symmetry; first [apply Z.leb_le | apply Z.leb_gt]; lia ..].
  destruct (Z.compare_spec (microsecond a) (microsecond b));
    f_equal; symmetry; first [apply Z.leb_le | apply Z.leb_gt]; lia.
Qed.

(** X5: for a record read from the store, [is_closed] never fails, and when
    both times are present it compares the stored numbers: the trade counts
    as closed exactly when the close number is not below the open number. *)
Theorem is_closed_of_stored (vo vc : pyval) (o c : datetime) :
  bigint_hr_to_datetime (Some vo) = Return (Some o) ->
  bigint_hr_to_datetime (Some vc) = Return (Some c) ->
  is_closed (Some o) (Some c)
  = Some (stored_number vo <=? stored_number vc).
Proof.
  intros Ho Hc.
  destruct (decode_fields vo o Ho) as (_ & Vo & To & Mo & Po).
  destruct (decode_fields vc c Hc) as (_ & Vc & Tc & Mc & Pc).
  unfold is_closed, stored_number. rewrite <- Po, <- Pc.
  rewrite (ge_utc c o Vc Vo Tc To). f_equal.
  assert (P : forall a ms, packed a ms = packed a 0 + ms)
    by (intros; unfold packed; lia).
  rewrite (P o (microsecond o / 1000)), (P c (microsecond c / 1000)).
  pose proof (Z.div_mod (microsecond o) 1000 ltac:(lia)) as Do.
  pose proof (Z.div_mod (microsecond c) 1000 ltac:(lia)) as Dc.
  rewrite Mo in Do. rewrite Mc in Dc.
  destruct (_ <=? _) eqn:E1; symmetry;
    [apply Z.leb_le in E1; apply Z.leb_le
    |apply Z.leb_gt in E1; apply Z.leb_gt]; lia.
Qed.

End Closed.

Lemma is_closed_of_stored_witness :
  Codec.is_closed
    (Some (Datetime.mkdt 2023 2 9 8 43 34 123000 (Some Datetime.TzUTC)))
    (Some (Datetime.mkdt 2023 2 9 8 43 35 0 (Some Datetime.TzUTC)))
  = Some true.
Proof.
  exact (is_closed_of_stored (Codec.VStr "20230209084334123")
           (Codec.VInt 20230209084335) _ _ eq_refl eq_refl).
Defined.

Lemma encode_value_witness :
  Codec.datetime_to_bigint_hr (Some Codec.T_EAST)
  = Return (Some 20230209084334000).
Proof.
  exact (encode_value Codec.T_EAST
           (Datetime.mkdt 2023 2 9 8 43 34 999500 (Some Datetime.TzUTC))
           eq_refl eq_refl).
Defined.

Lemma encode_zone_invariant_witness :
  Codec.datetime_to_bigint_hr (Some Codec.T_EAST)
  = Codec.datetime_to_bigint_hr
      (Some (Datetime.mkdt 2023 2 9 8 43 34 999500 None)).
Proof.
  apply encode_zone_invariant; reflexivity.
Defined.

Lemma encode_monotone_witness :
  Datetime.instant_us Codec.T_EAST
  <= Datetime.instant_us
       (Datetime.mkdt 2023 2 9 8 43 35 0 (Some Datetime.TzUTC))
  /\ 20230209084334000 <= 20230209084335000.
Proof.
  assert (H : Datetime.instant_us Codec.T_EAST
              <= Datetime.instant_us
                   (Datetime.mkdt 2023 2 9 8 43 35 0 (Some Datetime.TzUTC)))
    by (vm_compute; discriminate).
  split; [exact H|].
  apply (encode_monotone Codec.T_EAST
           (Datetime.mkdt 2023 2 9 8 43 35 0 (Some Datetime.TzUTC)));
    [reflexivity | reflexivity | reflexivity | reflexivity | exact H
    | reflexivity].
Defined.

Lemma decode_output_witness :
  Datetime.valid
    (Datetime.mkdt 2023 2 9 8 43 34 123000 (Some Datetime.TzUTC)) = true
  /\ Codec.packed
       (Datetime.mkdt 2023 2 9 8 43 34 123000 (Some Datetime.TzUTC)) 123
     = 20230209084334123.
Proof.
  destruct (decode_output (Codec.VStr "20230209084334123") _ eq_refl eq_refl)
    as (V & _ & _ & P).
  split; [exact V | exact P].
Defined.

(** ** More on the two fetch functions *)

Section FetchRuns.
Import PyStr Query Fetch.

Variables (row record : Type).
Variable row_to_trade_record : row -> result record.
Variable execute : string -> list param -> list row * list string.

Local Abbreviation map_rows := (Fetch.map_rows row record row_to_trade_record).
Local Abbreviation fetch_trades :=
  (Fetch.fetch_trades row record row_to_trade_record execute).
Local Abbreviation fetch_trades_by_sql :=
  (Fetch.fetch_trades_by_sql row record row_to_trade_record execute).

(** The list comprehension over the rows maps them in order and stops at
    the first row the mapper refuses. *)
Lemma map_rows_spec : forall rows tr0,
  (exists xs,
     map_rows rows tr0 = (Return xs, tr0 ++ map RowMapped rows)%list
     /\ Forall2 (fun r x => row_to_trade_record r = Return x) rows xs)
  \/ (exists pre r post e,
        rows = (pre ++ r :: post)%list
        /\ Forall (fun r' => exists x, row_to_trade_record r' = Return x) pre
        /\ row_to_trade_record r = Raise e
        /\ map_rows rows tr0
           = (Raise e, tr0 ++ map RowMapped (pre ++ [r]))%list).
Proof.
  intros rows0. induction rows0 as [|r rest IH]; intros tr0.
  - left. exists []. cbn. rewrite List.app_nil_r. split; constructor.
  - cbn [Fetch.map_rows]. destruct (row_to_trade_record r) as [x|e] eqn:Hr.
    + destruct (IH (tr0 ++ [RowMapped r])%list)
        as [(xs & E & F) | (pre & r' & post & e & -> & Fp & Hr' & E)];
        rewrite E.
      * left. exists (x :: xs). cbn [map]. rewrite <- List.app_assoc.
        split; [reflexivity | now constructor].
      * right. exists (r :: pre), r', post, e. cbn [map app].
        rewrite <- List.app_assoc. repeat split; auto.
        constructor; eauto.
    + right. exists [], r, rest, e. cbn. repeat split; auto.
Qed.


Lemma map_rows_closed rows tr0 :
  exists mapped post,
    rows = (mapped ++ post)%list
    /\ snd (map_rows rows tr0) = (tr0 ++ map RowMapped mapped)%list
    /\ (forall xs, fst (map_rows rows tr0) = Return xs ->
                   mapped = rows
                   /\ Forall2 (fun r x => row_to_trade_record r = Return x)
                        rows xs).
Proof.
  destruct (map_rows_spec rows tr0)
    as [(xs & E & F) | (pre & r & post & e & -> & _ & _ & E)]; rewrite E.
  - exists rows, []. rewrite List.app_nil_r. cbn [fst snd].
    split; [reflexivity|]. split; [reflexivity|].
    intros ys [= <-]. split; [reflexivity | exact F].
  - exists (pre ++ [r])%list, post. rewrite <- List.app_assoc. cbn [fst snd app].
    split; [reflexivity|]. split; [reflexivity | discriminate].
Qed.

Lemma fetch_trades_run (q : TradeQuery) :
  let res := fst (fetch_trades q) in
  let tr := snd (fetch_trades q) in
  (exists e, build_where_and_params q = Raise e /\ res = Raise e /\ tr = [])
  \/ (exists where_sql params sql mapped post,
        build_where_and_params q = Return (where_sql, params)
        /\ sql = "SELECT " ++ join ", " COLUMNS ++ " FROM TradeHistories"
                 ++ where_sql ++ " ORDER BY " ++ order_by q ++ " "
                 ++ order_dir q ++ " LIMIT %s OFFSET %s"
        /\ fst (execute sql (params ++ [PInt (limit q); PInt (offset q)]))
           = (mapped ++ post)%list
        /\ tr = (Connected
                 :: Executed sql (params ++ [PInt (limit q); PInt (offset q)])
                 :: map RowMapped mapped ++ [Closed])%list
        /\ (forall xs, res = Return xs ->
                       post = []
                       /\ Forall2
                            (fun r x => row_to_trade_record r = Return x)
                            mapped xs)).
Proof.
  cbv zeta. unfold Fetch.fetch_trades.
  destruct (build_where_and_params q) as [[w ps]|e]; [right | left; eauto].
  set (sql := "SELECT " ++ _).
  set (params := (ps ++ _)%list).
  destruct (execute sql params) as [rows description] eqn:Ex.
  destruct (map_rows_closed rows [Connected; Executed sql params])
    as (mapped & post & E & Ht & Hx).
  exists w, ps, sql, mapped, post. fold params. rewrite Ex.
  unfold close. cbn [fst snd]. rewrite Ht.
  split; [reflexivity|]. split; [reflexivity|]. split; [exact E|].
  split; [reflexivity|].
  intros xs Hr. destruct (Hx xs Hr) as [Em F].
  assert (post = []).
  { rewrite <- Em in E. rewrite <- (List.app_nil_r mapped) in E at 1.
    now apply List.app_inv_head in E. }
  split; [assumption|]. now rewrite Em.
Qed.


Lemma placeholders_cons c r :
  placeholders (String c r)
  = ((if String.prefix "%s" (String c r) then 1 else 0) + placeholders r)%nat.
Proof. reflexivity. Qed.

Lemma placeholders_app a b :
  String.prefix "s" b = false ->
  placeholders (a ++ b) = (placeholders a + placeholders b)%nat.
Proof.
  intros Hb. induction a as [|c r IH]; [reflexivity|].
  change (String c r ++ b) with (String c (r ++ b)).
  rewrite !placeholders_cons, IH.
  replace (String.prefix "%s" (String c (r ++ b)))
    with (String.prefix "%s" (String c r)); [lia|].
  destruct r as [|d r'].
  - cbn [String.append]. destruct b as [|e b']; [reflexivity|].
    revert Hb. cbn [String.append String.prefix].
    destruct (Ascii.ascii_dec "%" c); [|reflexivity].
    destruct (Ascii.ascii_dec "s" e); [|reflexivity].
    destruct b'; discriminate.
  - cbn [String.append String.prefix].
    destruct (Ascii.ascii_dec "%" c); [|reflexivity].
    destruct (Ascii.ascii_dec "s" d); [|reflexivity].
    destruct r'; destruct b; reflexivity.
Qed.

Lemma build_where_and_params_spec q :
  validate q = Return tt ->
  build_where_and_params q
  = (o_from <- encode_bound (opened_from q) ;;
     o_to <- encode_bound (opened_to q) ;;
     c_from <- encode_bound (closed_from q) ;;
     c_to <- encode_bound (closed_to q) ;;
     let preds := spec_predicates q o_from o_to c_from c_to in
     Return (spec_where preds, map snd preds)).
Proof.
  intros Hv. unfold build_where_and_params. rewrite Hv. cbn [bind].
  rewrite !step_int, (step_text _ _ (symbol q) (fun s => s)).
  rewrite append_time_spec.
  destruct (encode_bound (opened_from q)) as [p1|]; [|reflexivity].
  cbn [bind]. rewrite append_time_spec.
  destruct (encode_bound (opened_to q)) as [p2|]; [|reflexivity].
  cbn [bind]. rewrite append_time_spec.
  destruct (encode_bound (closed_from q)) as [p3|]; [|reflexivity].
  cbn [bind]. rewrite append_time_spec.
  destruct (encode_bound (closed_to q)) as [p4|]; [|reflexivity].
  cbn [bind].
  rewrite (step_text _ _ (comment_like q) (fun s => "%" ++ s ++ "%")).
  cbv zeta. rewrite <- spec_where_fst. unfold spec_predicates, step.
  cbn [fst snd]. rewrite !map_app, !List.app_assoc. reflexivity.
Qed.

Lemma build_valid q w ps :
  build_where_and_params q = Return (w, ps) -> validate q = Return tt.
Proof.
  unfold build_where_and_params.
  destruct (validate q) as [[]|]; [reflexivity | discriminate].
Qed.

Lemma where_placeholders q w ps :
  build_where_and_params q = Return (w, ps) ->
  placeholders w = List.length ps
  /\ String.prefix "s" w = false.
Proof.
  intros Hb. pose proof (build_valid q w ps Hb) as Hv.
  rewrite (build_where_and_params_spec q Hv) in Hb.
  destruct (encode_bound (opened_from q)) as [p1|]; [|discriminate].
  destruct (encode_bound (opened_to q)) as [p2|]; [|discriminate].
  destruct (encode_bound (closed_from q)) as [p3|]; [|discriminate].
  destruct (encode_bound (closed_to q)) as [p4|]; [|discriminate].
  cbn [bind] in Hb. cbv zeta in Hb. injection Hb as <- <-.
  unfold spec_predicates.
  destruct (option_map PInt (trade_account_id q)),
    (option_map PInt (ticket q)), (text_filter (symbol q) _),
    p1, p2, p3, p4, (text_filter (comment_like q) _);
    split; reflexivity.
Qed.

Lemma guard_accepts_select rest :
  is_select_only ("SELECT " ++ rest) = true.
Proof.
  unfold is_select_only, _strip_leading_comments.
  cbn [String.append lstrip]. replace (isspace "S") with false by reflexivity.
  cbn [String.length strip_blocks]. 
  replace (startswith "/*" (String "S" _)) with false by reflexivity.
  cbn [String.length strip_lines].
  replace (startswith "--" (String "S" _)) with false by reflexivity.
  reflexivity.
Qed.

(** X7: every bound value has its marker: the statement a filtered query
    executes has as many markers [%s] as the parameters passed with it,
    those of the filters and the two of the page; and it is a text the raw
    query guard accepts. *)
Theorem fetch_trades_placeholders (q : TradeQuery) (w : string)
  (ps : list param) :
  build_where_and_params q = Return (w, ps) ->
  let sql := "SELECT " ++ join ", " COLUMNS ++ " FROM TradeHistories" ++ w
             ++ " ORDER BY " ++ order_by q ++ " " ++ order_dir q
             ++ " LIMIT %s OFFSET %s" in
  let params := (ps ++ [PInt (limit q); PInt (offset q)])%list in
  (exists rest,
     snd (fetch_trades q) = Connected :: Executed sql params :: rest)
  /\ placeholders sql = List.length params
  /\ is_select_only sql = true.
Proof.
  intros Hb. cbv zeta.
  destruct (where_placeholders q w ps Hb) as [Hw Hs].
  pose proof (build_valid q w ps Hb) as Hv.
  assert (Ho : In (order_by q) allowed_cols
               /\ In (order_dir q) ["ASC"; "DESC"]).
  { revert Hv. unfold validate.
    destruct (mem (order_by q) allowed_cols) eqn:M1; [|discriminate].
    destruct (mem (order_dir q) ["ASC"; "DESC"]) eqn:M2; [|discriminate].
    intros _. split; now apply mem_In. }
  destruct Ho as [Hob Hod].
  split; [|split].
  - destruct (fetch_trades_run q)
      as [(e & Hr & _) | (w' & ps' & sql & mapped & post & Hb' & -> & _ & Ht & _)].
    { rewrite Hb in Hr. discriminate Hr. }
    rewrite Hb in Hb'. injection Hb' as <- <-. rewrite Ht. eauto.
  - rewrite List.length_app. cbn [List.length].
    set (tail := " ORDER BY " ++ order_by q ++ " " ++ order_dir q
                 ++ " LIMIT %s OFFSET %s").
    assert (Ht : placeholders tail = 2%nat /\ String.prefix "s" tail = false).
    { unfold tail, allowed_cols in *. cbn [In] in Hob, Hod.
      decompose [or] Hob; decompose [or] Hod; try contradiction;
        repeat match goal with E : _ = order_by q |- _ => rewrite <- E end;
        repeat match goal with E : _ = order_dir q |- _ => rewrite <- E end;
        split; reflexivity. }
    destruct Ht as [Ht1 Ht2].
    assert (Hwt : String.prefix "s" (w ++ tail) = false).
    { destruct w as [|c w']; [exact Ht2|]. revert Hs.
      cbn [String.append String.prefix].
      destruct (Ascii.ascii_dec "s" c); [|reflexivity].
      destruct w'; discriminate. }
    change ("SELECT " ++ join ", " COLUMNS ++ " FROM TradeHistories" ++ w ++ tail)
      with (("SELECT " ++ join ", " COLUMNS ++ " FROM TradeHistories")
            ++ (w ++ tail)).
    rewrite (placeholders_app _ (w ++ tail) Hwt).
    rewrite (placeholders_app w tail Ht2), Hw, Ht1.
    replace (placeholders
               ("SELECT " ++ join ", " COLUMNS ++ " FROM TradeHistories"))
      with 0%nat by reflexivity.
    lia.
  - apply guard_accepts_select.
Qed.

End FetchRuns.

Lemma fetch_trades_placeholders_witness :
  Query.build_where_and_params Query.Q_SAMPLE
  = Return (" WHERE TradeAccountID = %s AND SymbolName = %s"
            ++ " AND OpenTime >= %s AND Comment LIKE %s",
            [Query.PInt 111; Query.PStr "EURUSD";
             Query.PInt 20230209000000000; Query.PStr "%hedge%"])
  /\ PyStr.placeholders
       ("SELECT " ++ PyStr.join ", " Query.COLUMNS ++ " FROM TradeHistories"
        ++ " WHERE TradeAccountID = %s AND SymbolName = %s"
        ++ " AND OpenTime >= %s AND Comment LIKE %s"
        ++ " ORDER BY OpenTime ASC LIMIT %s OFFSET %s") = 6%nat.
Proof.
  assert (H : Query.build_where_and_params Query.Q_SAMPLE
              = Return (" WHERE TradeAccountID = %s AND SymbolName = %s"
                        ++ " AND OpenTime >= %s AND Comment LIKE %s",
                        [Query.PInt 111; Query.PStr "EURUSD";
                         Query.PInt 20230209000000000;
                         Query.PStr "%hedge%"]))
    by (vm_compute; reflexivity).
  split; [exact H|].
  exact (proj1 (proj2 (fetch_trades_placeholders unit unit
                         (fun _ => Return tt) (fun _ _ => ([], []))
                         Query.Q_SAMPLE _ _ H))).
Defined.

(** ** The two fetch functions over a store that can fail *)

Section FallibleRuns.
Import PyStr Query Fetch.

Variables (row record : Type).
Variable row_to_trade_record : row -> result record.
Variable connect : result unit.
Variable cursor : result unit.
Variable execute : string -> list param -> result (list row * list string).

Local Abbreviation fetch_trades :=
  (FallibleStore.fetch_trades row record row_to_trade_record connect cursor
     execute).
Local Abbreviation fetch_trades_by_sql :=
  (FallibleStore.fetch_trades_by_sql row record row_to_trade_record connect
     cursor execute).

(** A store that does not fail gives the runs of [Fetch]. *)
Lemma fetch_trades_total q (ex : string -> list param -> list row * list string) :
  connect = Return tt -> cursor = Return tt ->
  (forall s ps, execute s ps = Return (ex s ps)) ->
  fetch_trades q = Fetch.fetch_trades row record row_to_trade_record ex q.
Proof.
  intros Hc Hu He. unfold FallibleStore.fetch_trades, Fetch.fetch_trades.
  destruct (build_where_and_params q) as [[w ps]|e]; [|reflexivity].
  rewrite Hc, Hu, He. now destruct (ex _ _).
Qed.

Lemma fetch_trades_by_sql_total sql
  (ex : string -> list param -> list row * list string) :
  connect = Return tt -> cursor = Return tt ->
  (forall s ps, execute s ps = Return (ex s ps)) ->
  fetch_trades_by_sql sql
  = Fetch.fetch_trades_by_sql row record row_to_trade_record ex sql.
Proof.
  intros Hc Hu He.
  unfold FallibleStore.fetch_trades_by_sql, Fetch.fetch_trades_by_sql.
  destruct (negb _); [reflexivity|]. rewrite Hc, Hu, He.
  now destruct (ex _ _).
Qed.

(** X6: a filtered query touches the store only once its statement is built,
    and whatever fails afterwards closes the connection it made.  If the
    builder raises, or [connect] raises, the error is passed on and nothing
    is executed or closed.  Otherwise the connection is closed last: with
    nothing executed when no cursor is had; else after one statement went
    to the store, the SELECT over the canonical columns with the parameters
    of the filters followed by the limit and the offset, straight away
    with the error when the execution raises, and otherwise after the rows
    were mapped in order from the first one; records are returned only
    when every row was mapped, one record per row. *)
Theorem fetch_trades_lifecycle (q : TradeQuery) :
  let res := fst (fetch_trades q) in
  let tr := snd (fetch_trades q) in
  match build_where_and_params q with
  | Raise e => res = Raise e /\ tr = []
  | Return (where_sql, params) =>
      let sql := "SELECT " ++ join ", " COLUMNS ++ " FROM TradeHistories"
                 ++ where_sql ++ " ORDER BY " ++ order_by q ++ " "
                 ++ order_dir q ++ " LIMIT %s OFFSET %s" in
      let params := (params ++ [PInt (limit q); PInt (offset q)])%list in
      match connect, cursor with
      | Raise e, _ => res = Raise e /\ tr = []
      | Return _, Raise e => res = Raise e /\ tr = [Connected; Closed]
      | Return _, Return _ =>
          match execute sql params with
          | Raise e =>
              res = Raise e /\ tr = [Connected; Executed sql params; Closed]
          | Return (rows, _) =>
              exists mapped post,
                rows = (mapped ++ post)%list
                /\ tr = (Connected :: Executed sql params
                         :: map RowMapped mapped ++ [Closed])%list
                /\ (forall xs, res = Return xs ->
                               post = []
                               /\ Forall2
                                    (fun r x => row_to_trade_record r = Return x)
                                    rows xs)
          end
      end
  end.
Proof.
  cbv zeta. unfold FallibleStore.fetch_trades.
  destruct (build_where_and_params q) as [[w ps]|e]; [|split; reflexivity].
  destruct connect as [[]|e]; [|split; reflexivity].
  destruct cursor as [[]|e]; [|split; reflexivity].
  destruct (execute _ _) as [[rows description]|e]; [|split; reflexivity].
  match goal with
  | |- context [map_rows _ _ _ rows ?t] =>
      destruct (map_rows_closed row record row_to_trade_record rows t)
        as (mapped & post & E & Ht & Hx)
  end.
  exists mapped, post. unfold close. cbn [fst snd]. rewrite Ht.
  split; [exact E|]. split; [reflexivity|].
  intros xs Hr. destruct (Hx xs Hr) as [Em F]. split; [|exact F].
  rewrite <- Em in E. rewrite <- (List.app_nil_r mapped) in E at 1.
  now apply List.app_inv_head in E.
Qed.

(** X8: a raw query touches the store only when the guard accepts its text,
    and whatever fails afterwards closes the connection it made.  If the
    guard refuses, or [connect] raises, the error is passed on and nothing
    is executed or closed.  Otherwise the connection is closed last: with
    nothing executed when no cursor is had; else after the text went to
    the store once, unchanged and without parameters, straight away when
    the execution raises, when no row comes back or when columns are
    missing, and otherwise after the rows were mapped in order from the
    first one; records are returned only when every row was mapped. *)
Theorem fetch_by_sql_lifecycle (sql : string) :
  let res := fst (fetch_trades_by_sql sql) in
  let tr := snd (fetch_trades_by_sql sql) in
  if negb (is_select_only sql) then res = Raise ValueError_not_select /\ tr = []
  else
    match connect, cursor with
    | Raise e, _ => res = Raise e /\ tr = []
    | Return _, Raise e => res = Raise e /\ tr = [Connected; Closed]
    | Return _, Return _ =>
        match execute sql [] with
        | Raise e => res = Raise e /\ tr = [Connected; Executed sql []; Closed]
        | Return (rows, description) =>
            exists mapped post,
              rows = (mapped ++ post)%list
              /\ tr = (Connected :: Executed sql []
                       :: map RowMapped mapped ++ [Closed])%list
              /\ (missing_columns description <> [] -> mapped = [])
              /\ (forall xs, res = Return xs ->
                             post = []
                             /\ Forall2
                                  (fun r x => row_to_trade_record r = Return x)
                                  rows xs)
        end
    end.
Proof.
  cbv zeta. unfold FallibleStore.fetch_trades_by_sql.
  destruct (negb (is_select_only sql)); [split; reflexivity|].
  destruct connect as [[]|e]; [|split; reflexivity].
  destruct cursor as [[]|e]; [|split; reflexivity].
  destruct (execute sql []) as [[rows description]|e]; [|split; reflexivity].
  destruct rows as [|r rs].
  { exists [], []. unfold close. cbn [fst snd app map].
    split; [reflexivity|]. split; [reflexivity|]. split; [reflexivity|].
    intros xs [= <-]. split; [reflexivity | constructor]. }
  destruct (missing_columns description) as [|m ms].
  - match goal with
    | |- context [map_rows _ _ _ ?l ?t] =>
        destruct (map_rows_closed row record row_to_trade_record l t)
          as (mapped & post & E & Ht & Hx)
    end.
    exists mapped, post. unfold close. cbn [fst snd]. rewrite Ht.
    split; [exact E|]. split; [reflexivity|].
    split; [intros H; now elim H|].
    intros xs Hr. destruct (Hx xs Hr) as [Em F]. split; [|exact F].
    rewrite <- Em in E. rewrite <- (List.app_nil_r mapped) in E at 1.
    now apply List.app_inv_head in E.
  - exists [], (r :: rs). unfold close. cbn [fst snd app map].
    split; [reflexivity|]. split; [reflexivity|].
    split; [reflexivity | discriminate].
Qed.

End FallibleRuns.

(** ** More on the raw query guard *)

Section GuardRuns.
Import PyStr Fetch.

(** Beyond the length of the text, the fuel of the two loops does not
    matter. *)
Lemma strip_blocks_fuel f1 : forall f2 s,
  (String.length s < f1)%nat -> (String.length s < f2)%nat ->
  strip_blocks f1 s = strip_blocks f2 s.
Proof.
  induction f1 as [|k IH]; intros f2 s H1 H2; [lia|].
  destruct f2 as [|k2]; [lia|]. cbn [strip_blocks].
  destruct (startswith "/*" s) eqn:Hs; [|reflexivity].
  destruct (find "*/" s) as [e|]; [|reflexivity].
  apply startswith_length in Hs. cbn [String.length] in Hs.
  pose proof (lstrip_length (drop (e + 2) s)).
  rewrite drop_length in *. apply IH; lia.
Qed.

Lemma strip_lines_fuel f1 : forall f2 s,
  (String.length s < f1)%nat -> (String.length s < f2)%nat ->
  strip_lines f1 s = strip_lines f2 s.
Proof.
  induction f1 as [|k IH]; intros f2 s H1 H2; [lia|].
  destruct f2 as [|k2]; [lia|]. cbn [strip_lines].
  destruct (startswith "--" s) eqn:Hs; [|reflexivity].
  apply startswith_length in Hs. cbn [String.length] in Hs.
  destruct (find NL s) as [n|].
  - pose proof (lstrip_length (drop (n + 1) s)).
    rewrite drop_length in *. apply IH; lia.
  - apply IH; cbn; lia.
Qed.

Lemma strip_blocks_length fuel : forall s,
  (String.length (strip_blocks fuel s) <= String.length s)%nat.
Proof.
  induction fuel as [|k IH]; intros s; cbn [strip_blocks]; [lia|].
  destruct (startswith "/*" s); [|lia].
  destruct (find "*/" s) as [e|]; [|lia].
  pose proof (IH (lstrip (drop (e + 2) s))).
  pose proof (lstrip_length (drop (e + 2) s)).
  rewrite drop_length in *. lia.
Qed.

Lemma strip_blocks_S k s :
  strip_blocks (S k) s
  = if startswith "/*" s then
      match find "*/" s with
      | None => s
      | Some e => strip_blocks k (lstrip (drop (e + 2) s))
      end
    else s.
Proof. reflexivity. Qed.

(** X11: the three characters [/*/] pass for a whole block comment: the end
    marker is looked for from the start of the text, where the [*] of the
    opening marker and the [/] after it are found. *)
Theorem slash_star_slash_is_skipped (rest : string) :
  _strip_leading_comments ("/*/" ++ rest) = _strip_leading_comments rest
  /\ is_select_only ("/*/" ++ rest) = is_select_only rest.
Proof.
  assert (E : _strip_leading_comments ("/*/" ++ rest)
              = _strip_leading_comments rest).
  { unfold _strip_leading_comments.
    change (lstrip ("/*/" ++ rest)) with ("/*/" ++ rest).
    assert (B : strip_blocks (S (String.length ("/*/" ++ rest))) ("/*/" ++ rest)
                = strip_blocks (S (String.length (lstrip rest))) (lstrip rest)).
    { rewrite (strip_blocks_S (String.length ("/*/" ++ rest))).
      change (startswith "/*" ("/*/" ++ rest)) with true.
      replace (find "*/" ("/*/" ++ rest)) with (Some 1%nat)
        by (destruct rest; reflexivity).
      change (drop (1 + 2) ("/*/" ++ rest)) with rest.
      pose proof (lstrip_length rest).
      apply strip_blocks_fuel; cbn [String.append String.length]; lia. }
    rewrite B. apply strip_lines_fuel; lia. }
  split; [exact E|]. unfold is_select_only. now rewrite E.
Qed.


Lemma lstrip_suffix s : exists pre, s = pre ++ lstrip s.
Proof.
  induction s as [|c r [pre IH]]; [now exists ""|]. cbn [lstrip].
  destruct (isspace c); [|now exists ""].
  exists (String c pre). cbn [String.append]. now rewrite <- IH.
Qed.

Lemma drop_suffix n s : exists pre, s = pre ++ drop n s.
Proof. exists (take n s). symmetry. apply take_drop. Qed.

Lemma suffix_trans a b c :
  (exists p, a = p ++ b) -> (exists p, b = p ++ c) -> exists p, a = p ++ c.
Proof.
  intros [p ->] [p' ->]. exists (p ++ p'). 
  induction p as [|x p IH]; [reflexivity|]. cbn [String.append]. now rewrite IH.
Qed.

Lemma strip_blocks_shape fuel : forall s,
  clean_head s ->
  (exists pre, s = pre ++ strip_blocks fuel s)
  /\ clean_head (strip_blocks fuel s).
Proof.
  induction fuel as [|k IH]; intros s Hc; cbn [strip_blocks].
  - split; [now exists "" | exact Hc].
  - destruct (startswith "/*" s); [|split; [now exists "" | exact Hc]].
    destruct (find "*/" s) as [e|]; [|split; [now exists "" | exact Hc]].
    destruct (IH (lstrip (drop (e + 2) s)) (lstrip_clean_head _)) as [Hs Hh].
    split; [|exact Hh].
    eapply suffix_trans; [apply (drop_suffix (e + 2))|].
    eapply suffix_trans; [apply lstrip_suffix | exact Hs].
Qed.

Lemma strip_lines_shape fuel : forall s,
  clean_head s ->
  (exists pre, s = pre ++ strip_lines fuel s)
  /\ clean_head (strip_lines fuel s).
Proof.
  induction fuel as [|k IH]; intros s Hc; cbn [strip_lines].
  - split; [now exists "" | exact Hc].
  - destruct (startswith "--" s); [|split; [now exists "" | exact Hc]].
    destruct (find NL s) as [n|].
    + destruct (IH (lstrip (drop (n + 1) s)) (lstrip_clean_head _)) as [Hs Hh].
      split; [|exact Hh].
      eapply suffix_trans; [apply (drop_suffix (n + 1))|].
      eapply suffix_trans; [apply lstrip_suffix | exact Hs].
    + destruct (IH (lstrip "") I) as [Hs Hh]. split; [|exact Hh].
      eapply suffix_trans; [|exact Hs]. exists s. cbn.
      clear. induction s as [|c r IH]; [reflexivity|]. cbn. now rewrite <- IH.
Qed.

(** X9: what the two loops leave is an end of the text, the part before it
    being all they remove, and never longer than the text; it starts
    neither with white space nor with a line comment. *)
Theorem strip_leading_comments_shape (sql : string) :
  (exists removed, sql = removed ++ _strip_leading_comments sql)
  /\ clean_head (_strip_leading_comments sql)
  /\ startswith "--" (_strip_leading_comments sql) = false
  /\ (String.length (_strip_leading_comments sql) <= String.length sql)%nat.
Proof.
  assert (S1 : exists removed, sql = removed ++ _strip_leading_comments sql).
  { unfold _strip_leading_comments.
    destruct (strip_blocks_shape (S (String.length (lstrip sql))) (lstrip sql)
                (lstrip_clean_head sql)) as [Hb Hc].
    destruct (strip_lines_shape
                (S (String.length (strip_blocks (S (String.length (lstrip sql)))
                                     (lstrip sql))))
                _ Hc) as [Hl _].
    eapply suffix_trans; [apply lstrip_suffix|].
    eapply suffix_trans; [exact Hb | exact Hl]. }
  split; [exact S1|]. split; [|split].
  - unfold _strip_leading_comments.
    apply strip_lines_shape, strip_blocks_shape, lstrip_clean_head.
  - apply strip_leading_comments_done.
  - destruct S1 as [removed E]. rewrite E at 2. rewrite length_app. lia.
Qed.

Lemma lower_char_s c :
  lower_char c = "s"%char -> c = "s"%char \/ c = "S"%char.
Proof.
  destruct c as [[|] [|] [|] [|] [|] [|] [|] [|]]; vm_compute;
    intros H; try discriminate H; auto.
Qed.

Lemma lstrip_spaces ws s :
  all_chars isspace ws = true -> lstrip (ws ++ s) = lstrip s.
Proof.
  induction ws as [|c r IH]; [reflexivity|]. cbn [all_chars].
  intros H. apply andb_true_iff in H as [Hc Hr].
  cbn [String.append lstrip]. rewrite Hc. auto.
Qed.

(** X12: the guard reads the keyword and nothing after it: white space, then
    the six letters of SELECT in either case, then any text at all, is
    accepted. *)
Theorem guard_reads_six_letters (ws kw rest : string) :
  all_chars isspace ws = true ->
  String.length kw = 6%nat -> lower kw = "select" ->
  is_select_only (ws ++ kw ++ rest) = true.
Proof.
  intros Hws Hl Hk.
  destruct kw as [|c1 [|c2 [|c3 [|c4 [|c5 [|c6 [|? ?]]]]]]];
    try discriminate Hl.
  assert (H1 : c1 = "s"%char \/ c1 = "S"%char).
  { apply lower_char_s. cbn [lower] in Hk. now injection Hk. }
  unfold is_select_only, _strip_leading_comments.
  rewrite (lstrip_spaces ws _ Hws). cbn [String.append].
  replace (lstrip (String c1 _)) with
    (String c1 (String c2 (String c3 (String c4 (String c5 (String c6 rest))))))
    by (destruct H1 as [-> | ->]; reflexivity).
  rewrite strip_blocks_S.
  replace (startswith "/*" (String c1 _)) with false
    by (destruct H1 as [-> | ->]; reflexivity).
  cbn [strip_lines].
  replace (startswith "--" (String c1 _)) with false
    by (destruct H1 as [-> | ->]; reflexivity).
  cbn [take]. apply String.eqb_eq. exact Hk.
Qed.

Lemma guard_reads_six_letters_witness :
  all_chars isspace "  " = true /\ String.length "SeLeCt" = 6%nat
  /\ lower "SeLeCt" = "select"
  /\ is_select_only ("  " ++ "SeLeCt" ++ "ed; DROP TABLE t") = true.
Proof.
  split; [reflexivity|]. split; [reflexivity|]. split; [reflexivity|].
  apply guard_reads_six_letters; reflexivity.
Defined.


Lemma prefix_empty s : String.prefix "" s = true.
Proof. now destruct s. Qed.

Lemma find_after (m : string) (a rest : string) :
  (m = "*/" \/ m = NL) ->
  find m a = None -> find m (a ++ m ++ rest) = Some (String.length a).
Proof.
  intros Hm. induction a as [|c r IH]; intros Hf.
  - destruct Hm as [-> | ->]; cbn; destruct rest; reflexivity.
  - cbn [find] in Hf.
    destruct (String.prefix m (String c r)) eqn:Hp; [discriminate|].
    destruct (find m r) as [k|] eqn:Hr; [discriminate|].
    change (String c r ++ m ++ rest) with (String c (r ++ m ++ rest)).
    cbn [find]. rewrite (IH eq_refl). cbn [option_map String.length].
    replace (String.prefix m (String c (r ++ m ++ rest))) with false;
      [reflexivity|].
    symmetry. destruct Hm as [-> | ->].
    + cbn [String.prefix] in Hp |- *.
      destruct (Ascii.ascii_dec "*" c); [|reflexivity].
      destruct r as [|d r']; [reflexivity|].
      cbn [String.append String.prefix] in Hp |- *.
      destruct (Ascii.ascii_dec "/" d); [|reflexivity].
      now rewrite prefix_empty in Hp.
    + unfold NL in *. cbn [String.prefix] in Hp |- *.
      destruct (Ascii.ascii_dec _ c); [|reflexivity].
      now rewrite prefix_empty in Hp.
Qed.

Lemma strip_lines_S k s :
  strip_lines (S k) s
  = if startswith "--" s then
      match find NL s with
      | None => strip_lines k (lstrip "")
      | Some n => strip_lines k (lstrip (drop (n + 1) s))
      end
    else s.
Proof. reflexivity. Qed.

Lemma startswith_app p r : startswith p (p ++ r) = true.
Proof.
  unfold startswith. induction p as [|c p IH]; [apply prefix_empty|].
  cbn [String.append String.prefix].
  destruct (Ascii.ascii_dec c c) as [_|N]; [exact IH | now elim N].
Qed.

Lemma drop_app a b : drop (String.length a) (a ++ b) = b.
Proof. induction a as [|c r IH]; [now destruct b | exact IH]. Qed.

(** X10: a closed block comment at the head of a text is skipped, with the white
    space after it; so is a line comment, provided no block comment comes
    next. *)
Theorem leading_comment_skipped (body rest : string) :
  (find "*/" ("/*" ++ body) = None ->
   _strip_leading_comments ("/*" ++ body ++ "*/" ++ rest)
   = _strip_leading_comments rest)
  /\ (find NL ("--" ++ body) = None ->
      startswith "/*" (lstrip rest) = false ->
      _strip_leading_comments ("--" ++ body ++ NL ++ rest)
      = _strip_leading_comments rest).
Proof.
  split.
  - intros Hf. unfold _strip_leading_comments.
    set (s := "/*" ++ body ++ "*/" ++ rest).
    assert (Es : s = ("/*" ++ body) ++ "*/" ++ rest) by reflexivity.
    change (lstrip s) with s.
    assert (B : strip_blocks (S (String.length s)) s
                = strip_blocks (S (String.length (lstrip rest))) (lstrip rest)).
    { rewrite strip_blocks_S. unfold s at 1. rewrite startswith_app. fold s.
      rewrite Es, (find_after "*/" _ rest (or_introl eq_refl) Hf).
      replace (String.length ("/*" ++ body) + 2)%nat
        with (String.length (("/*" ++ body) ++ "*/")).
      2:{ rewrite length_app. reflexivity. }
      replace (("/*" ++ body) ++ "*/" ++ rest)
        with ((("/*" ++ body) ++ "*/") ++ rest).
      2:{ cbn [String.append]. do 2 f_equal.
          clear. induction body as [|c r IH]; [reflexivity|].
          cbn [String.append]. now rewrite IH. }
      rewrite drop_app. pose proof (lstrip_length rest).
      apply strip_blocks_fuel; rewrite ?length_app; cbn [String.length]; lia. }
    rewrite B. apply strip_lines_fuel; lia.
  - intros Hf Hb. unfold _strip_leading_comments.
    set (s := "--" ++ body ++ NL ++ rest).
    assert (Es : s = ("--" ++ body) ++ NL ++ rest) by reflexivity.
    change (lstrip s) with s.
    rewrite (strip_blocks_S (String.length s) s).
    change (startswith "/*" s) with false. cbv iota.
    rewrite (strip_blocks_S (String.length (lstrip rest))), Hb.
    rewrite (strip_lines_S (String.length s) s).
    unfold s at 1. rewrite startswith_app. fold s.
    rewrite Es, (find_after NL _ rest (or_intror eq_refl) Hf).
    replace (String.length ("--" ++ body) + 1)%nat
      with (String.length (("--" ++ body) ++ NL)).
    2:{ rewrite length_app. reflexivity. }
    replace (("--" ++ body) ++ NL ++ rest)
      with ((("--" ++ body) ++ NL) ++ rest).
    2:{ cbn [String.append]. do 2 f_equal.
        clear. induction body as [|c r IH]; [reflexivity|].
        cbn [String.append]. now rewrite IH. }
    rewrite drop_app. pose proof (lstrip_length rest).
    apply strip_lines_fuel; rewrite ?length_app; cbn [String.length]; lia.
Qed.

Lemma leading_comment_skipped_witness :
  (find "*/" ("/*" ++ " header ") = None
   /\ _strip_leading_comments ("/*" ++ " header " ++ "*/" ++ " SELECT 1")
      = "SELECT 1")
  /\ (find NL ("--" ++ " note") = None
      /\ startswith "/*" (lstrip "SELECT 1") = false
      /\ _strip_leading_comments ("--" ++ " note" ++ NL ++ "SELECT 1")
         = "SELECT 1").
Proof.
  split.
  - split; [reflexivity|].
    rewrite (proj1 (leading_comment_skipped " header " " SELECT 1") eq_refl).
    reflexivity.
  - split; [reflexivity|]. split; [reflexivity|].
    rewrite (proj2 (leading_comment_skipped " note" "SELECT 1")
               eq_refl eq_refl).
    reflexivity.
Defined.

End GuardRuns.

(** ** More on the CSV row filter *)

Section FilterRuns.
Import PyStr Filtertrade.

Variable number : Type.
Variable is_zero : number -> bool.
Variable parse_number : string -> option number.
Variable show_number : number -> string.

Local Abbreviation DataFrame := (Filtertrade.DataFrame number).
Local Abbreviation filter_chunk :=
  (Filtertrade.filter_chunk number is_zero parse_number show_number).
Local Abbreviation filter_csv :=
  (Filtertrade.filter_csv number is_zero parse_number show_number).
Local Abbreviation filter_loop :=
  (Filtertrade.filter_loop number is_zero parse_number show_number).
Local Abbreviation keep_row :=
  (Filtertrade.keep_row number is_zero parse_number show_number).

Lemma filter_chunk_keep (df : DataFrame) :
  In "magic" (columns df) ->
  filter_chunk df
  = Return (mkFrame (columns df) (filter (keep_row (columns df)) (rows df))).
Proof.
  intros Hm. unfold Filtertrade.filter_chunk, Filtertrade.keep_row.
  destruct (index_of "magic" (columns df)) as [im|] eqn:Em.
  2:{ apply (index_of_none number parse_number) in Em. now elim Em. }
  destruct (index_of "comment" (columns df)) as [ic|].
  - rewrite magic_mask, cancelled_mask, mask_or_map, loc_not_map.
    reflexivity.
  - rewrite magic_mask, loc_not_map. reflexivity.
Qed.

Lemma filter_filter {A} (p : A -> bool) l :
  filter p (filter p l) = filter p l.
Proof.
  induction l as [|x l IH]; [reflexivity|]. cbn [filter].
  destruct (p x) eqn:E; [cbn [filter]; rewrite E, IH|]; auto.
Qed.

(** X13: filtering what the filter kept changes nothing. *)
Theorem filter_chunk_idempotent (df out : DataFrame) :
  filter_chunk df = Return out -> filter_chunk out = Return out.
Proof.
  intros H.
  assert (Hm : In "magic" (columns df)).
  { destruct (in_dec string_dec "magic" (columns df)) as [Hi|Hn]; [exact Hi|].
    apply (index_of_none number parse_number) in Hn. unfold Filtertrade.filter_chunk in H.
    rewrite Hn in H. discriminate H. }
  rewrite (filter_chunk_keep df Hm) in H. injection H as <-.
  rewrite filter_chunk_keep by exact Hm. cbn [columns rows].
  now rewrite filter_filter.
Qed.


End FilterRuns.

Lemma filter_chunk_idempotent_witness :
  Filtertrade.filter_chunk Z (Z.eqb 0) Filtertrade.parse_digits
    PyStr.str_of_int Filtertrade.SAMPLE_FRAME
  = Return (Filtertrade.mkFrame ["id"; "magic"; "comment"]
              [ [Filtertrade.Num 4; Filtertrade.Num 5;
                 Filtertrade.Text "filled"];
                [Filtertrade.Num 5; Filtertrade.Text "abc";
                 Filtertrade.Text "filled"] ])
  /\ Filtertrade.filter_chunk Z (Z.eqb 0) Filtertrade.parse_digits
       PyStr.str_of_int
       (Filtertrade.mkFrame ["id"; "magic"; "comment"]
          [ [Filtertrade.Num 4; Filtertrade.Num 5; Filtertrade.Text "filled"];
            [Filtertrade.Num 5; Filtertrade.Text "abc";
             Filtertrade.Text "filled"] ])
     = Return (Filtertrade.mkFrame ["id"; "magic"; "comment"]
                 [ [Filtertrade.Num 4; Filtertrade.Num 5;
                    Filtertrade.Text "filled"];
                   [Filtertrade.Num 5; Filtertrade.Text "abc";
                    Filtertrade.Text "filled"] ]).
Proof.
  split; [reflexivity|].
  exact (filter_chunk_idempotent Z (Z.eqb 0) Filtertrade.parse_digits
           PyStr.str_of_int Filtertrade.SAMPLE_FRAME _ eq_refl).
Defined.
